(* ===== verification/_CoqProject ===== *)
-Q . S2P
Prelude.v
Js.v
JsonValue.v
Platform.v
Base64.v
JsonParse.v
JsonPrint.v
Config.v
TokenValidator.v
Bootstrapper.v
LoginFlow.v
Tickets.v
LegacyLogin.v
IssuerToken.v
TicketView.v
Layout.v
PagesView.v
