(* ===== verification/Prelude.v ===== *)
(** * A verification development for the helpdesk web application

    The program (a React + TypeScript single-page app under [src/src/])
    lets corporate users sign in with Google and then manage support
    tickets kept in component state.  Its parts and how they interact:

    - configuration read once from the build environment
      ([auth-service.ts]: [GOOGLE_CLIENT_ID], [GOOGLE_WORKSPACE_DOMAIN],
      [ALLOWED_DOMAIN], [validateEnvironment], [getConfig]);
    - the Identity Bootstrapper ([AuthService.initializeGoogle] and the
      methods after it): injects the Google script, races its
      [onload]/[onerror] against a 10 s timer, settles one promise,
      registers [handleCredentialResponse], which re-emits the credential
      as a [googleSignInSuccess] window event;
    - the Token Validator ([decodeJwt], [validateToken]): splits the
      token, decodes the payload with [atob] and [JSON.parse], applies
      the domain allow-list and [email_verified], builds the [User];
    - the [useAuth] hook and [LoginPage] ([login-page.tsx]) that wire the
      event to the validator and hand the user to [App] ([App.tsx]);
    - [MainLayout] ([main-layout-old.tsx]) showing one of the tickets,
      settings and reports pages under a header with the user's initials;
    - the tickets page and its children ([tickets-page.tsx],
      [ticket-list.tsx], [ticket-form.tsx], [ticket-card.tsx],
      [ticket-details.tsx]); the settings page ([settings-page.tsx]); the
      reports page ([reports-page.tsx], fixed data);
    - the legacy e-mail login page ([login-page-old.tsx]).

    ** Files (each after the files it requires)

    - [Prelude]: this header; the scope [hd_scope]; the error monad
      [res] for JavaScript exceptions (stdpp's [MRet]/[MBind]/[FMap], so
      [x ← m; k] reads like the code); the hint databases [helpdesk] and
      [suffix]; tactics; lemmas on [res], ranges of integers, invariants
      of step relations ([rtc_preserved]) and suffixes of lists.
    - [Js]: strings as lists of UTF-16 code units ([jstr], literals with
      [%js]); the [String.prototype] methods the code calls ([split] on
      one unit, [join], [endsWith], [startsWith], [includes], [replace]
      of one unit) with their laws ([join_split], [split_join],
      [split_on_two]); exceptions and the console.
    - [JsonValue]: the values [JSON.parse] produces, truthiness, property
      reads, [||].
    - [Platform]: the browser interfaces the validator relies on, as
      type classes: [Base64Api] ([atob], with an encoder and the
      decode-after-encode law) and [JsonApi] ([JSON.parse]); the
      validator's theorems hold for every instance.
    - [Base64]: WHATWG forgiving-base64 [atob], [btoa], their round trip
      ([atob_btoa_roundtrip]) and the instance.
    - [JsonParse]: [JSON.parse] as a recursive-descent parser on fuel;
      every parse returns a suffix of its input, the fuel
      [length text + 1] is always enough and more fuel gives the same
      result ([p_value_fuel], [json_parse_fuel_enough]); the instance.
    - [JsonPrint]: a printer of [json] values ([json_print], with
      [Z_toString] and string escapes) and the round trip
      [json_parse (json_print v) = Ok v] on well-formed values
      ([json_parse_print]): the [JsonPrinter] instance that builds test
      tokens.
    - [Config]: the environment record and the constants derived from
      it; [validateEnvironment]'s domain check can never fire and
      [getConfig] hides the client id (C5, C6).
    - [TokenValidator]: [decodeJwt] and [validateToken] on every branch
      (C1-C4): the exact success condition, the name default, the
      advisory issuer check, the base64url round trip of the payload
      segment.  The rejections are lemmas: the code rejects with an
      [Error] where the doc comment of [validateToken] promises [null]
      (a finding); the spec's error taxonomy as an abstract outcome with
      a refinement lemma; the termination of the parse [decodeJwt] runs.
    - [Bootstrapper]: the service's state (window global, scripts,
      timers, promises, SDK calls, dispatched events) and its methods and
      browser events as a step relation [bstep]; the invariant
      [boot_inv] of reachable states; timeout liveness, late load, a
      load error that leaves its timer scheduled, duplicate scripts,
      logout, relayed credentials (C7-C9, C11, C13-C15).
    - [LoginFlow]: [useAuth]'s state, [LoginPage]'s effects and view,
      [App]'s user, interleaved with the service's events as [sstep]
      (C17-C20).
    - [Tickets]: the tickets page with its mounted children's state, the
      list filter, the form, the details editor, the card's [getTimeAgo];
      ids as creation times, the stale selection after a save, deletion,
      the stored tickets' required fields (C21-C25, C28).
    - [TicketView]: what the ticket components render (counters, tabs,
      list, cards, details, form) as view records, and the date
      [toLocaleDateString('pt-BR')] prints, by the civil calendar of the
      local day; cards selected by id (C26); a UTC-midnight ticket shows
      the previous day west of UTC (C27).
    - [LegacyLogin]: the legacy page's state, typing, submission and timer
      callback; the e-mail regular expression as a language and as a test
      proved equal; [encodeURIComponent] per ECMAScript and its output
      bound; the callback's sign-in condition, the page's invariant and
      liveness (C29-C31).
    - [Layout]: [MainLayout]'s pages and navigation, the settings page
      (its tabs, each control acting on its own tab) and the reports
      data, [App]'s sign-in, sign-out and crash on a throwing render, as
      [app_step] (C10, C16).
    - [PagesView]: what [MainLayout], [SettingsPage] and [ReportsPage]
      render, as view records: one highlighted navigation button naming
      the page shown, the active settings tab, the reports page's active
      tab with its labels, widths and colours; from a token
      [validateToken] accepts to the committed first screen (C32).
      [LegacyLogin] holds the legacy page's render ([legacy_render]) and
      that its disabled controls are the ones its step refuses.
    - [IssuerToken]: tokens as the issuer writes them (the UTF-8 bytes
      of the printed claims, base64url-encoded); [decodeJwt] returns the
      claims with every string read byte by byte, so a non-ASCII name
      reaches the header garbled (C12: "João" becomes "JoÃ£o").

    ** Theorems

    Functional behaviour of each operation on every branch, errors
    included; invariants of the reachable states of each step relation
    (proved by [rtc_preserved] from a one-step lemma); a refinement of the
    spec's error taxonomy; round trips (Base64, JSON, the token's payload
    segment (C4), ticket ids as decimal strings (C21), the profile's name
    fields); bounds of [encodeURIComponent]; liveness of the SDK timeout
    (C7) and of the legacy page's timer (C31); termination of the JSON
    parse within its fuel; and the compositions that expose defects: a
    token with a non-string [name] crashes [MainLayout] (C10) while one
    with a string name reaches the tickets page (C32), leaving the
    tickets page discards every ticket (C16), a stale [TicketDetails]
    writes back the first ticket (C23), a save selects a ticket the list
    no longer holds (C24), tickets created in the same millisecond share
    an id and a selection (C22, C26), a name outside ASCII is not
    decoded from UTF-8 (C12).

    ** Bounds and fuel

    [JSON.parse] runs on fuel [length text + 1], enough by [p_value_fuel];
    the text [decodeJwt] parses is no longer than the token, so fuel
    above the token's length gives the same result
    ([decodeJwt_parse_terminates]).  Dates are
    computed for a fixed time-zone offset in minutes, a parameter of the
    views (the browser's zone, constant during a session).
    [Z_toString] (ticket ids) runs on [log2 n + 1] digits, enough for
    every [n ≥ 0] by [Z_toString_roundtrip].  Time values are integers of
    milliseconds; the code's [Date] arithmetic stays far below [2^53], so
    doubles are exact there and are not modelled.

    ** Not modelled

    Rendering (JSX markup, CSS, icons) beyond what a render evaluates;
    the chart widgets of the reports page (recharts, a library the page
    only calls) and floating-point rounding of its labels; Unicode case
    mapping ([toUpperCase], [toLowerCase]: parameters); the Google SDK
    internals (only the calls the code makes); the network; more than
    one [AuthService] object ([getInstance] fills its static slot once,
    so the one [bstate] is the one service); the uncontrolled inputs and
    selects whose values the pages never read.

    ** Plan

    Daylight-saving offsets that vary with the date. *)

From stdpp Require Export base list decidable strings relations.
From Stdlib Require Export ZArith Lia.

Declare Scope hd_scope.
Delimit Scope hd_scope with hd.
Open Scope Z_scope.

(** ** Exceptions as values: the error monad [res]

    A computation that may throw returns [Ok a] or [Throw e].  The
    instances below let the definitions use stdpp's [x ← m; k]. *)

Inductive res (E A : Type) : Type :=
| Ok (a : A)
| Throw (e : E).
Arguments Ok {E A} a.
Arguments Throw {E A} e.

#[export] Instance res_ret {E} : MRet (res E) := λ A a, Ok a.
#[export] Instance res_bind {E} : MBind (res E) := λ A B f m,
  match m with Ok a => f a | Throw e => Throw e end.
#[export] Instance res_fmap {E} : FMap (res E) := λ A B f m,
  match m with Ok a => Ok (f a) | Throw e => Throw e end.

(** [try { m } catch (e) { h e }]: run the handler on a thrown value. *)
Definition res_catch {E A} (m : res E A) (h : E → res E A) : res E A :=
  match m with Ok a => Ok a | Throw e => h e end.

Definition is_ok {E A} (m : res E A) : bool :=
  match m with Ok _ => true | Throw _ => false end.

Create HintDb helpdesk discriminated.
Create Rewrite HintDb helpdesk_rw.

(** ** Generic lemmas on [res] *)

Section ResLemmas.
  Context {E A B : Type}.

Lemma bind_Ok (m : res E A) (f : A → res E B) (b : B) :
    (m ≫= f) = Ok b ↔ ∃ a, m = Ok a ∧ f a = Ok b.
  Proof.
    destruct m as [a|e]; simpl; split.
    - intros H. eauto.
    - intros (a' & [= ->] & H). exact H.
    - intros H. discriminate.
    - intros (a' & H & _). discriminate.
  Qed.

Lemma bind_Throw_l (e : E) (f : A → res E B) :
    (Throw e ≫= f) = Throw e.
  Proof. reflexivity. Qed.

Lemma bind_Ok_l (a : A) (f : A → res E B) :
    (Ok a ≫= f) = f a.
  Proof. reflexivity. Qed.

Lemma fmap_Ok (f : A → B) (m : res E A) (b : B) :
    (f <$> m) = Ok b ↔ ∃ a, m = Ok a ∧ b = f a.
  Proof. destruct m as [a|e]; simpl; split; [intros [= <-]; eauto | naive_solver | done | naive_solver]. Qed.

Lemma catch_Ok (m : res E A) h a : res_catch m h = Ok a →
    m = Ok a ∨ ∃ e, m = Throw e ∧ h e = Ok a.
  Proof. destruct m; simpl; eauto. Qed.
End ResLemmas.

#[export] Hint Rewrite @bind_Throw_l @bind_Ok_l : helpdesk_rw.

(** ** Tactics shared by the development *)

(** Invert an equation between constructors and substitute. *)
Ltac invc H := inversion H; subst; clear H.

(** Case on the scrutinee of the first [match] or [if] of the goal,
    remembering the equation. *)
Ltac case_goal :=
  match goal with
  | |- context [match ?x with _ => _ end] =>
      let E := fresh "E" in destruct x eqn:E
  end.

(** Break every hypothesis [Forall P (x :: l)] into [P x] and [Forall P l]. *)
Ltac forall_cons_inv :=
  repeat match goal with
  | H : Forall _ (_ :: _) |- _ => inversion H; subst; clear H
  end.

(** Split a hypothesis [m ≫= f = Ok b] into its two halves. *)
Ltac bind_inv H :=
  let a := fresh "a" in let Ha := fresh "Ha" in let Hf := fresh "Hf" in
  apply bind_Ok in H as (a & Ha & Hf).

(** ** Finite ranges of integers

    A property of every integer of [lo, lo + n) follows from its check on
    the list of them, which [vm_compute] evaluates when [P] is decidable. *)
Lemma forall_Z_range (P : Z → Prop) (lo : Z) (n : nat) :
  Forall P (map (λ i, lo + Z.of_nat i) (seq 0 n)) →
  ∀ v, lo ≤ v < lo + Z.of_nat n → P v.
Proof.
  intros HP v Hv. rewrite List.Forall_forall in HP. apply HP.
  apply in_map_iff. exists (Z.to_nat (v - lo)). split; [lia|].
  apply in_seq. lia.
Qed.

(** Indexing the Standard Library's [map] (the code's [Array.map]). *)
Lemma lookup_map {A B} (f : A → B) (l : list A) (i : nat) : map f l !! i = f <$> l !! i.
Proof. revert i. induction l as [|x l IH]; intros [|i]; simpl; auto. Qed.

(** [List.filter] keeps a list whose elements all pass. *)
Lemma filter_all_true {A} (f : A → bool) (l : list A) :
  Forall (λ x, f x = true) l → List.filter f l = l.
Proof. induction 1 as [|x l Hx _ IH]; simpl; [done|]. by rewrite Hx, IH. Qed.

(** Close [P v] under [lo ≤ v < lo + n] for a decidable [P] by
    evaluating [P] on the whole range. *)
Ltac range_check v lo n :=
  pattern v; apply (forall_Z_range _ lo n); [apply (bool_decide_unpack _); vm_compute; reflexivity | lia].

(** ** Invariants of step relations *)

(** A property every step preserves holds along every run. *)
Lemma rtc_preserved {A} (R : relation A) (P : A → Prop) :
  (∀ x y, P x → R x y → P y) → ∀ x y, rtc R x y → P x → P y.
Proof. intros Hstep x y Hr. induction Hr as [|x y z Hxy _ IH]; [done|]. eauto. Qed.

(** ** Suffixes of lists

    Parsers return the rest of their input; the database [suffix] chains
    the facts [r `suffix_of` s] they leave, through conses dropped from
    the front. *)
Create HintDb suffix discriminated.
#[export] Hint Resolve suffix_cons_r : suffix.
#[export] Hint Extern 0 (?a `suffix_of` ?a) => reflexivity : suffix.
#[export] Hint Extern 3 (?a `suffix_of` _) =>
  match goal with H : ?l `suffix_of` _ |- _ =>
    transitivity l; [solve [repeat apply suffix_cons_r; reflexivity] | ] end : suffix.
#[export] Hint Extern 2 (?a `suffix_of` ?c) =>
  match goal with H : a `suffix_of` ?b |- _ => transitivity b; [exact H|] end : suffix.
