(* ===== verification/Js.v ===== *)
(** * JavaScript strings, exceptions and the console

    A JavaScript string is a sequence of UTF-16 code units; it is
    modelled as [list Z] (each unit in [0, 0xFFFF]).  String literals of
    the TypeScript source are written here as Rocq literals, whose bytes
    are UTF-8, and the notation [%js] decodes them into UTF-16 code
    units, so that the literal for the Portuguese word for not is the
    three units [n], [ã], [o] as in the source.  The [String.prototype] methods the code calls are
    defined on these lists, with the lemmas the components share. *)

From S2P Require Import Prelude.

Abbreviation jstr := (list Z).

(** ** Literals: UTF-8 source text to UTF-16 code units

    A literal ["não"%js] is the list of UTF-16 code units of the source
    text, computed when the file is read: the bytes of the Rocq literal
    are UTF-8 and [utf8_decode] turns them into code units (a scalar value
    above [0xFFFF] becomes a surrogate pair).  Printing goes back through
    [utf8_encode] for lists of printable units. *)

Definition byte_val (b : Byte.byte) : Z := Z.of_N (Byte.to_N b).

Definition utf16_of_scalar (cp : Z) : jstr :=
  if cp <? 0x10000 then [cp]
  else let c := cp - 0x10000 in
       [0xD800 + c / 1024; 0xDC00 + c mod 1024].

Fixpoint utf8_decode (l : list Byte.byte) : jstr :=
  match l with
  | [] => []
  | a :: r =>
      let b0 := byte_val a in
      if b0 <? 0x80 then b0 :: utf8_decode r
      else match r with
           | a1 :: r1 =>
               let b1 := byte_val a1 - 0x80 in
               if b0 <? 0xE0 then utf16_of_scalar ((b0 - 0xC0) * 64 + b1) ++ utf8_decode r1
               else match r1 with
                    | a2 :: r2 =>
                        let b2 := byte_val a2 - 0x80 in
                        if b0 <? 0xF0 then
                          utf16_of_scalar ((b0 - 0xE0) * 4096 + b1 * 64 + b2) ++ utf8_decode r2
                        else match r2 with
                             | a3 :: r3 =>
                                 utf16_of_scalar ((b0 - 0xF0) * 262144 + b1 * 4096 + b2 * 64
                                                  + (byte_val a3 - 0x80)) ++ utf8_decode r3
                             | [] => [b0]
                             end
                    | [] => [b0]
                    end
           | [] => [b0]
           end
  end.

(** UTF-8 bytes of one code unit in [0x20, 0xD800), for printing. *)
Definition utf8_of_unit (u : Z) : option (list Byte.byte) :=
  let byte (z : Z) := Byte.of_N (Z.to_N z) in
  if (u <? 0x20) || (0xD800 <=? u) then None
  else if u <? 0x80 then b ← byte u; Some [b]
  else if u <? 0x800 then
    b1 ← byte (0xC0 + u / 64); b2 ← byte (0x80 + u mod 64); Some [b1; b2]
  else b1 ← byte (0xE0 + u / 4096); b2 ← byte (0x80 + (u / 64) mod 64);
       b3 ← byte (0x80 + u mod 64); Some [b1; b2; b3].

Fixpoint utf8_encode (s : jstr) : option (list Byte.byte) :=
  match s with
  | [] => Some []
  | u :: r => b ← utf8_of_unit u; t ← utf8_encode r; Some (b ++ t)
  end.

(** The notation goes through a monomorphic copy of [list Z]. *)
Inductive units := UNil | UCons (u : Z) (r : units).

Fixpoint units_of (s : jstr) : units :=
  match s with [] => UNil | u :: r => UCons u (units_of r) end.
Fixpoint jstr_of (s : units) : jstr :=
  match s with UNil => [] | UCons u r => u :: jstr_of r end.

Definition parse_js (l : list Byte.byte) : units := units_of (utf8_decode l).
Definition print_js (s : units) : option (list Byte.byte) := utf8_encode (jstr_of s).

Declare Scope js_scope.
Delimit Scope js_scope with js.
#[warnings="-via-type-mismatch"]
String Notation list parse_js print_js (via units mapping [[nil] => UNil, [cons] => UCons]) : js_scope.

(** ** [String.prototype] methods *)

(** [s.endsWith(t)] and [s.startsWith(t)] (no position argument). *)
Definition ends_with (s t : jstr) : bool := bool_decide (t `suffix_of` s).
Definition starts_with (s t : jstr) : bool := bool_decide (t `prefix_of` s).

(** [s.split(c)] for a separator string of one code unit [c]: the
    pieces between the occurrences of [c]; the empty string splits to a
    list holding the empty string. *)
Fixpoint split_on (c : Z) (s : jstr) : list jstr :=
  match s with
  | [] => [[]]
  | x :: r =>
      let parts := split_on c r in
      if decide (x = c) then [] :: parts
      else match parts with
           | p :: ps => (x :: p) :: ps
           | [] => [[x]]
           end
  end.

(** [parts.join(c)], the inverse of [split_on]. *)
Fixpoint join_on (c : Z) (parts : list jstr) : jstr :=
  match parts with
  | [] => []
  | [p] => p
  | p :: ps => p ++ c :: join_on c ps
  end.

(** [s.replace(/a/g, b)] for one-unit patterns [a] and [b]. *)
Definition replace_all (a b : Z) (s : jstr) : jstr :=
  map (λ x, if decide (x = a) then b else x) s.

(** [s.split(c)[0]]: [split] never returns an empty array. *)
Definition split_first (c : Z) (s : jstr) : jstr := default [] (head (split_on c s)).

(** Character codes used by the code. *)
Definition ch_dot : Z := 0x2E.   (* '.' *)
Definition ch_at : Z := 0x40.    (* '@' *)
Definition ch_minus : Z := 0x2D. (* '-' *)
Definition ch_plus : Z := 0x2B.  (* '+' *)
Definition ch_under : Z := 0x5F. (* '_' *)
Definition ch_slash : Z := 0x2F. (* '/' *)
Definition ch_space : Z := 0x20. (* ' ' *)

(** ** Exceptions and the console *)

(** A thrown value.  Every value the modelled code throws or receives
    from the platform is an instance of [Error] ([Error], [TypeError],
    [SyntaxError], [DOMException]): its constructor name and message. *)
Record exn := JsErr { exn_name : jstr; exn_message : jstr }.

(** [new Error(msg)] *)
Definition new_Error (msg : jstr) : exn := JsErr "Error"%js msg.

(** [error instanceof Error ? error.message : fallback]: all modelled
    exceptions are [Error] instances, so the message is taken. *)
Definition message_or (e : exn) (fallback : jstr) : jstr := exn_message e.

(** An argument passed to [console.*]. *)
Inductive log_arg := ArgStr (s : jstr) | ArgExn (e : exn).

Inductive console_entry :=
| ConsoleLog (args : list log_arg)
| ConsoleWarn (args : list log_arg)
| ConsoleError (args : list log_arg).

Abbreviation console := (list console_entry).

(** [s.includes(t)]: [t] occurs in [s] at some position. *)
Fixpoint includes (s t : jstr) : bool :=
  starts_with s t || match s with [] => false | _ :: r => includes r t end.

(** ** Lemmas on strings *)

Lemma split_on_not_nil c s : split_on c s ≠ [].
Proof.
  induction s as [|x r IH]; simpl; [done|].
  case_decide; [done|]. destruct (split_on c r); done.
Qed.

Lemma split_on_cons_ne c x r p ps :
  x ≠ c → split_on c r = p :: ps → split_on c (x :: r) = (x :: p) :: ps.
Proof. intros Hne Hr. simpl. rewrite Hr. by case_decide. Qed.

(** Splitting [a ++ c :: b] where [a] has no [c]. *)
Lemma split_on_app_sep c a b :
  c ∉ a → split_on c (a ++ c :: b) = a :: split_on c b.
Proof.
  induction a as [|x a IH]; intros Hc; simpl.
  - by case_decide.
  - apply not_elem_of_cons in Hc as [Hx Ha].
    rewrite IH by done. case_decide; [congruence | done].
Qed.

Lemma split_on_nosep c a : c ∉ a → split_on c a = [a].
Proof.
  induction a as [|x a IH]; intros Hc; simpl; [done|].
  apply not_elem_of_cons in Hc as [Hx Ha].
  rewrite IH by done. case_decide; [congruence | done].
Qed.

Lemma split_on_parts_nosep c s : Forall (λ p, c ∉ p) (split_on c s).
Proof.
  induction s as [|x r IH]; simpl.
  - constructor; [apply not_elem_of_nil | constructor].
  - case_decide; [constructor; [apply not_elem_of_nil | done]|].
    destruct (split_on c r) as [|p ps] eqn:E; [by destruct (split_on_not_nil c r)|].
    inversion IH; subst. constructor; [|done]. apply not_elem_of_cons; auto.
Qed.

Lemma join_split c s : join_on c (split_on c s) = s.
Proof.
  induction s as [|x r IH]; simpl; [done|].
  case_decide; subst.
  - destruct (split_on c r) as [|p ps] eqn:E; [by destruct (split_on_not_nil c r)|].
    simpl. rewrite <- IH. destruct ps; simpl; [done|]. done.
  - destruct (split_on c r) as [|p ps] eqn:E; [by destruct (split_on_not_nil c r)|].
    destruct ps; simpl in *; subst; done.
Qed.

Lemma join_on_part_length c ps p : p ∈ ps → (length p ≤ length (join_on c ps))%nat.
Proof.
  induction ps as [|q [|q' ps] IH]; simpl; intros Hp; [set_solver| |].
  - apply elem_of_cons in Hp as [->|Hp]; [lia|set_solver].
  - rewrite length_app. simpl. apply elem_of_cons in Hp as [->|Hp]; [lia|].
    specialize (IH Hp). simpl in IH. lia.
Qed.

(** Every piece of [s.split(c)] is at most as long as [s]. *)
Lemma split_on_part_length c s p : p ∈ split_on c s → (length p ≤ length s)%nat.
Proof. intros Hp. rewrite <- (join_split c s). by apply join_on_part_length. Qed.

(** Round trip: splitting the join of pieces without [c] gives them back. *)
Lemma split_join c ps :
  ps ≠ [] → Forall (λ p, c ∉ p) ps → split_on c (join_on c ps) = ps.
Proof.
  induction ps as [|p ps IH]; intros Hne Hf; [done|].
  inversion Hf as [|? ? Hp Hps]; subst.
  destruct ps as [|q qs].
  - simpl. by apply split_on_nosep.
  - change (join_on c (p :: q :: qs)) with (p ++ c :: join_on c (q :: qs)).
    rewrite split_on_app_sep by done. rewrite IH; done.
Qed.

Lemma ends_with_spec s t : ends_with s t = true ↔ ∃ p, s = p ++ t.
Proof. unfold ends_with. by rewrite bool_decide_eq_true. Qed.

Lemma starts_with_spec s t : starts_with s t = true ↔ ∃ r, s = t ++ r.
Proof. unfold starts_with. by rewrite bool_decide_eq_true. Qed.

Lemma split_on_two c s a d :
  split_on c s = [a; d] ↔ s = a ++ c :: d ∧ c ∉ a ∧ c ∉ d.
Proof.
  split.
  - intros H. pose proof (join_split c s) as Hj. rewrite H in Hj. simpl in Hj.
    pose proof (split_on_parts_nosep c s) as Hp. rewrite H in Hp.
    apply Forall_cons in Hp as [Ha Hp]. apply Forall_cons in Hp as [Hd _]. done.
  - intros (-> & Ha & Hd). by rewrite split_on_app_sep, split_on_nosep.
Qed.

Lemma includes_spec s t : includes s t = true ↔ ∃ a b, s = a ++ t ++ b.
Proof.
  induction s as [|x r IH]; simpl; rewrite orb_true_iff, starts_with_spec.
  - split; [intros [[b Hb]|Hf]; [by exists [], b|discriminate]|].
    intros (a & b & Ha). left. destruct a; [by exists b|done].
  - rewrite IH. split.
    + intros [[b Hb]|(a & b & ->)]; [by exists [], b|by exists (x :: a), b].
    + intros ([|y a] & b & Hs); [left; by exists b|right].
      injection Hs as -> ->. by exists a, b.
Qed.

Lemma split_first_app c a b : c ∉ a → split_first c (a ++ c :: b) = a.
Proof.
  intros Hc. unfold split_first. rewrite split_on_app_sep by done. done.
Qed.

Lemma split_first_nosep c a : c ∉ a → split_first c a = a.
Proof. intros Hc. unfold split_first. by rewrite split_on_nosep. Qed.

(** [s.split(c)[0]] is the text before the first [c]. *)
Lemma split_first_elem c s :
  c ∈ s → (c ∉ split_first c s) ∧ (∃ b, s = split_first c s ++ c :: b).
Proof.
  induction s as [|x r IH]; intros Hc; [by apply not_elem_of_nil in Hc|].
  destruct (decide (x = c)) as [->|Hne].
  - assert (Hs : split_first c (c :: r) = []) by (unfold split_first; simpl; by case_decide).
    rewrite Hs. split; [apply not_elem_of_nil | by exists r].
  - apply elem_of_cons in Hc as [->|Hc]; [done|].
    destruct (IH Hc) as [Hn [b Hb]].
    unfold split_first in *. destruct (split_on c r) as [|p ps] eqn:E;
      [by destruct (split_on_not_nil c r)|].
    rewrite (split_on_cons_ne c x r p ps Hne E). simpl in *.
    split; [apply not_elem_of_cons; auto | exists b; by rewrite Hb at 1].
Qed.

Lemma starts_with_app s t : starts_with (t ++ s) t = true.
Proof. apply starts_with_spec. by exists s. Qed.

Lemma ends_with_nil_l t : t ≠ [] → ends_with [] t = false.
Proof.
  intros Ht. destruct (ends_with [] t) eqn:E; [|done].
  apply ends_with_spec in E as [p Hp]. destruct p, t; done.
Qed.

#[export] Hint Resolve split_on_not_nil : helpdesk.
#[export] Hint Rewrite split_on_app_sep split_on_nosep using assumption : helpdesk_rw.
