(* ===== verification/JsonValue.v ===== *)
(** * The JavaScript values produced by [JSON.parse]

    [decodeJwt] returns [JSON.parse(decoded)] with TypeScript type
    [any], and [validateToken] then reads [payload.email],
    [payload.email_verified], [payload.name], [payload.picture] and
    [payload.iss] and tests them with [!].  This file models those values,
    JavaScript truthiness on them and property reads.

    A number keeps the decimal literal it was parsed from
    ([±mant × 10^exp]); the only use the code makes of a number is its
    truthiness, and a literal is falsy exactly when its value rounds to
    the double [0] ([0], [-0], or any literal at most [2^-1075]). *)

From S2P Require Import Prelude Js.

(** A decimal literal [(-1)^neg × mant × 10^exp], [mant ≥ 0]. *)
Record jnum := JNumLit { num_neg : bool; num_mant : Z; num_exp : Z }.

Inductive json :=
| JNull
| JBool (b : bool)
| JNum (n : jnum)
| JStr (s : jstr)
| JArr (items : list json)
| JObj (members : list (jstr * json)).

(** Induction over [json] with hypotheses on the elements of arrays and
    the values of objects. *)
Section JsonInd.
  Variable P : json → Prop.
  Hypothesis HNull : P JNull.
  Hypothesis HBool : ∀ b, P (JBool b).
  Hypothesis HNum : ∀ n, P (JNum n).
  Hypothesis HStr : ∀ s, P (JStr s).
  Hypothesis HArr : ∀ l, Forall P l → P (JArr l).
  Hypothesis HObj : ∀ m, Forall (λ kv, P kv.2) m → P (JObj m).

Fixpoint json_ind' (v : json) : P v :=
    match v with
    | JNull => HNull
    | JBool b => HBool b
    | JNum n => HNum n
    | JStr s => HStr s
    | JArr l => HArr l ((fix go (l : list json) : Forall P l :=
                   match l with
                   | [] => Forall_nil_2 _
                   | x :: r => Forall_cons_2 _ x r (json_ind' x) (go r)
                   end) l)
    | JObj m => HObj m ((fix go (m : list (jstr * json)) : Forall (λ kv, P kv.2) m :=
                   match m with
                   | [] => Forall_nil_2 _
                   | kv :: r => Forall_cons_2 _ kv r (json_ind' kv.2) (go r)
                   end) m)
    end.
End JsonInd.

(** ** Numbers: does the literal round to the double zero? *)

(** Reference definition: the value is [0] or at most half the least
    subnormal double [2^-1074] (the tie rounds to even, i.e. to [0]). *)
Definition num_is_zero_ref (n : jnum) : bool :=
  (num_mant n =? 0) ||
  ((num_exp n <? 0) && (num_mant n * 2 ^ 1075 <=? 10 ^ (- num_exp n))).

(** Executable version: it avoids computing [10^k] for huge [k], using
    [8^k ≤ 10^k]. *)
Definition num_is_zero (n : jnum) : bool :=
  (num_mant n =? 0) ||
  ((num_exp n <? 0) &&
   ((Z.log2 (num_mant n) + 1076 <=? 3 * - num_exp n) ||
    (num_mant n * 2 ^ 1075 <=? 10 ^ (- num_exp n)))).

(** ** Truthiness and property reads *)

(** [!!v] for a value read from the payload; [None] is [undefined]. *)
Definition truthy (v : option json) : bool :=
  match v with
  | None | Some JNull => false
  | Some (JBool b) => b
  | Some (JNum n) => negb (num_is_zero n)
  | Some (JStr s) => bool_decide (s ≠ [])
  | Some (JArr _) | Some (JObj _) => true
  end.

(** [v || d] for a value read from the payload and a default. *)
Definition js_or (v : option json) (d : json) : json :=
  match v with
  | Some x => if truthy (Some x) then x else d
  | None => d
  end.

(** The value of key [k] in an object literal: the last member with
    that key wins, as in [JSON.parse]. *)
Fixpoint obj_lookup (k : jstr) (m : list (jstr * json)) : option json :=
  match m with
  | [] => None
  | (k', v) :: r =>
      match obj_lookup k r with
      | Some w => Some w
      | None => if decide (k = k') then Some v else None
      end
  end.

(** [v.k] for the keys the code reads ([email], [email_verified],
    [name], [picture], [iss], [credential]): own members of an object;
    [undefined] on every other value (none of these keys is a built-in
    property of strings, numbers, booleans or arrays).  [null.k] throws
    a [TypeError]; the code never reads a property of [null] because it
    tests [!payload] first. *)
Definition get_prop (v : json) (k : jstr) : option json :=
  match v with
  | JObj m => obj_lookup k m
  | _ => None
  end.

(** ** Lemmas *)

Lemma num_is_zero_correct n : 0 ≤ num_mant n → num_is_zero n = num_is_zero_ref n.
Proof.
  intros Hm. unfold num_is_zero, num_is_zero_ref.
  destruct (Z.eqb_spec (num_mant n) 0) as [|Hm0]; [done|]. simpl.
  destruct (Z.ltb_spec (num_exp n) 0) as [He|He]; [|done]. simpl.
  destruct (Z.leb_spec (Z.log2 (num_mant n) + 1076) (3 * - num_exp n)) as [Hl|Hl];
    simpl; [|done].
  symmetry. apply Z.leb_le.
  set (m := num_mant n) in *. set (k := - num_exp n) in *.
  pose proof (Z.log2_spec m ltac:(lia)) as [_ Hlt].
  assert (Hpow : 2 ^ (3 * k) ≤ 10 ^ k).
  { rewrite Z.pow_mul_r by lia.
    apply Z.pow_le_mono_l. lia. }
  assert (Hsplit : 2 ^ (3 * k) = 2 ^ (Z.log2 m + 1076) * 2 ^ (3 * k - (Z.log2 m + 1076))).
  { rewrite <- Z.pow_add_r by (pose proof (Z.log2_nonneg m); lia). f_equal. lia. }
  assert (H1 : 0 < 2 ^ (3 * k - (Z.log2 m + 1076))) by (apply Z.pow_pos_nonneg; lia).
  assert (H2 : 2 ^ (Z.log2 m + 1076) = 2 ^ Z.succ (Z.log2 m) * 2 ^ 1075).
  { rewrite <- Z.pow_add_r by (pose proof (Z.log2_nonneg m); lia). f_equal. lia. }
  assert (H3 : m * 2 ^ 1075 ≤ 2 ^ Z.succ (Z.log2 m) * 2 ^ 1075).
  { apply Z.mul_le_mono_nonneg_r; [lia|]. lia. }
  nia.
Qed.

Lemma truthy_str s : truthy (Some (JStr s)) = true ↔ s ≠ [].
Proof. simpl. by rewrite bool_decide_eq_true. Qed.

Lemma obj_lookup_app_last k v m :
  obj_lookup k (m ++ [(k, v)]) = Some v.
Proof.
  induction m as [|[k' v'] m IH]; simpl.
  - by case_decide.
  - by rewrite IH.
Qed.

Lemma obj_lookup_notin k m :
  k ∉ m.*1 → obj_lookup k m = None.
Proof.
  induction m as [|[k' v'] m IH]; simpl; intros Hk; [done|].
  apply not_elem_of_cons in Hk as [Hne Hk]. rewrite IH by done.
  by case_decide.
Qed.

Lemma obj_lookup_cons_notin k k' v m :
  k' ≠ k → obj_lookup k ((k', v) :: m) = obj_lookup k m.
Proof.
  intros Hne. simpl. destruct (obj_lookup k m); [done|]. by case_decide.
Qed.

Lemma obj_lookup_app_ne k k' v m :
  k' ≠ k → obj_lookup k (m ++ [(k', v)]) = obj_lookup k m.
Proof.
  intros Hne. induction m as [|[k'' v''] m IH]; simpl.
  - by case_decide.
  - by rewrite IH.
Qed.

Lemma js_or_truthy v d : truthy v = true → ∃ x, v = Some x ∧ js_or v d = x.
Proof. destruct v as [x|]; simpl; [|done]. intros ->. by exists x. Qed.

Lemma js_or_falsy v d : truthy v = false → js_or v d = d.
Proof. destruct v as [x|]; simpl; [|done]. by intros ->. Qed.

#[export] Hint Rewrite obj_lookup_cons_notin using congruence : helpdesk_rw.
