(* ===== verification/Platform.v ===== *)
(** * Interfaces of the browser built-ins the validator calls

    [decodeJwt] relies on two built-ins: [atob] (WHATWG forgiving-base64
    decode, returning a "binary string" of Latin-1 code units) and
    [JSON.parse].  The validator's theorems are proved against these
    classes; [Base64] and [JsonParse] provide the instances and prove the
    laws.  Each class also carries the encoder an identity provider uses
    to build a token, with the decode-after-encode law, so that theorems
    can quantify over every payload an issuer can produce. *)

From S2P Require Import Prelude Js JsonValue.

(** Latin-1 code units (what [atob] returns and [btoa] accepts). *)
Definition latin1 (u : Z) : Prop := 0 ≤ u < 256.
Definition ascii_unit (u : Z) : Prop := 0 ≤ u < 128.

#[export] Instance latin1_dec u : Decision (latin1 u) := _.
#[export] Instance ascii_unit_dec u : Decision (ascii_unit u) := _.

(** The standard base64 alphabet [A-Za-z0-9+/]. *)
Definition b64_char (u : Z) : Prop :=
  (65 ≤ u ≤ 90) ∨ (97 ≤ u ≤ 122) ∨ (48 ≤ u ≤ 57) ∨ u = ch_plus ∨ u = ch_slash.

#[export] Instance b64_char_dec u : Decision (b64_char u).
Proof. unfold b64_char. apply _. Defined.

Class Base64Api := {
  (** [atob(data)] *)
  atob : jstr → res exn jstr;
  atob_latin1 : ∀ s d, atob s = Ok d → Forall latin1 d
}.

(** The encoder an issuer uses for the payload segment: base64 in the
    standard alphabet with the ['='] padding removed (before the URL-safe
    substitution), with the decode-after-encode law. *)
Class Base64Encoder `{Base64Api} := {
  btoa_nopad : jstr → jstr;
  atob_btoa_nopad : ∀ s, Forall latin1 s → atob (btoa_nopad s) = Ok s;
  btoa_nopad_alphabet : ∀ s, Forall latin1 s → Forall b64_char (btoa_nopad s)
}.

(** JSON values a printer can write: numbers with a non-negative
    mantissa, strings of code units. *)
Fixpoint json_wf (v : json) : Prop :=
  match v with
  | JNull | JBool _ => True
  | JNum n => 0 ≤ num_mant n
  | JStr s => Forall (λ u, 0 ≤ u < 65536) s
  | JArr l => Forall id (map json_wf l)
  | JObj m => Forall (λ kv, Forall (λ u, 0 ≤ u < 65536) kv.1) m ∧ Forall id (map (λ kv, json_wf kv.2) m)
  end.

Class JsonApi := {
  (** [JSON.parse(text)] *)
  JSON_parse : jstr → res exn json
}.

(** A printer whose output [JSON_parse] reads back. *)
Class JsonPrinter `{JsonApi} := {
  JSON_print : json → jstr;
  JSON_parse_print : ∀ v, json_wf v → JSON_parse (JSON_print v) = Ok v
}.
