(* ===== verification/Base64.v ===== *)
(** * [atob]: WHATWG forgiving-base64 decode, and its encoder

    [decodeJwt] calls [atob] on the payload segment after mapping the
    URL-safe alphabet back.  [atob] follows the HTML standard's
    "forgiving-base64 decode": remove ASCII whitespace; when the length
    is a multiple of 4, drop one or two trailing ['=']; fail when the
    length is then [1 mod 4] or a code unit is outside [A-Za-z0-9+/];
    otherwise decode 6-bit groups, dropping the leftover bits.  Failure
    throws a [DOMException] named [InvalidCharacterError] (the message is
    Chrome's).  The encoder [btoa_nopad] is base64 without padding, the
    form a token carries; [atob_btoa_nopad] is the round trip. *)

From S2P Require Import Prelude Js Platform.

(** ** Decoding *)

(** ASCII whitespace: TAB, LF, FF, CR, SPACE. *)
Definition ascii_ws (u : Z) : bool :=
  bool_decide (u = 9 ∨ u = 10 ∨ u = 12 ∨ u = 13 ∨ u = 32).

Definition ch_eq : Z := 0x3D. (* '=' *)

(** The value of a base64 character. *)
Definition b64_value (u : Z) : option Z :=
  if (65 <=? u) && (u <=? 90) then Some (u - 65)
  else if (97 <=? u) && (u <=? 122) then Some (u - 71)
  else if (48 <=? u) && (u <=? 57) then Some (u + 4)
  else if u =? ch_plus then Some 62
  else if u =? ch_slash then Some 63
  else None.

(** Drop one or two trailing ['=']. *)
Definition strip_padding (d : jstr) : jstr :=
  match rev d with
  | u :: v :: t => if u =? ch_eq then (if v =? ch_eq then rev t else rev (v :: t)) else d
  | [u] => if u =? ch_eq then [] else d
  | [] => d
  end.

(** 24 bits to three bytes; 18 or 12 leftover bits to two or one. *)
Fixpoint decode_sextets (vs : list Z) : jstr :=
  match vs with
  | a :: b :: c :: d :: r =>
      [a * 4 + b / 16; (b mod 16) * 16 + c / 4; (c mod 4) * 64 + d] ++ decode_sextets r
  | [a; b; c] => [a * 4 + b / 16; (b mod 16) * 16 + c / 4]
  | [a; b] => [a * 4 + b / 16]
  | _ => []
  end.

Definition invalid_character_error : exn :=
  JsErr ("InvalidCharacterError"%js)
    ("Failed to execute 'atob' on 'Window': The string to be decoded is not correctly encoded."%js).

Definition forgiving_atob (data : jstr) : res exn jstr :=
  let d1 := List.filter (λ u, negb (ascii_ws u)) data in
  let d2 := if decide (Nat.modulo (length d1) 4 = 0%nat) then strip_padding d1 else d1 in
  if decide (Nat.modulo (length d2) 4 = 1%nat) then Throw invalid_character_error
  else match mapM b64_value d2 with
       | Some vs => Ok (decode_sextets vs)
       | None => Throw invalid_character_error
       end.

(** ** Encoding *)

Definition b64_char_of (v : Z) : Z :=
  if v <? 26 then 65 + v
  else if v <? 52 then v + 71
  else if v <? 62 then v - 4
  else if v =? 62 then ch_plus else ch_slash.

(** Three bytes to four 6-bit groups; one or two leftover bytes to two
    or three groups (no padding). *)
Fixpoint sextets_of (s : jstr) : list Z :=
  match s with
  | x :: y :: z :: r =>
      [x / 4; (x mod 4) * 16 + y / 16; (y mod 16) * 4 + z / 64; z mod 64] ++ sextets_of r
  | [x; y] => [x / 4; (x mod 4) * 16 + y / 16; (y mod 16) * 4]
  | [x] => [x / 4; (x mod 4) * 16]
  | [] => []
  end.

Definition forgiving_btoa_nopad (s : jstr) : jstr := map b64_char_of (sextets_of s).

(** ** Lemmas *)

Definition sextet (v : Z) : Prop := 0 ≤ v < 64.

Lemma b64_value_char_of v : sextet v → b64_value (b64_char_of v) = Some v.
Proof. unfold sextet. intros Hv. range_check v 0 64%nat. Qed.

Lemma b64_char_of_alphabet v : sextet v → b64_char (b64_char_of v).
Proof. unfold sextet. intros Hv. range_check v 0 64%nat. Qed.

Lemma b64_char_of_not_ws v : sextet v → ascii_ws (b64_char_of v) = false.
Proof.
  intros Hv%b64_char_of_alphabet. unfold ascii_ws, b64_char, ch_plus, ch_slash in *.
  apply bool_decide_eq_false. lia.
Qed.

Lemma b64_char_of_not_eq v : sextet v → b64_char_of v ≠ ch_eq.
Proof.
  intros Hv%b64_char_of_alphabet. unfold b64_char, ch_eq, ch_plus, ch_slash in *. lia.
Qed.

(** Strong induction over the three-byte groups of the input. *)
Lemma groups_ind (P : jstr → Prop) :
  P [] → (∀ x, P [x]) → (∀ x y, P [x; y]) →
  (∀ x y z r, P r → P (x :: y :: z :: r)) → ∀ s, P s.
Proof.
  intros H0 H1 H2 H3 s. induction s as [s IH] using (induction_ltof1 _ (@length Z)).
  destruct s as [|x [|y [|z r]]]; auto.
  apply H3, IH. unfold ltof. simpl. lia.
Qed.

Lemma sextets_of_range s : Forall latin1 s → Forall sextet (sextets_of s).
Proof.
  induction s using groups_ind; intros Hs; unfold latin1 in Hs; forall_cons_inv;
    simpl; repeat constructor; try (apply IHs; assumption);
    unfold sextet; Z.div_mod_to_equations; lia.
Qed.

Lemma sextets_of_length s : Nat.modulo (length (sextets_of s)) 4 ≠ 1%nat.
Proof.
  assert (∀ s, ∃ k r, length (sextets_of s) = 4 * k + r ∧ r ≠ 1 ∧ r < 4)%nat as Hk.
  { intros s'. induction s' using groups_ind; simpl.
    - exists 0%nat, 0%nat. lia.
    - exists 0%nat, 2%nat. lia.
    - exists 0%nat, 3%nat. lia.
    - destruct IHs' as (k & r & Hl & Hr & Hr4). exists (S k), r.
      simpl. lia. }
  destruct (Hk s) as (k & r & -> & Hr & Hr4).
  rewrite Nat.add_comm, Nat.mul_comm, Nat.Div0.mod_add, Nat.mod_small; lia.
Qed.

Lemma decode_sextets_of s : Forall latin1 s → decode_sextets (sextets_of s) = s.
Proof.
  induction s using groups_ind; intros Hs; unfold latin1 in Hs; forall_cons_inv;
    simpl; [done| | |].
  - repeat f_equal; Z.div_mod_to_equations; lia.
  - repeat f_equal; Z.div_mod_to_equations; lia.
  - rewrite IHs by done. repeat f_equal; Z.div_mod_to_equations; lia.
Qed.

Lemma mapM_b64_value vs : Forall sextet vs → mapM b64_value (map b64_char_of vs) = Some vs.
Proof.
  induction vs as [|v vs IH]; intros Hvs; [done|].
  inversion Hvs; subst. simpl. rewrite b64_value_char_of by done. simpl.
  by rewrite IH.
Qed.

Lemma strip_padding_id d : ch_eq ∉ d → strip_padding d = d.
Proof.
  intros Hd. unfold strip_padding.
  destruct (rev d) as [|u [|v t]] eqn:E; [done| |].
  - destruct (Z.eqb_spec u ch_eq); [|done]. subst.
    exfalso. apply Hd, list_elem_of_In, in_rev. rewrite E. by left.
  - destruct (Z.eqb_spec u ch_eq); [|done]. subst.
    exfalso. apply Hd, list_elem_of_In, in_rev. rewrite E. by left.
Qed.

(** Round trip: decoding the unpadded encoding of a byte string. *)
Theorem atob_btoa_roundtrip s : Forall latin1 s → forgiving_atob (forgiving_btoa_nopad s) = Ok s.
Proof.
  intros Hs. pose proof (sextets_of_range s Hs) as Hr.
  unfold forgiving_atob, forgiving_btoa_nopad.
  rewrite List.Forall_forall in Hr.
  rewrite filter_all_true.
  2: { apply List.Forall_forall. intros u (v & <- & Hv)%in_map_iff.
       by rewrite b64_char_of_not_ws by auto. }
  rewrite strip_padding_id.
  2: { intros (v & Heq & Hv)%list_elem_of_In%in_map_iff.
       by apply (b64_char_of_not_eq v); auto. }
  pose proof (sextets_of_length s) as Hlen. rewrite <- (length_map b64_char_of) in Hlen.
  repeat case_decide; try contradiction.
  all: rewrite mapM_b64_value by (by apply List.Forall_forall); by rewrite decode_sextets_of.
Qed.

Lemma btoa_nopad_b64 s : Forall latin1 s → Forall b64_char (forgiving_btoa_nopad s).
Proof.
  intros Hs%sextets_of_range. unfold forgiving_btoa_nopad.
  apply Forall_map. eapply Forall_impl; [exact Hs|]. apply b64_char_of_alphabet.
Qed.

Lemma b64_value_range u v : b64_value u = Some v → sextet v.
Proof.
  unfold b64_value, sextet. intros H.
  repeat (case_match; [injection H as <-; rewrite ?andb_true_iff, ?Z.leb_le in *; lia|]).
  discriminate.
Qed.

Lemma mapM_b64_value_range d vs : mapM b64_value d = Some vs → Forall sextet vs.
Proof.
  revert vs. induction d as [|u d IH]; intros vs H; simpl in H.
  - by injection H as <-.
  - destruct (b64_value u) eqn:Eu; [|discriminate]. simpl in H.
    destruct (mapM b64_value d) eqn:Ed; [|discriminate]. injection H as <-.
    constructor; [by eapply b64_value_range | by apply IH].
Qed.

Lemma decode_sextets_latin1 vs : Forall sextet vs → Forall latin1 (decode_sextets vs).
Proof.
  induction vs as [vs IH] using (induction_ltof1 _ (@length Z)); intros Hvs.
  destruct vs as [|a [|b [|c [|d r]]]]; simpl; forall_cons_inv; unfold sextet, latin1 in *;
    repeat constructor; try (apply IH; [unfold ltof; simpl; lia | done]);
    Z.div_mod_to_equations; lia.
Qed.

Lemma atob_result_latin1 s d : forgiving_atob s = Ok d → Forall latin1 d.
Proof.
  unfold forgiving_atob. case_decide; [discriminate|].
  destruct (mapM b64_value _) as [vs|] eqn:E; [|discriminate].
  intros [= <-]. by eapply decode_sextets_latin1, mapM_b64_value_range.
Qed.

Lemma strip_padding_length d : (length (strip_padding d) ≤ length d)%nat.
Proof.
  unfold strip_padding. pose proof (length_rev d) as Hl.
  destruct (rev d) as [|u [|v t]]; simpl in *; repeat case_match; simpl;
    rewrite ?length_app, ?length_rev; simpl; lia.
Qed.

Lemma decode_sextets_length vs : (length (decode_sextets vs) ≤ length vs)%nat.
Proof.
  induction vs as [vs IH] using (well_founded_ind (Wf_nat.well_founded_ltof _ (@length Z))).
  unfold Wf_nat.ltof in IH.
  destruct vs as [|a [|b [|c [|d r]]]]; simpl; try lia.
  specialize (IH r). simpl in IH. lia.
Qed.

(** [atob] never lengthens its input: three bytes per four characters. *)
Lemma atob_length s d : forgiving_atob s = Ok d → (length d ≤ length s)%nat.
Proof.
  unfold forgiving_atob. case_decide; [discriminate|].
  destruct (mapM b64_value _) as [vs|] eqn:E; [|discriminate].
  intros [= <-]. apply mapM_Some_1, Forall2_length in E.
  rewrite decode_sextets_length, <- E. etransitivity; [|apply List.filter_length_le].
  case_decide; [apply strip_padding_length|lia].
Qed.

#[export] Instance base64_api : Base64Api := {
  atob := forgiving_atob;
  atob_latin1 := atob_result_latin1
}.

#[export] Instance base64_encoder : Base64Encoder := {
  btoa_nopad := forgiving_btoa_nopad;
  atob_btoa_nopad := atob_btoa_roundtrip;
  btoa_nopad_alphabet := btoa_nopad_b64
}.
