(* ===== verification/JsonParse.v ===== *)
(** * [JSON.parse] as a recursive-descent parser

    The ECMA-404 grammar as [JSON.parse] accepts it: whitespace is TAB,
    LF, CR and SPACE; literals [true], [false], [null]; numbers
    [-?(0|[1-9][0-9]* )(.[0-9]+)?([eE][+-]?[0-9]+)?]; strings between
    double quotes whose raw code units are at least [0x20] other than
    the double quote and the backslash, with the escapes of a double
    quote, backslash, slash, b, f, n, r, t and u followed by four hex digits;
    arrays and objects (a repeated key keeps the last value, see
    [obj_lookup]).  After the value only whitespace may follow.  A syntax
    error throws a [SyntaxError] (its message is engine-specific; a fixed
    one is used).

    The parser recurses on a fuel argument.  Every nested call consumes
    at least one code unit, so the fuel [length text + 1] given by
    [json_parse] is always enough, and more fuel changes nothing
    ([p_value_fuel]). *)

From S2P Require Import Prelude Js JsonValue Platform.

(** ** Lexical helpers *)

Definition json_ws (u : Z) : bool := bool_decide (u = 9 ∨ u = 10 ∨ u = 13 ∨ u = 32).

Fixpoint skip_ws (s : jstr) : jstr :=
  match s with
  | u :: r => if json_ws u then skip_ws r else s
  | [] => []
  end.

Definition is_digit (u : Z) : bool := (48 <=? u) && (u <=? 57).

(** The longest prefix of digits and the rest. *)
Fixpoint span_digits (s : jstr) : jstr * jstr :=
  match s with
  | u :: r => if is_digit u then let '(ds, rest) := span_digits r in (u :: ds, rest) else ([], s)
  | [] => ([], [])
  end.

Definition digits_value (ds : jstr) : Z := fold_left (λ acc d, acc * 10 + (d - 48)) ds 0.

Definition hex_value (u : Z) : option Z :=
  if is_digit u then Some (u - 48)
  else if (97 <=? u) && (u <=? 102) then Some (u - 87)
  else if (65 <=? u) && (u <=? 70) then Some (u - 55)
  else None.

(** The body of a string literal after its opening quote: the decoded
    code units and the text after the closing quote. *)
Fixpoint p_chars (s : jstr) : option (jstr * jstr) :=
  match s with
  | [] => None
  | 34 :: r => Some ([], r)
  | 92 :: e :: r =>
      let esc (u : Z) := (λ '(cs, rest), (u :: cs, rest)) <$> p_chars r in
      if e =? 34 then esc 34 else if e =? 92 then esc 92 else if e =? 47 then esc 47
      else if e =? 98 then esc 8 else if e =? 102 then esc 12 else if e =? 110 then esc 10
      else if e =? 114 then esc 13 else if e =? 116 then esc 9
      else if e =? 117 then
        match r with
        | h1 :: h2 :: h3 :: h4 :: r' =>
            match hex_value h1, hex_value h2, hex_value h3, hex_value h4 with
            | Some a, Some b, Some c, Some d =>
                (λ '(cs, rest), ((((a * 16 + b) * 16 + c) * 16 + d) :: cs, rest)) <$> p_chars r'
            | _, _, _, _ => None
            end
        | _ => None
        end
      else None
  | [92] => None
  | u :: r => if u <? 32 then None else (λ '(cs, rest), (u :: cs, rest)) <$> p_chars r
  end.

(** A number literal: sign, integer part, fraction, exponent. *)
Definition p_number (s : jstr) : option (jnum * jstr) :=
  let '(neg, s1) := match s with 45 :: r => (true, r) | _ => (false, s) end in
  let int_part :=
    match s1 with
    | 48 :: r => Some ([48], r)
    | u :: _ => if (49 <=? u) && (u <=? 57) then Some (span_digits s1) else None
    | [] => None
    end in
  match int_part with
  | None => None
  | Some (ids, s2) =>
      let frac :=
        match s2 with
        | 46 :: r => let '(fds, s3) := span_digits r in
                     match fds with [] => None | _ => Some (fds, s3) end
        | _ => Some ([], s2)
        end in
      match frac with
      | None => None
      | Some (fds, s3) =>
          let expo :=
            match s3 with
            | e :: r =>
                if (e =? 101) || (e =? 69) then
                  let '(eneg, r1) := match r with
                                     | 45 :: r1 => (true, r1)
                                     | 43 :: r1 => (false, r1)
                                     | _ => (false, r)
                                     end in
                  let '(eds, s4) := span_digits r1 in
                  match eds with
                  | [] => None
                  | _ => Some ((if eneg then - digits_value eds else digits_value eds), s4)
                  end
                else Some (0, s3)
            | [] => Some (0, s3)
            end in
          match expo with
          | None => None
          | Some (ev, s4) =>
              Some (JNumLit neg (digits_value (ids ++ fds)) (ev - Z.of_nat (length fds)), s4)
          end
      end
  end.

(** ** The recursive-descent parser *)

(** A parse that succeeds with the rest of the text, fails, or runs out
    of fuel. *)
Inductive presult (A : Type) :=
| PDone (a : A) (rest : jstr)
| PFail
| PNoFuel.
Arguments PDone {A} a rest.
Arguments PFail {A}.
Arguments PNoFuel {A}.

Definition pbind {A B} (m : presult A) (k : A → jstr → presult B) : presult B :=
  match m with
  | PDone a r => k a r
  | PFail => PFail
  | PNoFuel => PNoFuel
  end.

(** One member [ws "key" ws : value] given the value parser. *)
Definition p_member (pv : jstr → presult json) (s : jstr) : presult (jstr * json) :=
  match skip_ws s with
  | 34 :: r =>
      match p_chars r with
      | Some (k, r1) =>
          match skip_ws r1 with
          | 58 :: r2 => pbind (pv r2) (λ v r3, PDone (k, v) r3)
          | _ => PFail
          end
      | None => PFail
      end
  | _ => PFail
  end.

Fixpoint p_value (n : nat) (s : jstr) {struct n} : presult json :=
  match n with
  | O => PNoFuel
  | S n' =>
      match skip_ws s with
      | 123 :: r =>
          match skip_ws r with
          | 125 :: r' => PDone (JObj []) r'
          | _ => pbind (p_member (p_value n') r) (λ kv r1,
                 pbind (p_members n' r1) (λ ms r2, PDone (JObj (kv :: ms)) r2))
          end
      | 91 :: r =>
          match skip_ws r with
          | 93 :: r' => PDone (JArr []) r'
          | _ => pbind (p_value n' r) (λ v r1,
                 pbind (p_elems n' r1) (λ vs r2, PDone (JArr (v :: vs)) r2))
          end
      | 34 :: r =>
          match p_chars r with
          | Some (str, r') => PDone (JStr str) r'
          | None => PFail
          end
      | 116 :: 114 :: 117 :: 101 :: r => PDone (JBool true) r
      | 102 :: 97 :: 108 :: 115 :: 101 :: r => PDone (JBool false) r
      | 110 :: 117 :: 108 :: 108 :: r => PDone JNull r
      | s' =>
          match p_number s' with
          | Some (num, r) => PDone (JNum num) r
          | None => PFail
          end
      end
  end
(** After an array element: [, value] again or the closing [\]]. *)
with p_elems (n : nat) (s : jstr) {struct n} : presult (list json) :=
  match n with
  | O => PNoFuel
  | S n' =>
      match skip_ws s with
      | 93 :: r => PDone [] r
      | 44 :: r => pbind (p_value n' r) (λ v r1,
                   pbind (p_elems n' r1) (λ vs r2, PDone (v :: vs) r2))
      | _ => PFail
      end
  end
(** After an object member: [, member] again or the closing [}]. *)
with p_members (n : nat) (s : jstr) {struct n} : presult (list (jstr * json)) :=
  match n with
  | O => PNoFuel
  | S n' =>
      match skip_ws s with
      | 125 :: r => PDone [] r
      | 44 :: r => pbind (p_member (p_value n') r) (λ kv r1,
                   pbind (p_members n' r1) (λ ms r2, PDone (kv :: ms) r2))
      | _ => PFail
      end
  end.

Definition syntax_error : exn := JsErr ("SyntaxError"%js) ("Unexpected token in JSON"%js).

(** The parse of a whole text with [n] steps of fuel. *)
Definition json_parse_fuel (n : nat) (text : jstr) : res exn json :=
  match p_value n text with
  | PDone v rest => if decide (skip_ws rest = []) then Ok v else Throw syntax_error
  | PFail | PNoFuel => Throw syntax_error
  end.

(** [JSON.parse(text)], with one step of fuel per character and one
    more. *)
Definition json_parse (text : jstr) : res exn json := json_parse_fuel (S (length text)) text.

#[export] Instance json_api : JsonApi := { JSON_parse := json_parse }.

(** [JSON.parse] with a fixed fuel, to state that the fuel chosen is
    enough. *)
Definition json_api_fuel (n : nat) : JsonApi := {| JSON_parse := json_parse_fuel n |}.

(** ** Every parse leaves a suffix of its input *)

Lemma skip_ws_suffix s : skip_ws s `suffix_of` s.
Proof.
  induction s as [|u r IH]; simpl; [done|].
  destruct (json_ws u); [by apply suffix_cons_r | done].
Qed.

Lemma span_digits_suffix s ds r : span_digits s = (ds, r) → r `suffix_of` s.
Proof.
  revert ds. induction s as [|u s IH]; simpl; intros ds; [by intros [= _ <-]|].
  destruct (is_digit u); [|by intros [= _ <-]].
  destruct (span_digits s) as [ds' r'] eqn:E. intros [= _ <-]. by apply suffix_cons_r, (IH ds').
Qed.

(** A code unit with its continuation parsed by [p_chars]. *)
Lemma p_chars_cons_suffix (f : jstr → jstr) s r cs rest :
  r `suffix_of` s →
  (∀ cs' r', p_chars r = Some (cs', r') → r' `suffix_of` r) →
  (λ '(cs, rest), (f cs, rest)) <$> p_chars r = Some (cs, rest) → rest `suffix_of` s.
Proof.
  intros Hrs IH. rewrite fmap_Some. intros [[cs' r'] [Hc Heq]]. injection Heq as _ <-.
  etrans; [by eapply IH|done].
Qed.

Lemma p_chars_suffix s cs r : p_chars s = Some (cs, r) → r `suffix_of` s.
Proof.
  revert cs r. induction s as [s IH] using (well_founded_ind (Wf_nat.well_founded_ltof _ (@length Z))).
  unfold Wf_nat.ltof in IH. intros cs r.
  destruct s as [|u s]; [done|]. cbn [p_chars].
  repeat case_match; simplify_eq; try done.
  all: first [ intros [= _ <-]; by repeat apply suffix_cons_r
             | apply (p_chars_cons_suffix (cons _)); [by repeat apply suffix_cons_r | intros ??; apply IH; simpl; lia] ].
Qed.

Ltac stage_suffix E :=
  revert E; clear; repeat case_match; intros; simplify_eq;
  repeat match goal with H : span_digits _ = (_, _) |- _ => apply span_digits_suffix in H end;
  eauto 10 with suffix.

Lemma p_number_suffix s n r : p_number s = Some (n, r) → r `suffix_of` s.
Proof.
  unfold p_number.
  lazymatch goal with |- match ?m with _ => _ end = _ → _ => destruct m as [neg s1] eqn:E1 end.
  assert (H1 : s1 `suffix_of` s) by stage_suffix E1.
  lazymatch goal with |- match ?m with _ => _ end = _ → _ => destruct m as [[ids s2]|] eqn:E2; [|done] end.
  assert (H2 : s2 `suffix_of` s1) by stage_suffix E2.
  lazymatch goal with |- match ?m with _ => _ end = _ → _ => destruct m as [[fds s3]|] eqn:E3; [|done] end.
  assert (H3 : s3 `suffix_of` s2) by stage_suffix E3.
  lazymatch goal with |- match ?m with _ => _ end = _ → _ => destruct m as [[ev s4]|] eqn:E4; [|done] end.
  assert (H4 : s4 `suffix_of` s3) by stage_suffix E4.
  intros [= _ <-]. eauto 10 with suffix.
Qed.

Lemma pbind_PDone {A B} (m : presult A) (k : A → jstr → presult B) b r :
  pbind m k = PDone b r ↔ ∃ a r1, m = PDone a r1 ∧ k a r1 = PDone b r.
Proof. destruct m; simpl; naive_solver. Qed.

Ltac p_leaf_suffix IHv IHe IHm PM :=
  repeat match goal with
  | H : pbind _ _ = PDone _ _ |- _ => apply pbind_PDone in H as (? & ? & ? & ?)
  | H : PDone _ _ = PDone _ _ |- _ => injection H as <- <-
  | H : p_value _ _ = PDone _ _ |- _ => apply IHv in H
  | H : p_elems _ _ = PDone _ _ |- _ => apply IHe in H
  | H : p_members _ _ = PDone _ _ |- _ => apply IHm in H
  | H : p_member _ _ = PDone _ _ |- _ => apply PM in H; [|exact IHv]
  | H : _ = PDone _ _ |- _ => apply IHv in H
  | H : p_chars _ = Some _ |- _ => apply p_chars_suffix in H
  | H : p_number _ = Some _ |- _ => apply p_number_suffix in H
  | E : skip_ws ?x = _ |- _ => let Hw := fresh "Hw" in pose proof (skip_ws_suffix x) as Hw; rewrite E in Hw; clear E
  end; eauto 20 with suffix.

Lemma p_member_suffix (pv : jstr → presult json) s kv r :
  (∀ t v r', pv t = PDone v r' → r' `suffix_of` t) →
  p_member pv s = PDone kv r → r `suffix_of` s.
Proof.
  intros IHv. unfold p_member. pose proof (skip_ws_suffix s) as Hs. revert Hs.
  generalize (skip_ws s) as t. intros t Hs.
  repeat case_match; intros Hp; try discriminate; p_leaf_suffix IHv IHv IHv IHv.
Qed.

Lemma p_suffix n :
  (∀ s v r, p_value n s = PDone v r → r `suffix_of` s) ∧
  (∀ s vs r, p_elems n s = PDone vs r → r `suffix_of` s) ∧
  (∀ s ms r, p_members n s = PDone ms r → r `suffix_of` s).
Proof.
  induction n as [|n (IHv & IHe & IHm)]; [split_and!; done|].
  split_and!; intros s; cbn [p_value p_elems p_members];
    pose proof (skip_ws_suffix s) as Hs; revert Hs; generalize (skip_ws s) as t; intros t Hs ??;
    repeat case_match; intros Hp; try discriminate; p_leaf_suffix IHv IHe IHm p_member_suffix.
Qed.

Lemma p_value_suffix n s v r : p_value n s = PDone v r → r `suffix_of` s.
Proof. apply (p_suffix n). Qed.
Lemma p_elems_suffix n s vs r : p_elems n s = PDone vs r → r `suffix_of` s.
Proof. apply (p_suffix n). Qed.
Lemma p_members_suffix n s ms r : p_members n s = PDone ms r → r `suffix_of` s.
Proof. apply (p_suffix n). Qed.

(** ** The fuel [json_parse] gives is enough *)

Lemma pbind_not_NoFuel {A B} (m : presult A) (k : A → jstr → presult B) :
  m ≠ PNoFuel ∧ (∀ a r, m = PDone a r → k a r ≠ PNoFuel) → pbind m k ≠ PNoFuel.
Proof. destruct m; simpl; naive_solver. Qed.

Ltac suffix_lengths :=
  repeat match goal with H : _ `suffix_of` _ |- _ => apply suffix_length in H end; simpl in *; lia.

Ltac p_leaf_fuel IHv IHe IHm :=
  repeat match goal with
  | |- pbind _ _ ≠ PNoFuel => apply pbind_not_NoFuel; split; [|intros ?? ?Hd]
  | |- PDone _ _ ≠ PNoFuel => discriminate
  | |- PFail ≠ PNoFuel => discriminate
  | |- p_value _ _ ≠ PNoFuel => apply IHv
  | |- p_elems _ _ ≠ PNoFuel => apply IHe
  | |- p_members _ _ ≠ PNoFuel => apply IHm
  | Hd : p_value _ _ = PDone _ _ |- _ => apply p_value_suffix in Hd
  | Hd : p_elems _ _ = PDone _ _ |- _ => apply p_elems_suffix in Hd
  | Hd : p_members _ _ = PDone _ _ |- _ => apply p_members_suffix in Hd
  | Hd : p_member _ _ = PDone _ _ |- _ => apply p_member_suffix in Hd; [|apply p_value_suffix]
  end.

Lemma p_member_not_NoFuel (pv : jstr → presult json) s :
  (∀ t, (length t < length s)%nat → pv t ≠ PNoFuel) → p_member pv s ≠ PNoFuel.
Proof.
  intros Hpv. unfold p_member. pose proof (skip_ws_suffix s) as Hs. revert Hs.
  generalize (skip_ws s) as t. intros t Hs.
  repeat case_match; try discriminate; subst.
  apply pbind_not_NoFuel. split; [|discriminate]. apply Hpv.
  repeat match goal with
  | H : p_chars _ = Some _ |- _ => apply p_chars_suffix in H
  | E : skip_ws ?x = _ |- _ => let Hw := fresh "Hw" in pose proof (skip_ws_suffix x) as Hw; rewrite E in Hw; clear E
  end.
  suffix_lengths.
Qed.

Ltac fuel_lengths :=
  repeat match goal with
  | H : p_chars _ = Some _ |- _ => apply p_chars_suffix in H
  | E : skip_ws ?x = _ |- _ => let Hw := fresh "Hw" in pose proof (skip_ws_suffix x) as Hw; rewrite E in Hw; clear E
  end; suffix_lengths.

Lemma p_enough n :
  (∀ s, (length s < n)%nat → p_value n s ≠ PNoFuel) ∧
  (∀ s, (length s < n)%nat → p_elems n s ≠ PNoFuel) ∧
  (∀ s, (length s < n)%nat → p_members n s ≠ PNoFuel).
Proof.
  induction n as [|n (IHv & IHe & IHm)]; [split_and!; intros; lia|].
  split_and!; intros s Hn; cbn [p_value p_elems p_members];
    pose proof (skip_ws_suffix s) as Hs; revert Hs; generalize (skip_ws s) as t; intros t Hs;
    repeat case_match; try discriminate; subst; p_leaf_fuel IHv IHe IHm;
    try (apply p_member_not_NoFuel; intros ??; apply IHv); fuel_lengths.
Qed.

(** ** More fuel gives the same result *)

Lemma pbind_mono {A B} (m m' : presult A) (k k' : A → jstr → presult B) :
  pbind m k ≠ PNoFuel → (m ≠ PNoFuel → m' = m) →
  (∀ a r, k a r ≠ PNoFuel → k' a r = k a r) → pbind m' k' = pbind m k.
Proof.
  destruct m as [a r| |]; simpl; intros Hnf Hm Hk; [|by rewrite Hm|done].
  rewrite Hm by discriminate. simpl. by apply Hk.
Qed.

Lemma p_member_mono (pv pv' : jstr → presult json) s :
  (∀ t, pv t ≠ PNoFuel → pv' t = pv t) → p_member pv s ≠ PNoFuel → p_member pv' s = p_member pv s.
Proof.
  intros Hpv. unfold p_member. repeat case_match; try done. intros Hnf.
  apply (pbind_mono _ _ _ _ Hnf); [apply Hpv | done].
Qed.

Ltac p_leaf_mono IHv IHe IHm :=
  repeat match goal with
  | H : pbind _ _ ≠ PNoFuel |- pbind _ _ = pbind _ _ =>
      apply (pbind_mono _ _ _ _ H); clear H; [intros ?H | intros ?? ?H]
  | H : p_member _ _ ≠ PNoFuel |- p_member _ _ = p_member _ _ => exact (p_member_mono _ _ _ IHv H)
  | H : p_value _ _ ≠ PNoFuel |- p_value _ _ = p_value _ _ => exact (IHv _ H)
  | H : p_elems _ _ ≠ PNoFuel |- p_elems _ _ = p_elems _ _ => exact (IHe _ H)
  | H : p_members _ _ ≠ PNoFuel |- p_members _ _ = p_members _ _ => exact (IHm _ H)
  | |- PDone _ _ = PDone _ _ => reflexivity
  end.

Lemma p_mono n :
  (∀ m s, (n ≤ m)%nat → p_value n s ≠ PNoFuel → p_value m s = p_value n s) ∧
  (∀ m s, (n ≤ m)%nat → p_elems n s ≠ PNoFuel → p_elems m s = p_elems n s) ∧
  (∀ m s, (n ≤ m)%nat → p_members n s ≠ PNoFuel → p_members m s = p_members n s).
Proof.
  induction n as [|n (IHv & IHe & IHm)]; [split_and!; by intros ???|].
  split_and!; intros [|m] s Hle; try lia; assert (Hnm : (n ≤ m)%nat) by lia;
    pose proof (λ s, IHv m s Hnm) as IHv'; pose proof (λ s, IHe m s Hnm) as IHe';
    pose proof (λ s, IHm m s Hnm) as IHm'; clear IHv IHe IHm;
    cbn [p_value p_elems p_members]; generalize (skip_ws s) as t; intros t;
    repeat case_match; try done; intros Hnf; p_leaf_mono IHv' IHe' IHm'.
Qed.

(** The parser terminates within the fuel [json_parse] gives it:
    with any fuel above the length of the text, [p_value] never runs out
    of fuel and returns what it returns with [length text + 1], so
    [json_parse] computes the parse of the unbounded grammar. *)
Theorem p_value_fuel s n :
  (length s < n)%nat → p_value n s ≠ PNoFuel ∧ p_value n s = p_value (S (length s)) s.
Proof.
  intros Hn. split; [by apply (p_enough n)|].
  apply (p_mono (S (length s))); [lia|]. apply (p_enough (S (length s))). lia.
Qed.

(** Any fuel above the text's length parses as [JSON.parse] does. *)
Lemma json_parse_fuel_enough n text :
  (length text < n)%nat → json_parse_fuel n text = json_parse text.
Proof. intros Hn. unfold json_parse, json_parse_fuel. by rewrite (proj2 (p_value_fuel text n Hn)). Qed.

(** On a nested array. *)
Example p_value_fuel_nested :
  (length ("[1,[2,3],true]"%js) < 100)%nat ∧
  p_value 100 ("[1,[2,3],true]"%js) ≠ PNoFuel ∧
  p_value 100 ("[1,[2,3],true]"%js) = p_value (S (length ("[1,[2,3],true]"%js))) ("[1,[2,3],true]"%js).
Proof.
  assert (Hl : (length ("[1,[2,3],true]"%js) < 100)%nat) by (vm_compute; lia).
  split; [exact Hl|]. exact (p_value_fuel _ 100 Hl).
Qed.
