(* ===== verification/JsonPrint.v ===== *)
(** * A JSON printer whose output [JSON.parse] reads back

    The tokens of the scenarios are built from a payload text; to speak
    of every payload, this file gives the [JsonPrinter] interface of
    [Platform] an instance for the parser of [JsonParse]: [json_print]
    writes a value in JSON.stringify's layout (no white space; the
    escapes of a double quote, a backslash, the five short control
    escapes and [\u00XX] for the other code units below [0x20]; a
    number as its decimal literal [±mant e±exp]).  The round trip
    [json_parse_print] is proved by induction on the value, with the
    fuel bounded by the value's size [jsize].

    The decimal printer [Z_toString] is also the [Number.prototype.toString]
    the tickets page uses for ids. *)

From S2P Require Import Prelude Js JsonValue Platform JsonParse.

(** ** Decimal numbers *)

(** The decimal digits of [n ≥ 0], most significant first; [fuel] bounds
    the number of digits. *)
Fixpoint digits_of (fuel : nat) (n : Z) (acc : jstr) : jstr :=
  match fuel with
  | O => acc
  | S f => if n <? 10 then (48 + n) :: acc else digits_of f (n / 10) (48 + n mod 10 :: acc)
  end.

(** [n.toString()] for an integer [n ≥ 0]; it has at most as many
    decimal digits as binary ones, [log2 n + 1]. *)
Definition Z_toString (n : Z) : jstr := digits_of (S (Z.to_nat (Z.log2 n))) n [].

(** ** The printer *)

(** A hexadecimal digit, lower case. *)
Definition hex_char (d : Z) : Z := if d <? 10 then 48 + d else 87 + d.

(** One code unit inside a string literal. *)
Definition esc_unit (u : Z) : jstr :=
  if u =? 34 then [92; 34]
  else if u =? 92 then [92; 92]
  else if u =? 8 then [92; 98]
  else if u =? 12 then [92; 102]
  else if u =? 10 then [92; 110]
  else if u =? 13 then [92; 114]
  else if u =? 9 then [92; 116]
  else if u <? 32 then [92; 117; 48; 48; hex_char (u / 16); hex_char (u mod 16)]
  else [u].

Definition quote (s : jstr) : jstr := 34 :: concat (map esc_unit s) ++ [34].

(** A number literal: sign, mantissa, [e], the exponent's sign and digits. *)
Definition print_num (n : jnum) : jstr :=
  (if num_neg n then [45] else []) ++ Z_toString (num_mant n) ++
  101 :: (if num_exp n <? 0 then 45 else 43) :: Z_toString (Z.abs (num_exp n)).

Fixpoint json_print (v : json) : jstr :=
  match v with
  | JNull => "null"%js
  | JBool true => "true"%js
  | JBool false => "false"%js
  | JNum n => print_num n
  | JStr s => quote s
  | JArr [] => "[]"%js
  | JArr (x :: l) => 91 :: json_print x ++ concat (map (λ y, 44 :: json_print y) l) ++ [93]
  | JObj [] => "{}"%js
  | JObj (kv :: m) =>
      123 :: (quote kv.1 ++ 58 :: json_print kv.2) ++
      concat (map (λ kv, 44 :: quote kv.1 ++ 58 :: json_print kv.2) m) ++ [125]
  end.

(** The fuel a parse of the printed value needs: one per node and one
    per element. *)
Fixpoint jsize (v : json) : nat :=
  match v with
  | JArr l => S (foldr (λ x acc, S (jsize x) + acc)%nat 0%nat l)
  | JObj m => S (foldr (λ kv acc, S (jsize kv.2) + acc)%nat 0%nat m)
  | _ => 1%nat
  end.

(** What may follow a value inside a text the printer writes. *)
Definition delim (r : jstr) : Prop :=
  match r with [] => True | u :: _ => u = 44 ∨ u = 93 ∨ u = 125 end.

(** ** Decimal digits *)

Lemma digits_value_acc l a :
  fold_left (λ acc d, acc * 10 + (d - 48)) l a = a * 10 ^ Z.of_nat (length l) + digits_value l.
Proof.
  unfold digits_value. revert a. induction l as [|d l IH]; intros a; simpl; [lia|].
  rewrite (IH (a * 10 + (d - 48))), (IH (0 * 10 + (d - 48))).
  rewrite Nat2Z.inj_succ, Z.pow_succ_r by lia. lia.
Qed.

Lemma digits_value_cons d l : digits_value (d :: l) = (d - 48) * 10 ^ Z.of_nat (length l) + digits_value l.
Proof. unfold digits_value at 1. simpl. rewrite digits_value_acc. lia. Qed.

Lemma digits_of_value fuel n acc :
  0 ≤ n < 10 ^ Z.of_nat fuel →
  digits_value (digits_of fuel n acc) = n * 10 ^ Z.of_nat (length acc) + digits_value acc.
Proof.
  revert n acc. induction fuel as [|f IH]; intros n acc Hn; simpl in *; [lia|].
  destruct (Z.ltb_spec n 10) as [Hlt|Hge].
  - rewrite digits_value_cons. lia.
  - rewrite IH.
    + rewrite digits_value_cons. simpl length.
      rewrite Nat2Z.inj_succ, Z.pow_succ_r by lia.
      pose proof (Z.div_mod n 10 ltac:(lia)). nia.
    + rewrite Nat2Z.inj_succ, Z.pow_succ_r in Hn by lia.
      split; [apply Z.div_pos; lia|]. apply Z.div_lt_upper_bound; lia.
Qed.

Lemma pow10_gt n : 0 ≤ n → n < 10 ^ Z.of_nat (S (Z.to_nat (Z.log2 n))).
Proof.
  intros Hn. rewrite Nat2Z.inj_succ, Z2Nat.id by apply Z.log2_nonneg.
  destruct (Z.eq_dec n 0) as [->|Hn0]; [simpl; lia|].
  pose proof (Z.log2_spec n ltac:(lia)) as [_ Hlt].
  eapply Z.lt_le_trans; [exact Hlt|]. apply Z.pow_le_mono_l. pose proof (Z.log2_nonneg n). lia.
Qed.

Lemma is_digit_range u : 48 ≤ u ≤ 57 → is_digit u = true.
Proof. intros Hu. unfold is_digit. apply andb_true_iff. rewrite !Z.leb_le. lia. Qed.

Lemma digits_of_digits fuel n acc :
  0 ≤ n → Forall (λ u, is_digit u = true) acc → Forall (λ u, is_digit u = true) (digits_of fuel n acc).
Proof.
  revert n acc. induction fuel as [|f IH]; intros n acc Hn Hacc; simpl; [done|].
  destruct (Z.ltb_spec n 10).
  - constructor; [apply is_digit_range; lia|done].
  - apply IH; [apply Z.div_pos; lia|].
    constructor; [|done]. apply is_digit_range. pose proof (Z.mod_pos_bound n 10). lia.
Qed.

Lemma digits_of_suffix fuel n acc : acc `suffix_of` digits_of fuel n acc.
Proof.
  revert n acc. induction fuel as [|f IH]; intros n acc; simpl; [done|].
  case_match; [by apply suffix_cons_r|]. etransitivity; [apply suffix_cons_r; done|apply IH].
Qed.

(** The leading digit of a positive number is not [0]. *)
Lemma digits_of_head fuel n acc :
  1 ≤ n < 10 ^ Z.of_nat fuel → ∃ d t, digits_of fuel n acc = d :: t ∧ 49 ≤ d ≤ 57.
Proof.
  revert n acc. induction fuel as [|f IH]; intros n acc Hn; simpl in *; [lia|].
  destruct (Z.ltb_spec n 10); [eexists _, _; split; [done|lia]|].
  apply IH. rewrite Nat2Z.inj_succ, Z.pow_succ_r in Hn by lia.
  split; [apply Z.div_le_lower_bound; lia|apply Z.div_lt_upper_bound; lia].
Qed.

Lemma Z_toString_digits n : 0 ≤ n → Forall (λ u, is_digit u = true) (Z_toString n).
Proof. intros Hn. by apply digits_of_digits. Qed.

Lemma Z_toString_not_nil n : Z_toString n ≠ [].
Proof.
  unfold Z_toString. simpl. case_match; [done|].
  intros E. pose proof (digits_of_suffix (Z.to_nat (Z.log2 n)) (n / 10) [48 + n mod 10]) as Hs.
  rewrite E in Hs. by apply suffix_nil_inv in Hs.
Qed.

(** [span_digits] stops at the first unit that is not a digit. *)
Lemma span_digits_app ds r :
  Forall (λ u, is_digit u = true) ds → (∀ u t, r = u :: t → is_digit u = false) →
  span_digits (ds ++ r) = (ds, r).
Proof.
  intros Hds Hr. induction Hds as [|d ds Hd _ IH]; cbn [app].
  - destruct r as [|u t]; [done|]. cbn [span_digits]. by rewrite (Hr u t).
  - cbn [span_digits]. by rewrite Hd, IH.
Qed.

Lemma delim_not_digit r : delim r → ∀ u t, r = u :: t → is_digit u = false.
Proof. intros Hr u t ->. simpl in Hr. by destruct Hr as [->|[->| ->]]. Qed.

(** ** Parsing what the printer writes *)

Ltac ltb_facts :=
  repeat match goal with
  | H : (_ <? _) = true |- _ => apply Z.ltb_lt in H
  | H : (_ <? _) = false |- _ => apply Z.ltb_ge in H
  | H : (_ =? _) = true |- _ => apply Z.eqb_eq in H
  | H : (_ =? _) = false |- _ => apply Z.eqb_neq in H
  end.

(** A number literal as the printer writes it, before a delimiter. *)
Lemma p_number_print n r :
  0 ≤ num_mant n → delim r → p_number (print_num n ++ r) = Some (n, r).
Proof.
  destruct n as [neg m e]. cbn [num_neg num_mant num_exp]. intros Hm Hr. unfold print_num.
  cbn [num_neg num_mant num_exp].
  pose proof (Z_toString_digits (Z.abs e) ltac:(lia)) as Hes.
  pose proof (Z_toString_not_nil (Z.abs e)) as Hne.
  assert (Hev : digits_value (Z_toString (Z.abs e)) = Z.abs e).
  { unfold Z_toString. rewrite digits_of_value by (split; [lia|apply pow10_gt; lia]).
    change (digits_value []) with 0. simpl. lia. }
  assert (Hm' : digits_value (Z_toString m) = m).
  { unfold Z_toString. rewrite digits_of_value by (split; [lia|apply pow10_gt; lia]).
    change (digits_value []) with 0. simpl. lia. }
  pose proof (Z_toString_digits m Hm) as Hds.
  assert (Hd : Z_toString m = [48] ∨ ∃ d t, Z_toString m = d :: t ∧ 49 ≤ d ≤ 57).
  { destruct (Z.eq_dec m 0) as [->|Hm0]; [by left|right].
    apply digits_of_head. split; [lia|apply pow10_gt; lia]. }
  revert Hm' Hds Hd. generalize (Z_toString m) as ds. intros ds Hm' Hds Hd.
  revert Hev Hes Hne. generalize (Z_toString (Z.abs e)) as es. intros es Hev Hes Hne.
  rewrite <- !app_assoc. cbn [app].
  assert (Hsp : span_digits (es ++ r) = (es, r)) by (apply span_digits_app; [done|by apply delim_not_digit]).
  destruct es as [|x es]; [done|]. cbn [app] in Hsp.
  destruct Hd as [->|(d & t & -> & Hd)].
  - destruct neg, (Z.ltb_spec e 0); unfold p_number; cbn -[span_digits digits_value]; rewrite Hsp;
      cbn -[digits_value]; rewrite ?app_nil_r, Hm', Hev; do 3 f_equal; lia.
  - assert (Ht : span_digits (d :: t ++ 101 :: (if e <? 0 then 45 else 43) :: x :: es ++ r) =
                 (d :: t, 101 :: (if e <? 0 then 45 else 43) :: x :: es ++ r)).
    { apply (span_digits_app (d :: t)); [done|]. by intros u t' [= <- _]. }
    revert Ht. assert (d = 49 ∨ d = 50 ∨ d = 51 ∨ d = 52 ∨ d = 53 ∨ d = 54 ∨ d = 55 ∨ d = 56 ∨ d = 57)
      as Hd9 by lia.
    destruct neg, (Z.ltb_spec e 0); intros Ht; unfold p_number;
      (repeat destruct Hd9 as [->|Hd9]); try subst d; cbn -[span_digits digits_value]; rewrite Ht;
      cbn -[span_digits digits_value]; rewrite Hsp;
      cbn -[digits_value]; rewrite ?app_nil_r, Hm', Hev; do 3 f_equal; lia.
Qed.

Lemma hex_value_char d : 0 ≤ d < 16 → hex_value (hex_char d) = Some d.
Proof.
  intros Hd.
  assert (d = 0 ∨ d = 1 ∨ d = 2 ∨ d = 3 ∨ d = 4 ∨ d = 5 ∨ d = 6 ∨ d = 7 ∨ d = 8 ∨ d = 9 ∨
          d = 10 ∨ d = 11 ∨ d = 12 ∨ d = 13 ∨ d = 14 ∨ d = 15) as Hd16 by lia.
  by repeat destruct Hd16 as [->|Hd16]; try subst d.
Qed.

(** A unit at least [0x20] that is neither a double quote nor a
    backslash stands for itself in a string literal. *)
Lemma p_chars_raw u t : 32 ≤ u → u ≠ 34 → u ≠ 92 →
  p_chars (u :: t) = (λ '(cs, rest), (u :: cs, rest)) <$> p_chars t.
Proof. intros H1 H2 H3. cbn [p_chars]. repeat case_match; subst; ltb_facts; by try lia. Qed.

(** The body of a printed string literal reads back as the string. *)
Lemma p_chars_quote s r :
  Forall (λ u, 0 ≤ u) s → p_chars (concat (map esc_unit s) ++ 34 :: r) = Some (s, r).
Proof.
  induction 1 as [|u s Hu _ IH]; [done|]. cbn [map concat]. rewrite <- app_assoc.
  unfold esc_unit at 1.
  destruct (Z.eqb_spec u 34) as [->|]; [cbn -[esc_unit]; by rewrite IH|].
  destruct (Z.eqb_spec u 92) as [->|]; [cbn -[esc_unit]; by rewrite IH|].
  destruct (Z.eqb_spec u 8) as [->|]; [cbn -[esc_unit]; by rewrite IH|].
  destruct (Z.eqb_spec u 12) as [->|]; [cbn -[esc_unit]; by rewrite IH|].
  destruct (Z.eqb_spec u 10) as [->|]; [cbn -[esc_unit]; by rewrite IH|].
  destruct (Z.eqb_spec u 13) as [->|]; [cbn -[esc_unit]; by rewrite IH|].
  destruct (Z.eqb_spec u 9) as [->|]; [cbn -[esc_unit]; by rewrite IH|].
  destruct (Z.ltb_spec u 32).
  - cbn -[hex_value hex_char esc_unit].
    rewrite !hex_value_char by (Z.div_mod_to_equations; lia).
    cbn -[esc_unit]. rewrite IH. cbn. do 3 f_equal. pose proof (Z.div_mod u 16). lia.
  - cbn [app]. rewrite p_chars_raw by lia. by rewrite IH.
Qed.

(** A printed number starts with its sign or a digit. *)
Lemma print_num_head n : 0 ≤ num_mant n → ∃ u t, print_num n = u :: t ∧ (u = 45 ∨ 48 ≤ u ≤ 57).
Proof.
  destruct n as [[] m e]; cbn [num_mant]; intros Hm; unfold print_num; cbn [num_neg app];
    [eexists _, _; split; [reflexivity|lia]|].
  pose proof (Z_toString_digits m Hm) as Hd. cbn [num_mant num_exp].
  destruct (Z_toString m) as [|u t] eqn:E; [by destruct (Z_toString_not_nil m)|].
  inversion Hd as [|? ? Hu]; subst.
  unfold is_digit in Hu. apply andb_true_iff in Hu as [Hu1 Hu2]. apply Z.leb_le in Hu1, Hu2.
  eexists _, _. split; [reflexivity|lia].
Qed.

(** A printed value starts with a unit that is neither white space nor
    a closing bracket. *)
Lemma print_head v : json_wf v →
  ∃ u t, json_print v = u :: t ∧ json_ws u = false ∧ u ≠ 93 ∧ u ≠ 125.
Proof.
  intros Hwf.
  destruct v as [|[]|n|s|[|x l]|[|kv m]]; cbn [json_print];
    try (eexists _, _; split; [reflexivity|]; vm_compute; naive_solver).
  destruct (print_num_head n Hwf) as (u & t & -> & Hu). exists u, t.
  split; [done|]. unfold json_ws. rewrite bool_decide_false by lia. lia.
Qed.

Lemma skip_ws_print v r : json_wf v → skip_ws (json_print v ++ r) = json_print v ++ r.
Proof. intros Hwf. destruct (print_head v Hwf) as (u & t & -> & Hws & _). cbn. by rewrite Hws. Qed.

(** [p_value] on an array whose first element starts with [u]. *)
Lemma p_value_arr_cons n r u t : skip_ws r = u :: t → u ≠ 93 →
  p_value (S n) (91 :: r) =
  pbind (p_value n r) (λ v r1, pbind (p_elems n r1) (λ vs r2, PDone (JArr (v :: vs)) r2)).
Proof.
  intros Hr Hu. cbn [p_value]. change (skip_ws (91 :: r)) with (91 :: r).
  cbn -[p_value p_elems skip_ws]. rewrite Hr. by repeat case_match.
Qed.

(** [p_value] on a number. *)
Lemma p_value_num n s u t : skip_ws s = u :: t → (u = 45 ∨ 48 ≤ u ≤ 57) →
  p_value (S n) s = match p_number (u :: t) with Some (num, r) => PDone (JNum num) r | None => PFail end.
Proof.
  intros Hs Hu. cbn [p_value]. rewrite Hs.
  assert (u = 45 ∨ u = 48 ∨ u = 49 ∨ u = 50 ∨ u = 51 ∨ u = 52 ∨ u = 53 ∨ u = 54 ∨ u = 55 ∨
          u = 56 ∨ u = 57) as Hu11 by lia.
  by repeat destruct Hu11 as [->|Hu11]; try subst u.
Qed.

Lemma skip_ws_cons_nws u t : json_ws u = false → skip_ws (u :: t) = u :: t.
Proof. cbn. by intros ->. Qed.

Lemma Forall_id_map {A} (f : A → Prop) l : Forall id (map f l) ↔ Forall f l.
Proof. induction l; simpl; rewrite ?Forall_cons; naive_solver. Qed.

(** What the round trip states of one value. *)
Definition roundtrips (v : json) : Prop :=
  json_wf v → ∀ n r, (jsize v < n)%nat → delim r → p_value n (json_print v ++ r) = PDone v r.

Lemma delim_elems l r : delim (concat (map (λ y, 44 :: json_print y) l) ++ 93 :: r).
Proof. destruct l; simpl; auto. Qed.

Lemma delim_members m r :
  delim (concat (map (λ kv, 44 :: quote kv.1 ++ 58 :: json_print kv.2) m) ++ 125 :: r).
Proof. destruct m; simpl; auto. Qed.

Lemma print_elems l :
  Forall roundtrips l → Forall json_wf l →
  ∀ n r, (foldr (λ x acc, S (jsize x) + acc)%nat 0%nat l < n)%nat → delim r →
  p_elems n (concat (map (λ y, 44 :: json_print y) l) ++ 93 :: r) = PDone l r.
Proof.
  induction 1 as [|y l Hy _ IH]; intros Hwf n r Hn Hr; (destruct n as [|n]; [lia|]); [reflexivity|].
  rewrite foldr_cons in Hn. cbv beta in Hn. apply Forall_cons in Hwf as [Hwfy Hwf]. cbn [map concat]. rewrite <- app_assoc. cbn [app p_elems].
  rewrite skip_ws_cons_nws by reflexivity. cbn -[p_value p_elems json_print].
  rewrite Hy; [|done|lia|apply delim_elems]. cbn [pbind]. rewrite (IH Hwf n r); [done|lia|done].
Qed.

Lemma quote_app s r : quote s ++ r = 34 :: concat (map esc_unit s) ++ 34 :: r.
Proof. unfold quote. cbn [app]. by rewrite <- app_assoc. Qed.

Lemma p_member_print k v n r :
  Forall (λ u, 0 ≤ u) k → roundtrips v → json_wf v → (jsize v < n)%nat → delim r →
  p_member (p_value n) (quote k ++ 58 :: json_print v ++ r) = PDone (k, v) r.
Proof.
  intros Hk Hv Hwf Hn Hr. unfold p_member. rewrite quote_app, skip_ws_cons_nws by reflexivity.
  cbn -[p_value p_chars json_print skip_ws]. rewrite p_chars_quote by done.
  rewrite skip_ws_cons_nws by reflexivity. cbn -[p_value json_print]. by rewrite Hv.
Qed.

(** A member's key and value as [json_wf] requires them. *)
Definition member_wf (kv : jstr * json) : Prop := Forall (λ u, 0 ≤ u) kv.1 ∧ json_wf kv.2.

Lemma print_members m :
  Forall (λ kv, roundtrips kv.2) m → Forall member_wf m →
  ∀ n r, (foldr (λ kv acc, S (jsize kv.2) + acc)%nat 0%nat m < n)%nat → delim r →
  p_members n (concat (map (λ kv, 44 :: quote kv.1 ++ 58 :: json_print kv.2) m) ++ 125 :: r) = PDone m r.
Proof.
  induction 1 as [|kv m Hkv _ IH]; intros Hwf n r Hn Hr; (destruct n as [|n]; [lia|]); [reflexivity|].
  rewrite foldr_cons in Hn. cbv beta in Hn. apply Forall_cons in Hwf as [[Hk Hwfkv] Hwf].
  cbn [map concat]. rewrite <- app_assoc. cbn [app p_members].
  rewrite skip_ws_cons_nws by reflexivity. cbn -[p_value p_member p_members json_print quote].
  rewrite <- !app_assoc. cbn [app].
  rewrite p_member_print; [|done|done|done|lia|apply delim_members]. cbn [pbind].
  rewrite (IH Hwf n r); [by destruct kv|lia|done].
Qed.

Lemma print_parse v : roundtrips v.
Proof.
  induction v as [| b | num | s | l IHl | m IHm] using json_ind'; unfold roundtrips;
    intros Hwf n r Hn Hr; (destruct n as [|n]; [cbn [jsize] in Hn; lia|]).
  - reflexivity.
  - by destruct b.
  - destruct (print_num_head num Hwf) as (u & t & E & Hu).
    cbn [json_print]. rewrite E. cbn [app].
    rewrite (p_value_num n _ u (t ++ r)); [|apply skip_ws_cons_nws; unfold json_ws;
      apply bool_decide_false; lia|done].
    change (u :: t ++ r) with ((u :: t) ++ r). rewrite <- E. by rewrite p_number_print.
  - cbn [json_print]. rewrite quote_app. cbn [p_value].
    rewrite skip_ws_cons_nws by reflexivity. cbn -[p_chars]. by rewrite p_chars_quote by
      (eapply Forall_impl; [exact Hwf|]; cbn; lia).
  - destruct l as [|x l]; [reflexivity|].
    cbn [json_wf] in Hwf. apply (Forall_id_map json_wf), Forall_cons in Hwf as [Hwfx Hwf]. apply Forall_cons in IHl as [IHx IHl].
    cbn [jsize] in Hn. rewrite foldr_cons in Hn. cbv beta in Hn.
    cbn [json_print app]. rewrite <- !app_assoc. cbn [app].
    destruct (print_head x Hwfx) as (u & t & E & Hws & H93 & _).
    rewrite (p_value_arr_cons n _ u (t ++ concat (map (λ y, 44 :: json_print y) l) ++ 93 :: r));
      [|by rewrite skip_ws_print, E|done].
    rewrite IHx; [|done|lia|apply delim_elems]. cbn [pbind].
    rewrite print_elems; [done|exact IHl|exact Hwf|lia|done].
  - destruct m as [|kv m]; [reflexivity|].
    cbn [json_wf] in Hwf. destruct Hwf as [Hk Hwf]. apply (Forall_id_map (λ kv, json_wf kv.2)) in Hwf.
    assert (Hmw : Forall member_wf (kv :: m)).
    { apply Forall_and; split; [|done]. eapply Forall_impl; [exact Hk|]. intros x Hx.
      eapply Forall_impl; [exact Hx|]. cbn. lia. }
    apply Forall_cons in Hmw as [Hkv Hmw]. apply Forall_cons in IHm as [IHkv IHm].
    cbn [jsize] in Hn. rewrite foldr_cons in Hn. cbv beta in Hn.
    cbn [json_print app]. rewrite <- !app_assoc. cbn [app].
    cbn [p_value]. rewrite skip_ws_cons_nws by reflexivity.
    rewrite quote_app, skip_ws_cons_nws by reflexivity.
    cbn -[p_value p_member p_members json_print quote p_chars]. rewrite <- quote_app.
    rewrite <- ?app_assoc. cbn [app].
    destruct Hkv as [Hk1 Hk2].
    rewrite p_member_print; [|done|done|done|lia|apply delim_members]. cbn [pbind].
    rewrite print_members; [by destruct kv|done|done|lia|done].
Qed.

(** The round trip: [JSON.parse] reads back every value the printer
    writes. *)
Theorem json_parse_print v : json_wf v → json_parse (json_print v) = Ok v.
Proof.
  intros Hwf. set (t := json_print v). set (N := S (Nat.max (length t) (jsize v))).
  assert (Hp : p_value N (t ++ []) = PDone v []) by (apply print_parse; [done|lia|done]).
  rewrite app_nil_r in Hp.
  unfold json_parse, json_parse_fuel.
  rewrite <- (proj2 (p_value_fuel t N ltac:(lia))), Hp. done.
Qed.

#[export] Instance json_printer : JsonPrinter := {
  JSON_print := json_print;
  JSON_parse_print := json_parse_print
}.
