(* ===== verification/Config.v ===== *)
(** * Configuration read from the build environment

    [auth-service.ts] lines 13-18 read [VITE_GOOGLE_CLIENT_ID] and
    [VITE_GOOGLE_WORKSPACE_DOMAIN] from [import.meta.env] once, at module
    load, and normalise the domain to start with ['@'];
    [AuthService.validateEnvironment] (lines 54-70) and [getConfig]
    (lines 331-338) read these constants.  The environment is a record of
    optional strings ([None] is an unset variable). *)

From S2P Require Import Prelude Js.

Record env := Env {
  VITE_GOOGLE_CLIENT_ID : option jstr;
  VITE_GOOGLE_WORKSPACE_DOMAIN : option jstr;
  MODE : jstr
}.

(** [x || d] on a string-or-undefined: the empty string is falsy. *)
Definition or_default (x : option jstr) (d : jstr) : jstr :=
  match x with
  | Some ((_ :: _) as s) => s
  | _ => d
  end.

Definition GOOGLE_CLIENT_ID (e : env) : jstr :=
  or_default (VITE_GOOGLE_CLIENT_ID e) [].

Definition GOOGLE_WORKSPACE_DOMAIN (e : env) : jstr :=
  or_default (VITE_GOOGLE_WORKSPACE_DOMAIN e) ("@grupolgh.com.br"%js).

Definition ALLOWED_DOMAIN (e : env) : jstr :=
  let d := GOOGLE_WORKSPACE_DOMAIN e in
  if starts_with d ("@"%js) then d else "@"%js ++ d.

(** The result of [validateEnvironment]: [{ valid, error? }]. *)
Record env_check := EnvCheck { valid : bool; env_error : option jstr }.

Definition validateEnvironment (e : env) : env_check :=
  if decide (GOOGLE_CLIENT_ID e = []) then
    EnvCheck false (Some ("VITE_GOOGLE_CLIENT_ID não configurado em .env"%js))
  else if decide (ALLOWED_DOMAIN e = []) then
    EnvCheck false (Some ("VITE_GOOGLE_WORKSPACE_DOMAIN não configurado em .env"%js))
  else EnvCheck true None.

(** The debug snapshot returned by [getConfig]. *)
Record config_snapshot := ConfigSnapshot {
  cfg_clientId : jstr;
  cfg_domain : jstr;
  cfg_domainEnv : jstr;
  cfg_environment : jstr
}.

Definition getConfig (e : env) : config_snapshot :=
  ConfigSnapshot
    (if decide (GOOGLE_CLIENT_ID e = []) then "NÃO CONFIGURADO"%js else "***configurado***"%js)
    (ALLOWED_DOMAIN e) (GOOGLE_WORKSPACE_DOMAIN e) (MODE e).

(** ** Lemmas *)

Lemma GOOGLE_WORKSPACE_DOMAIN_not_nil e : GOOGLE_WORKSPACE_DOMAIN e ≠ [].
Proof.
  unfold GOOGLE_WORKSPACE_DOMAIN, or_default.
  assert (Hd : "@grupolgh.com.br"%js ≠ []) by (intros H; vm_compute in H; discriminate H).
  destruct (VITE_GOOGLE_WORKSPACE_DOMAIN e) as [[|x l]|]; [exact Hd | done | exact Hd].
Qed.

(** The allowed domain always begins with ['@']. *)
Lemma ALLOWED_DOMAIN_at e : ∃ r, ALLOWED_DOMAIN e = ch_at :: r.
Proof.
  unfold ALLOWED_DOMAIN. destruct (starts_with _ _) eqn:E.
  - apply starts_with_spec in E as [r ->]. by exists r.
  - by eexists.
Qed.

Lemma ALLOWED_DOMAIN_not_nil e : ALLOWED_DOMAIN e ≠ [].
Proof. destruct (ALLOWED_DOMAIN_at e) as [r ->]. done. Qed.

#[export] Hint Resolve ALLOWED_DOMAIN_not_nil GOOGLE_WORKSPACE_DOMAIN_not_nil : helpdesk.

(** The only way [validateEnvironment] fails. *)
Lemma validateEnvironment_invalid e :
  valid (validateEnvironment e) = false →
  GOOGLE_CLIENT_ID e = [] ∧
  validateEnvironment e = EnvCheck false (Some ("VITE_GOOGLE_CLIENT_ID não configurado em .env"%js)).
Proof.
  unfold validateEnvironment. case_decide; [done|].
  by rewrite decide_False by apply ALLOWED_DOMAIN_not_nil.
Qed.

(** C5. [validateEnvironment] rejects exactly a missing client id: the
    domain is never empty (it defaults to ["@grupolgh.com.br"] and is
    prefixed with ['@']), so the second check of lines 62-67 is dead. *)
Theorem validateEnvironment_spec e :
  validateEnvironment e =
    if decide (GOOGLE_CLIENT_ID e = []) then
      EnvCheck false (Some ("VITE_GOOGLE_CLIENT_ID não configurado em .env"%js))
    else EnvCheck true None.
Proof.
  unfold validateEnvironment. case_decide; [done|].
  by rewrite decide_False by apply ALLOWED_DOMAIN_not_nil.
Qed.

(** C6. The debug snapshot never exposes the client id: two
    environments that agree on the domain and the mode, and on whether a
    client id is set, give the same snapshot. *)
Theorem getConfig_hides_client_id e1 e2 :
  VITE_GOOGLE_WORKSPACE_DOMAIN e1 = VITE_GOOGLE_WORKSPACE_DOMAIN e2 → MODE e1 = MODE e2 →
  (GOOGLE_CLIENT_ID e1 = [] ↔ GOOGLE_CLIENT_ID e2 = []) →
  getConfig e1 = getConfig e2.
Proof.
  intros Hd Hm Hc. unfold getConfig, ALLOWED_DOMAIN, GOOGLE_WORKSPACE_DOMAIN.
  rewrite Hd, Hm.
  destruct (decide (GOOGLE_CLIENT_ID e1 = [])), (decide (GOOGLE_CLIENT_ID e2 = []));
    [reflexivity | exfalso; tauto | exfalso; tauto | reflexivity].
Qed.

Lemma getConfig_hides_client_id_witness :
  let e1 := Env (Some ("111.apps.googleusercontent.com"%js)) None ("development"%js) in
  let e2 := Env (Some ("222.apps.googleusercontent.com"%js)) None ("development"%js) in
  GOOGLE_CLIENT_ID e1 ≠ GOOGLE_CLIENT_ID e2 ∧ getConfig e1 = getConfig e2.
Proof.
  intros e1 e2. split; [vm_compute; discriminate|].
  apply getConfig_hides_client_id; [done | done |].
  split; intros H; vm_compute in H; discriminate H.
Defined.
