(* ===== verification/TokenValidator.v ===== *)
(** * The Token Validator: [decodeJwt] and [validateToken]

    [auth-service.ts] lines 216-298.  [decodeJwt] splits the token on
    ['.'], requires three segments, maps the URL-safe alphabet of the
    middle one back ([-] to [+], [_] to [/]), decodes it with [atob] and
    parses it with [JSON.parse]; any exception becomes
    [Error("Token inválido: " + message)].  [validateToken] checks, in
    this order, a non-empty token, a truthy payload, a truthy [email], that
    [email] ends with [ALLOWED_DOMAIN], a truthy [email_verified]; logs
    a warning on an unknown issuer; and returns the [User].  Every failure
    is logged with [console.error] and re-thrown as a fresh [Error] with
    the same message (the returned promise rejects).

    The section is parameterised by the platform interfaces of
    [Platform] and by the environment, which the code reads once at
    module load. *)

From S2P Require Import Prelude Js JsonValue Platform Base64 JsonParse Config.

(** The [User] of [App.tsx] lines 19-23 as the code builds it: [name]
    is whatever truthy value [payload.name] holds (the TypeScript type
    [string] is not checked at run time); [picture] is [undefined]
    ([None]) or a truthy value. *)
Record User := MkUser {
  user_email : jstr;
  user_name : json;
  user_picture : option json
}.

Definition validIssuers : list jstr :=
  ["https://accounts.google.com"%js; "accounts.google.com"%js].

(** [validIssuers.includes(v)]: [SameValueZero] against two strings. *)
Definition includes_value (l : list jstr) (v : option json) : bool :=
  match v with
  | Some (JStr s) => bool_decide (s ∈ l)
  | _ => false
  end.

(** The receiver of [payload.email.endsWith(...)]: a string, or the
    [TypeError] V8 raises when the value has no [endsWith] method. *)
Definition string_receiver (v : option json) : res exn jstr :=
  match v with
  | Some (JStr s) => Ok s
  | None => Throw (JsErr ("TypeError"%js)
                     ("Cannot read properties of undefined (reading 'endsWith')"%js))
  | Some JNull => Throw (JsErr ("TypeError"%js)
                     ("Cannot read properties of null (reading 'endsWith')"%js))
  | Some _ => Throw (JsErr ("TypeError"%js) ("payload.email.endsWith is not a function"%js))
  end.

Definition domain_error_message (allowed email : jstr) : jstr :=
  "Email deve terminar com "%js ++ allowed ++ " (recebido: "%js ++ email ++ ")"%js.

Definition issuer_warning : console_entry :=
  ConsoleWarn [ArgStr ("Issuer não é um issuer conhecido do Google, mas continuando..."%js)].

(** The record returned on success, lines 256-260:
    [{ email, name: payload.name || email.split('@')[0],
       picture: payload.picture || undefined }]. *)
Definition make_user (payload : json) (email : jstr) : User :=
  let picture := get_prop payload ("picture"%js) in
  MkUser email
    (js_or (get_prop payload ("name"%js)) (JStr (split_first ch_at email)))
    (if truthy picture then picture else None).

(** [console.error('Erro ao validar token:', errorMessage)], line 263. *)
Definition validation_error_log (msg : jstr) : console :=
  [ConsoleError [ArgStr ("Erro ao validar token:"%js); ArgStr msg]].

(** The console output of a successful check, lines 251-253. *)
Definition issuer_log (payload : json) : console :=
  let iss := get_prop payload ("iss"%js) in
  if truthy iss && negb (includes_value validIssuers iss) then [issuer_warning] else [].

Section Validator.
  Context `{Base64Api} `{JsonApi}.
  Variable cfg : env.

  (** [decodeJwt(token)], lines 275-298. *)
Definition decodeJwt (token : jstr) : res exn json :=
    res_catch
      (let parts := split_on ch_dot token in
       if decide (length parts ≠ 3%nat) then
         Throw (new_Error ("Formato de token inválido"%js))
       else
         let payload := default [] (parts !! 1%nat) in
         decoded ← atob (replace_all ch_under ch_slash (replace_all ch_minus ch_plus payload));
         parsed ← JSON_parse decoded;
         Ok parsed)
      (λ error, let errorMessage := message_or error ("Erro ao decodificar token"%js) in
                Throw (new_Error ("Token inválido: "%js ++ errorMessage))).

  (** Lines 225-260, from the decoded payload on: the checks in the
      order of the code, the issuer warning (the only console output of
      a success) and the [User]. *)
Definition check_payload (payload : json) : res exn (console * User) :=
    if negb (truthy (Some payload)) then
      Throw (new_Error ("Payload do token inválido"%js))
    else if negb (truthy (get_prop payload ("email"%js))) then
      Throw (new_Error ("Email não encontrado no token"%js))
    else
      email ← string_receiver (get_prop payload ("email"%js));
      if negb (ends_with email (ALLOWED_DOMAIN cfg)) then
        Throw (new_Error (domain_error_message (ALLOWED_DOMAIN cfg) email))
      else if negb (truthy (get_prop payload ("email_verified"%js))) then
        Throw (new_Error ("Email não foi verificado pelo Google"%js))
      else
        Ok (issuer_log payload, make_user payload email).

  (** The [try] block of [validateToken], lines 218-260. *)
Definition validate_body (token : jstr) : res exn (console * User) :=
    if decide (token = []) then Throw (new_Error ("Token não fornecido"%js))
    else payload ← decodeJwt token; check_payload payload.

  (** [validateToken(token)], lines 216-266: the console output and the
      settled promise. *)
Definition validateToken (token : jstr) : console * res exn User :=
    match validate_body token with
    | Ok (logs, user) => (logs, Ok user)
    | Throw error =>
        let errorMessage := message_or error ("Erro desconhecido ao validar token"%js) in
        (validation_error_log errorMessage, Throw (new_Error errorMessage))
    end.
End Validator.

(** ** The abstract specification of a validation outcome

    The design's taxonomy (spec section 7): a success or one of four
    failure kinds, told apart by the caller.  The code only throws
    [Error]s with messages; [classify_message] reads the kind back from
    the message text.  Messages that name no kind (an engine
    [TypeError]) are [KUnclassified]. *)

Inductive failure_kind :=
| MalformedTokenError
| MissingEmailError
| DomainNotAllowedError
| EmailNotVerifiedError.

Inductive outcome_kind :=
| KSuccess
| KFailure (k : failure_kind)
| KUnclassified.

Definition classify_message (msg : jstr) : outcome_kind :=
  if starts_with msg ("Token inválido: "%js) then KFailure MalformedTokenError
  else if starts_with msg ("Email deve terminar com "%js) then KFailure DomainNotAllowedError
  else if bool_decide (msg = "Token não fornecido"%js ∨ msg = "Payload do token inválido"%js)
  then KFailure MalformedTokenError
  else if bool_decide (msg = "Email não encontrado no token"%js) then KFailure MissingEmailError
  else if bool_decide (msg = "Email não foi verificado pelo Google"%js)
  then KFailure EmailNotVerifiedError
  else KUnclassified.

Arguments classify_message : simpl never.

Definition outcome_of (r : res exn User) : outcome_kind :=
  match r with
  | Ok _ => KSuccess
  | Throw e => classify_message (exn_message e)
  end.

(** The validation steps of spec section 4.2, over the decoded claims:
    an empty token or any decoding failure is malformed; then the e-mail
    must be present, end with the allowed suffix, and be verified. *)
Definition spec_outcome (cfg : env) (token : jstr) (decoded : res exn json) : outcome_kind :=
  if decide (token = []) then KFailure MalformedTokenError
  else match decoded with
       | Throw _ => KFailure MalformedTokenError
       | Ok claims =>
           if negb (truthy (Some claims)) then KFailure MalformedTokenError
           else match get_prop claims ("email"%js) with
                | Some (JStr email) =>
                    if bool_decide (email = []) then KFailure MissingEmailError
                    else if negb (ends_with email (ALLOWED_DOMAIN cfg))
                    then KFailure DomainNotAllowedError
                    else if negb (truthy (get_prop claims ("email_verified"%js)))
                    then KFailure EmailNotVerifiedError
                    else KSuccess
                | _ => KFailure MissingEmailError
                end
       end.

(** Claims whose [email], when truthy, is a string (the spec's
    [TokenClaims] type). *)
Definition email_well_typed (p : json) : Prop :=
  ∀ v, get_prop p ("email"%js) = Some v → truthy (Some v) = true → ∃ s, v = JStr s.

(** ** Tokens as an issuer writes them

    The payload segment is the base64 of the JSON text with the padding
    removed and the URL-safe alphabet ([+] to [-], [/] to [_]); the
    header and signature segments are not read by the code. *)

Definition b64url `{Base64Api, !Base64Encoder} (s : jstr) : jstr :=
  replace_all ch_slash ch_under (replace_all ch_plus ch_minus (btoa_nopad s)).

Definition make_token `{Base64Api, !Base64Encoder} (header payload signature : jstr) : jstr :=
  header ++ [ch_dot] ++ b64url payload ++ [ch_dot] ++ signature.

Section TokenShape.
  Context `{Base64Api, !Base64Encoder, JsonApi}.

Lemma map_id_Forall {A} (f : A → A) (P : A → Prop) l :
  (∀ x, P x → f x = x) → Forall P l → map f l = l.
Proof. intros Hf. induction 1; simpl; [done|]. by rewrite Hf, IHForall. Qed.

(** Mapping the URL-safe alphabet back gives the base64 text. *)
Lemma b64url_back p : Forall latin1 p →
  replace_all ch_under ch_slash (replace_all ch_minus ch_plus (b64url p)) = btoa_nopad p.
Proof.
  intros Hp. unfold b64url, replace_all. rewrite !map_map.
  apply (map_id_Forall _ b64_char); [|by apply btoa_nopad_alphabet].
  unfold b64_char, ch_under, ch_slash, ch_minus, ch_plus. intros x Hx. repeat case_decide; lia.
Qed.

Lemma b64url_nodot p : Forall latin1 p → ch_dot ∉ b64url p.
Proof.
  intros Hp. pose proof (btoa_nopad_alphabet p Hp) as Hb. unfold b64url, replace_all. rewrite map_map.
  intros (x & Hx & Hin)%list_elem_of_fmap. rewrite Forall_forall in Hb. apply Hb in Hin.
  revert Hx Hin. unfold b64_char, ch_dot, ch_under, ch_slash, ch_minus, ch_plus.
  repeat case_decide; lia.
Qed.

(** [decodeJwt] of a token built by [make_token]: the segment it picks
    is the payload's, and [atob] of its URL-safe mapping is the payload. *)
Lemma decodeJwt_make_token_catch h p s :
  ch_dot ∉ h → ch_dot ∉ s → Forall latin1 p →
  decodeJwt (make_token h p s) =
    res_catch (parsed ← JSON_parse p; Ok parsed)
      (λ error, Throw (new_Error ("Token inválido: "%js ++ message_or error ("Erro ao decodificar token"%js)))).
Proof.
  intros Hh Hs Hp. unfold decodeJwt, make_token. cbn [app].
  rewrite split_on_app_sep by done. rewrite split_on_app_sep by (by apply b64url_nodot).
  rewrite split_on_nosep by done. rewrite decide_False by (simpl; lia). simpl.
  by rewrite b64url_back, atob_btoa_nopad by done.
Qed.

(** [decodeJwt] of a token whose payload segment encodes a text
    [JSON.parse] reads. *)
Lemma decodeJwt_make_token h p s v :
  ch_dot ∉ h → ch_dot ∉ s → Forall latin1 p → JSON_parse p = Ok v →
  decodeJwt (make_token h p s) = Ok v.
Proof. intros Hh Hs Hp Hv. rewrite decodeJwt_make_token_catch by done. by rewrite Hv. Qed.

(** C4. [decodeJwt] inverts the issuer's base64url encoding of the
    payload segment: for a token [header.payload.signature] whose header
    and signature hold no dot and whose payload segment is the unpadded
    base64url of a text [p] of Latin-1 units, [decodeJwt] returns what
    [JSON.parse] makes of [p], and a [JSON.parse] error [e] as the
    [Error] ["Token inválido: " + e.message]. *)
Theorem decodeJwt_payload_roundtrip h p s :
  ch_dot ∉ h → ch_dot ∉ s → Forall latin1 p →
  decodeJwt (make_token h p s) =
    match JSON_parse p with
    | Ok v => Ok v
    | Throw e => Throw (new_Error ("Token inválido: "%js ++ exn_message e))
    end.
Proof. intros Hh Hs Hp. rewrite decodeJwt_make_token_catch by done. by destruct (JSON_parse p). Qed.

End TokenShape.

(** JSON text written with single quotes standing for double quotes
    (code unit 39 becomes 34). *)
Definition json_text (s : jstr) : jstr := replace_all 39 34 s.

(** The scenarios of spec section 8, with the domain configured without
    its ['@'] (the code adds it). *)
Definition demo_env : env :=
  Env (Some ("1234.apps.googleusercontent.com"%js)) (Some ("example-corp.example"%js))
      ("development"%js).

Definition demo_header : jstr := "eyJhbGciOiJSUzI1NiJ9"%js.
Definition demo_signature : jstr := "c2lnbmF0dXJl"%js.

Definition ana_claims : json :=
  JObj [("email"%js, JStr ("ana@example-corp.example"%js)); ("email_verified"%js, JBool true);
        ("name"%js, JStr ("Ana Lima"%js))].
Definition ana_token : jstr :=
  make_token demo_header
    (json_text "{'email':'ana@example-corp.example','email_verified':true,'name':'Ana Lima'}"%js)
    demo_signature.

Definition bob_claims : json :=
  JObj [("email"%js, JStr ("bob@other.example"%js)); ("email_verified"%js, JBool true)].
Definition bob_token : jstr :=
  make_token demo_header (json_text "{'email':'bob@other.example','email_verified':true}"%js)
    demo_signature.

Definition carla_claims : json :=
  JObj [("email"%js, JStr ("carla@example-corp.example"%js)); ("email_verified"%js, JBool false)].
Definition carla_token : jstr :=
  make_token demo_header
    (json_text "{'email':'carla@example-corp.example','email_verified':false}"%js) demo_signature.

Definition dan_claims : json :=
  JObj [("email"%js, JStr ("dan@example-corp.example"%js)); ("email_verified"%js, JBool true);
        ("name"%js, JStr [])].
Definition dan_token : jstr :=
  make_token demo_header
    (json_text "{'email':'dan@example-corp.example','email_verified':true,'name':''}"%js)
    demo_signature.

Definition numeric_email_claims : json :=
  JObj [("email"%js, JNum (JNumLit false 42 0)); ("email_verified"%js, JBool true)].
Definition numeric_email_token : jstr :=
  make_token demo_header (json_text "{'email':42,'email_verified':true}"%js) demo_signature.

(** ** Behaviour of the validator *)

Section ValidatorFacts.
  Context `{Base64Api} `{JsonApi}.
  Variable cfg : env.

Lemma get_prop_Some_truthy p k v : get_prop p k = Some v → truthy (Some p) = true.
  Proof. destruct p; done. Qed.

Lemma ends_with_not_nil s t : ends_with s t = true → t ≠ [] → s ≠ [].
  Proof. intros Hs Ht ->. by rewrite ends_with_nil_l in Hs. Qed.

Lemma allowed_email_not_nil s : ends_with s (ALLOWED_DOMAIN cfg) = true → s ≠ [].
  Proof. intros Hs. eapply ends_with_not_nil; eauto with helpdesk. Qed.

Lemma validateToken_body_Throw t e :
    validate_body cfg t = Throw e →
    validateToken cfg t = (validation_error_log (exn_message e), Throw (new_Error (exn_message e))).
  Proof. unfold validateToken. by intros ->. Qed.

Lemma validateToken_body_Ok t logs u :
    validate_body cfg t = Ok (logs, u) → validateToken cfg t = (logs, Ok u).
  Proof. unfold validateToken. by intros ->. Qed.

  (** A payload passes exactly when its [email] is a string ending with
      the allowed domain and [email_verified] is truthy. *)
Lemma check_payload_Ok p logs u :
    check_payload cfg p = Ok (logs, u) ↔
    ∃ email, get_prop p ("email"%js) = Some (JStr email) ∧
             ends_with email (ALLOWED_DOMAIN cfg) = true ∧
             truthy (get_prop p ("email_verified"%js)) = true ∧
             logs = issuer_log p ∧ u = make_user p email.
  Proof.
    unfold check_payload. split.
    - intros Hc.
      destruct (truthy (Some p)); simpl in Hc; [|discriminate Hc].
      destruct (truthy (get_prop p ("email"%js))); simpl in Hc; [|discriminate Hc].
      destruct (get_prop p ("email"%js)) as [[| | |email| |]|] eqn:Ee;
        simpl in Hc; try discriminate Hc.
      destruct (ends_with email _) eqn:Ed; simpl in Hc; [|discriminate Hc].
      destruct (truthy (get_prop p ("email_verified"%js))) eqn:Ev; simpl in Hc; [|discriminate Hc].
      injection Hc as <- <-. by exists email.
    - intros (email & Ee & Ed & Ev & -> & ->).
      rewrite (get_prop_Some_truthy _ _ _ Ee), Ee. simpl.
      rewrite bool_decide_eq_true_2 by (by apply allowed_email_not_nil). simpl.
      by rewrite Ed, Ev.
  Qed.

  (** Every outcome of [check_payload] that is not a success is one of
      the thrown errors of lines 225-243. *)
Lemma validate_body_Ok t logs u :
    validate_body cfg t = Ok (logs, u) ↔
    t ≠ [] ∧ ∃ p, decodeJwt t = Ok p ∧ check_payload cfg p = Ok (logs, u).
  Proof.
    unfold validate_body. case_decide; [split; [discriminate | naive_solver]|].
    rewrite bind_Ok. naive_solver.
  Qed.

  (** A token whose payload has an allowed, verified e-mail is accepted
      with the user [make_user] builds. *)
Lemma validateToken_accepts t p email :
    t ≠ [] → decodeJwt t = Ok p →
    get_prop p "email"%js = Some (JStr email) → ends_with email (ALLOWED_DOMAIN cfg) = true →
    truthy (get_prop p "email_verified"%js) = true →
    (validateToken cfg t).2 = Ok (make_user p email).
  Proof.
    intros Ht Hd He Hs Hv.
    rewrite (validateToken_body_Ok t (issuer_log p) (make_user p email)); [done|].
    apply validate_body_Ok. split; [done|]. exists p. split; [done|].
    apply check_payload_Ok. eauto 10.
  Qed.
End ValidatorFacts.

(** The kind each message of the code denotes. *)
Lemma classify_decode m : classify_message ("Token inválido: "%js ++ m) = KFailure MalformedTokenError.
Proof. unfold classify_message. by rewrite starts_with_app. Qed.

Lemma classify_domain a e : classify_message (domain_error_message a e) = KFailure DomainNotAllowedError.
Proof.
  unfold classify_message, domain_error_message.
  replace (starts_with _ ("Token inválido: "%js)) with false by (vm_compute; reflexivity).
  by rewrite starts_with_app.
Qed.

Lemma classify_empty : classify_message ("Token não fornecido"%js) = KFailure MalformedTokenError.
Proof. vm_compute. reflexivity. Qed.

Lemma classify_payload : classify_message ("Payload do token inválido"%js) = KFailure MalformedTokenError.
Proof. vm_compute. reflexivity. Qed.

Lemma classify_missing : classify_message ("Email não encontrado no token"%js) = KFailure MissingEmailError.
Proof. vm_compute. reflexivity. Qed.

Lemma classify_unverified :
  classify_message ("Email não foi verificado pelo Google"%js) = KFailure EmailNotVerifiedError.
Proof. vm_compute. reflexivity. Qed.

Create Rewrite HintDb classify.
#[export] Hint Rewrite classify_decode classify_domain classify_empty classify_payload
  classify_missing classify_unverified : classify.

Section ValidatorTheorems.
  Context `{Base64Api} `{JsonApi}.
  Variable cfg : env.

Lemma decodeJwt_Throw t e :
    decodeJwt t = Throw e → ∃ m, e = new_Error ("Token inválido: "%js ++ m).
  Proof.
    unfold decodeJwt, res_catch. case_match; [discriminate|].
    intros [= <-]. eauto.
  Qed.

Lemma decodeJwt_segments t :
    length (split_on ch_dot t) ≠ 3%nat →
    decodeJwt t = Throw (new_Error ("Token inválido: "%js ++ "Formato de token inválido"%js)).
  Proof. intros Hl. unfold decodeJwt. by case_decide. Qed.

Lemma validateToken_Throw_msg t msg :
    validate_body cfg t = Throw (new_Error msg) →
    validateToken cfg t = (validation_error_log msg, Throw (new_Error msg)).
  Proof. apply validateToken_body_Throw. Qed.

  (** What a resolved [validateToken] is made of. *)
Lemma validateToken_Ok t u :
    (validateToken cfg t).2 = Ok u →
    t ≠ [] ∧ ∃ p email, decodeJwt t = Ok p ∧
      get_prop p ("email"%js) = Some (JStr email) ∧
      ends_with email (ALLOWED_DOMAIN cfg) = true ∧
      truthy (get_prop p ("email_verified"%js)) = true ∧
      u = make_user p email.
  Proof.
    unfold validateToken. destruct (validate_body cfg t) as [[logs u']|e] eqn:Eb; simpl; [|discriminate].
    intros [= <-]. apply validate_body_Ok in Eb as (Ht & p & Hd & Hc).
    apply check_payload_Ok in Hc as (email & He & Hs & Hv & _ & ->). eauto 10.
  Qed.

  (** C1. [validateToken] resolves with [u] exactly when the token is
      non-empty, decodes to a payload whose [email] is a string ending
      with the allowed domain and whose [email_verified] is truthy, and
      [u] is the record built from that payload. *)
Theorem validateToken_success t u :
    (validateToken cfg t).2 = Ok u ↔
    t ≠ [] ∧ ∃ p email, decodeJwt t = Ok p ∧
      get_prop p ("email"%js) = Some (JStr email) ∧
      ends_with email (ALLOWED_DOMAIN cfg) = true ∧
      truthy (get_prop p ("email_verified"%js)) = true ∧
      u = make_user p email.
  Proof.
    split; [apply validateToken_Ok|]. intros (Ht & p & email & Hd & He & Hs & Hv & ->).
    assert (Hb : validate_body cfg t = Ok (issuer_log p, make_user p email)).
    { apply validate_body_Ok. split; [done|]. exists p. split; [done|].
      apply check_payload_Ok. eauto 10. }
    unfold validateToken. by rewrite Hb.
  Qed.

  (** Refinement: for claims whose e-mail is a string when present,
      the kind read from [validateToken]'s outcome is the outcome of the
      specification's validation steps on the decoded claims. *)
Theorem validateToken_refines_spec t :
    (∀ p, decodeJwt t = Ok p → email_well_typed p) →
    outcome_of (validateToken cfg t).2 = spec_outcome cfg t (decodeJwt t).
  Proof.
    intros Hwt. unfold validateToken, validate_body, spec_outcome.
    case_decide as Ht; [simpl; by autorewrite with classify|].
    destruct (decodeJwt t) as [p|e] eqn:Ed.
    2: { destruct (decodeJwt_Throw t e Ed) as [m ->]. simpl. by autorewrite with classify. }
    specialize (Hwt p eq_refl). rewrite bind_Ok_l. unfold check_payload.
    destruct (truthy (Some p)); simpl; [|by autorewrite with classify].
    destruct (get_prop p ("email"%js)) as [v|] eqn:Ee; simpl; [|by autorewrite with classify].
    assert (Hns : ∀ v', v = v' → truthy (Some v') = true → (∀ s, v' ≠ JStr s) → False).
    { intros v' -> Hv Hn. destruct (Hwt _ Ee Hv) as [s' ->]. by apply (Hn s'). }
    destruct v as [|[]|n|email|l|m]; simpl; try by autorewrite with classify.
    - by destruct (Hns (JBool true)).
    - destruct (num_is_zero n) eqn:Hz; simpl; [by autorewrite with classify|].
      destruct (Hns (JNum n)); [done | simpl; by rewrite Hz | done].
    - destruct email as [|x r]; simpl.
      { by autorewrite with classify. }
      destruct (ends_with (x :: r) _); simpl; [|by autorewrite with classify].
      destruct (truthy (get_prop p ("email_verified"%js))); simpl; [done|].
      by autorewrite with classify.
    - by destruct (Hns (JArr l)).
    - by destruct (Hns (JObj m)).
  Qed.
Lemma validate_body_decoded t p :
    t ≠ [] → decodeJwt t = Ok p → validate_body cfg t = check_payload cfg p.
  Proof. intros Ht Hd. unfold validate_body. case_decide; [done|]. by rewrite Hd. Qed.

Lemma check_payload_email_string p email :
    get_prop p ("email"%js) = Some (JStr email) → email ≠ [] →
    check_payload cfg p =
      if negb (ends_with email (ALLOWED_DOMAIN cfg)) then
        Throw (new_Error (domain_error_message (ALLOWED_DOMAIN cfg) email))
      else if negb (truthy (get_prop p ("email_verified"%js))) then
        Throw (new_Error ("Email não foi verificado pelo Google"%js))
      else Ok (issuer_log p, make_user p email).
  Proof.
    intros He Hne. unfold check_payload.
    rewrite (get_prop_Some_truthy _ _ _ He), He. simpl.
    by rewrite bool_decide_eq_true_2 by done.
  Qed.

  (** A non-empty token that does not split into exactly three
      ['.']-separated segments is rejected with
      ["Token inválido: Formato de token inválido"], logged once. *)
Theorem validateToken_wrong_segments t :
    t ≠ [] → length (split_on ch_dot t) ≠ 3%nat →
    let msg := "Token inválido: "%js ++ "Formato de token inválido"%js in
    validateToken cfg t = (validation_error_log msg, Throw (new_Error msg)).
  Proof.
    intros Ht Hl msg. apply validateToken_Throw_msg.
    unfold validate_body. case_decide; [done|]. by rewrite decodeJwt_segments.
  Qed.

  (** A decoded e-mail (a non-empty string) that does not end with the
      allowed domain is rejected with the message naming the domain and
      the e-mail, whatever the other claims say. *)
Theorem validateToken_domain_rejected t p email :
    t ≠ [] → decodeJwt t = Ok p →
    get_prop p ("email"%js) = Some (JStr email) → email ≠ [] →
    ends_with email (ALLOWED_DOMAIN cfg) = false →
    let msg := domain_error_message (ALLOWED_DOMAIN cfg) email in
    validateToken cfg t = (validation_error_log msg, Throw (new_Error msg)).
  Proof.
    intros Ht Hd He Hne Hend msg. apply validateToken_Throw_msg.
    rewrite (validate_body_decoded t p), (check_payload_email_string p email) by done.
    by rewrite Hend.
  Qed.

  (** An e-mail of the allowed domain whose [email_verified] is falsy
      is rejected with ["Email não foi verificado pelo Google"]. *)
Theorem validateToken_unverified_rejected t p email :
    t ≠ [] → decodeJwt t = Ok p →
    get_prop p ("email"%js) = Some (JStr email) →
    ends_with email (ALLOWED_DOMAIN cfg) = true →
    truthy (get_prop p ("email_verified"%js)) = false →
    let msg := "Email não foi verificado pelo Google"%js in
    validateToken cfg t = (validation_error_log msg, Throw (new_Error msg)).
  Proof.
    intros Ht Hd He Hend Hv msg. apply validateToken_Throw_msg.
    rewrite (validate_body_decoded t p), (check_payload_email_string p email)
      by eauto using allowed_email_not_nil.
    by rewrite Hend, Hv.
  Qed.

  (** C2. When [payload.name] is falsy (absent, [null], the empty string, [0],
      [false]) the user's name is the part of the e-mail before its first
      ['@'], and the e-mail does contain an ['@']. *)
Theorem validateToken_name_default t p u :
    decodeJwt t = Ok p → (validateToken cfg t).2 = Ok u →
    truthy (get_prop p ("name"%js)) = false →
    let local := split_first ch_at (user_email u) in
    (user_name u = JStr local) ∧ (ch_at ∉ local) ∧ (∃ rest, user_email u = local ++ ch_at :: rest).
  Proof.
    intros Hd Hok Hn local.
    apply validateToken_Ok in Hok as (_ & p' & email & Hd' & He & Hend & _ & ->).
    rewrite Hd in Hd'. injection Hd' as <-.
    unfold local, make_user. simpl. rewrite js_or_falsy by done.
    destruct (ALLOWED_DOMAIN_at cfg) as [r Hr]. rewrite Hr in Hend.
    apply ends_with_spec in Hend as [pre ->].
    destruct (split_first_elem ch_at (pre ++ ch_at :: r)) as [Hn' Hs].
    { apply elem_of_app. right. apply elem_of_cons. by left. }
    done.
  Qed.

  (** A truthy e-mail claim that is not a string makes
      [payload.email.endsWith] throw a [TypeError]; [validateToken]
      re-throws it as a plain [Error] with the engine's message, which
      names none of the design's error kinds. *)
Theorem validateToken_non_string_email t p v :
    t ≠ [] → decodeJwt t = Ok p →
    get_prop p ("email"%js) = Some v → truthy (Some v) = true → (∀ s, v ≠ JStr s) →
    let msg := "payload.email.endsWith is not a function"%js in
    validateToken cfg t = (validation_error_log msg, Throw (new_Error msg)) ∧
    outcome_of (validateToken cfg t).2 = KUnclassified.
  Proof.
    intros Ht Hd He Hv Hns msg.
    assert (Hb : validate_body cfg t = Throw (JsErr ("TypeError"%js) msg)).
    { rewrite (validate_body_decoded t p) by done. unfold check_payload.
      rewrite (get_prop_Some_truthy _ _ _ He), He, Hv. simpl.
      destruct v as [|b|n|s|l|m]; simpl in Hv; try discriminate Hv;
        [reflexivity | reflexivity | by destruct (Hns s) | reflexivity | reflexivity]. }
    rewrite (validateToken_body_Throw cfg _ _ Hb). split; [reflexivity|].
    simpl. vm_compute. reflexivity.
  Qed.

  (** C3. The issuer check is advisory: adding an [iss] member to any
      payload changes only the console output (one warning when the
      issuer is truthy and not Google's), never the outcome. *)
Theorem check_payload_issuer_soft m v :
    check_payload cfg (JObj (m ++ [("iss"%js, v)])) =
      (λ '(_, u), (if truthy (Some v) && negb (includes_value validIssuers (Some v))
                   then [issuer_warning] else [], u)) <$> check_payload cfg (JObj m).
  Proof.
    assert (Hk : ∀ k, k ≠ "iss"%js → get_prop (JObj (m ++ [("iss"%js, v)])) k = get_prop (JObj m) k).
    { intros k Hk. simpl. apply obj_lookup_app_ne. congruence. }
    assert (Hiss : get_prop (JObj (m ++ [("iss"%js, v)])) ("iss"%js) = Some v).
    { apply obj_lookup_app_last. }
    unfold check_payload, issuer_log, make_user.
    rewrite Hiss, !Hk by (intros Hx; vm_compute in Hx; discriminate Hx).
    change (truthy (Some (JObj (m ++ [("iss"%js, v)])))) with true.
    change (truthy (Some (JObj m))) with true. simpl.
    destruct (truthy (obj_lookup ("email"%js) m)); simpl; [|reflexivity].
    destruct (string_receiver (obj_lookup ("email"%js) m)); simpl; [|reflexivity].
    destruct (ends_with _ _); simpl; [|reflexivity].
    by destruct (truthy (obj_lookup ("email_verified"%js) m)).
  Qed.

  (** Every rejection is logged once with [console.error] and re-thrown as
      a plain [Error] carrying the same message. *)
Theorem validateToken_failure_logged t e :
    (validateToken cfg t).2 = Throw e →
    (validateToken cfg t).1 = validation_error_log (exn_message e) ∧ exn_name e = "Error"%js.
  Proof.
    unfold validateToken. destruct (validate_body cfg t) as [[]|e']; simpl; [discriminate|].
    by intros [= <-].
  Qed.
End ValidatorTheorems.

(** ** Termination of the decoding *)

(** The text [decodeJwt] hands to [JSON.parse] is no longer than the
    token: a segment of it, through [atob]. *)
Lemma decodeJwt_decoded_length token parts d :
  parts = split_on ch_dot token →
  forgiving_atob (replace_all ch_under ch_slash (replace_all ch_minus ch_plus (default [] (parts !! 1%nat)))) = Ok d →
  (length d ≤ length token)%nat.
Proof.
  intros -> Hd. apply atob_length in Hd. unfold replace_all in Hd. rewrite !length_map in Hd.
  destruct (split_on ch_dot token !! 1%nat) as [p|] eqn:Hp; simpl in *; [|lia].
  apply list_elem_of_lookup_2, split_on_part_length in Hp. lia.
Qed.

(** The parse [decodeJwt] runs terminates within its fuel: with any
    fuel above the token's length, [JSON.parse] never runs out and
    [decodeJwt] returns what the parser of the unbounded grammar returns,
    on every token, valid or not. *)
Theorem decodeJwt_parse_terminates token n :
  (length token < n)%nat → @decodeJwt base64_api (json_api_fuel n) token = decodeJwt token.
Proof.
  intros Hn. unfold decodeJwt. case_decide; [done|]. simpl.
  destruct (forgiving_atob _) as [d|e] eqn:Hd; [|done]. simpl.
  apply (decodeJwt_decoded_length token _ d eq_refl) in Hd.
  by rewrite json_parse_fuel_enough by lia.
Qed.

(** ** The scenarios of spec section 8, and witnesses *)

(** Close a goal about concrete values by evaluation. *)
Ltac concrete := vm_compute; first [reflexivity | discriminate | lia].

Example decode_ana : decodeJwt ana_token = Ok ana_claims.
Proof. concrete. Qed.

Example ana_scenario :
  validateToken demo_env ana_token =
    ([], Ok (MkUser ("ana@example-corp.example"%js) (JStr ("Ana Lima"%js)) None)).
Proof. concrete. Qed.

Example bob_scenario :
  (validateToken demo_env bob_token).2 =
    Throw (new_Error ("Email deve terminar com @example-corp.example (recebido: bob@other.example)"%js)).
Proof. concrete. Qed.

Lemma validateToken_success_witness :
  (validateToken demo_env ana_token).2 = Ok (make_user ana_claims ("ana@example-corp.example"%js)).
Proof.
  apply validateToken_success. split; [concrete|].
  exists ana_claims, ("ana@example-corp.example"%js). repeat split; concrete.
Defined.

Lemma decodeJwt_payload_roundtrip_witness :
  decodeJwt ana_token = Ok ana_claims ∧
  decodeJwt (make_token demo_header "{"%js demo_signature) =
    Throw (new_Error ("Token inválido: "%js ++ exn_message syntax_error)).
Proof.
  split.
  - unfold ana_token. rewrite decodeJwt_payload_roundtrip; [vm_compute; reflexivity|..];
      apply (bool_decide_unpack _); vm_compute; reflexivity.
  - rewrite decodeJwt_payload_roundtrip; [vm_compute; reflexivity|..];
      apply (bool_decide_unpack _); vm_compute; reflexivity.
Defined.

Lemma validateToken_refines_spec_witness :
  (∀ p, decodeJwt ana_token = Ok p → email_well_typed p) ∧
  outcome_of (validateToken demo_env ana_token).2 = spec_outcome demo_env ana_token (decodeJwt ana_token).
Proof.
  assert (Hwt : ∀ p, decodeJwt ana_token = Ok p → email_well_typed p).
  { intros p Hd v Hv _. rewrite decode_ana in Hd. injection Hd as <-.
    vm_compute in Hv. injection Hv as <-. by eexists. }
  split; [exact Hwt | apply validateToken_refines_spec, Hwt].
Defined.

Lemma validateToken_wrong_segments_witness :
  "header.payload"%js ≠ [] ∧ length (split_on ch_dot ("header.payload"%js)) ≠ 3%nat ∧
  validateToken demo_env ("header.payload"%js) =
    (validation_error_log ("Token inválido: "%js ++ "Formato de token inválido"%js),
     Throw (new_Error ("Token inválido: "%js ++ "Formato de token inválido"%js))).
Proof.
  assert (Ht : "header.payload"%js ≠ []) by concrete.
  assert (Hl : length (split_on ch_dot ("header.payload"%js)) ≠ 3%nat) by concrete.
  split; [exact Ht | split; [exact Hl | exact (validateToken_wrong_segments demo_env _ Ht Hl)]].
Defined.

Lemma validateToken_domain_rejected_witness :
  let msg := domain_error_message (ALLOWED_DOMAIN demo_env) ("bob@other.example"%js) in
  decodeJwt bob_token = Ok bob_claims ∧
  validateToken demo_env bob_token = (validation_error_log msg, Throw (new_Error msg)).
Proof.
  assert (Hd : decodeJwt bob_token = Ok bob_claims) by concrete.
  split; [exact Hd|].
  apply (validateToken_domain_rejected demo_env bob_token bob_claims); [concrete | exact Hd | concrete..].
Defined.

Lemma validateToken_unverified_rejected_witness :
  let msg := "Email não foi verificado pelo Google"%js in
  decodeJwt carla_token = Ok carla_claims ∧
  validateToken demo_env carla_token = (validation_error_log msg, Throw (new_Error msg)).
Proof.
  assert (Hd : decodeJwt carla_token = Ok carla_claims) by concrete.
  split; [exact Hd|].
  apply (validateToken_unverified_rejected demo_env carla_token carla_claims
           ("carla@example-corp.example"%js)); [concrete | exact Hd | concrete..].
Defined.

Lemma validateToken_name_default_witness :
  let u := MkUser ("dan@example-corp.example"%js) (JStr ("dan"%js)) None in
  decodeJwt dan_token = Ok dan_claims ∧ (validateToken demo_env dan_token).2 = Ok u ∧
  truthy (get_prop dan_claims ("name"%js)) = false ∧
  (let local := split_first ch_at (user_email u) in
   (user_name u = JStr local) ∧ (ch_at ∉ local) ∧ (∃ rest, user_email u = local ++ ch_at :: rest)).
Proof.
  intros u.
  assert (Hd : decodeJwt dan_token = Ok dan_claims) by concrete.
  assert (Hok : (validateToken demo_env dan_token).2 = Ok u) by concrete.
  assert (Hn : truthy (get_prop dan_claims ("name"%js)) = false) by concrete.
  split; [exact Hd|]. split; [exact Hok|]. split; [exact Hn|].
  exact (validateToken_name_default demo_env dan_token dan_claims u Hd Hok Hn).
Defined.

Lemma validateToken_non_string_email_witness :
  decodeJwt numeric_email_token = Ok numeric_email_claims ∧
  outcome_of (validateToken demo_env numeric_email_token).2 = KUnclassified.
Proof.
  assert (Hd : decodeJwt numeric_email_token = Ok numeric_email_claims) by concrete.
  split; [exact Hd|].
  apply (validateToken_non_string_email demo_env numeric_email_token numeric_email_claims
           (JNum (JNumLit false 42 0))); [concrete | exact Hd | concrete | concrete |].
  intros s; discriminate.
Defined.

Lemma decodeJwt_parse_terminates_witness :
  (length ana_token < S (length ana_token))%nat ∧
  @decodeJwt base64_api (json_api_fuel (S (length ana_token))) ana_token = decodeJwt ana_token.
Proof.
  assert (Hl : (length ana_token < S (length ana_token))%nat) by lia.
  split; [exact Hl | exact (decodeJwt_parse_terminates ana_token _ Hl)].
Defined.
