(* ===== verification/Bootstrapper.v ===== *)
(** * The Identity Bootstrapper: [AuthService]'s SDK loading as a state machine

    [AuthService.initializeGoogle] (auth-service.ts lines 76-139) returns a
    promise settled by one of: the configuration check, a direct
    [setupGoogleClient] when [window.google] is present, or the handlers
    of an injected script ([onload] of lines 124-135, [onerror] of
    114-116) and a 10 s timer (119-122).  The first [onload] (102-112) is
    overwritten before the script is appended and never runs.

    The state [bstate] holds what these closures share: [window.google],
    the promises created by [initializeGoogle] (a settled promise ignores
    later [resolve]/[reject]), the script elements with the timer and the
    promise their handlers close over, the timers, the calls made into
    [google.accounts.id], the service's [tokenCallback], the
    [googleSignInSuccess] events dispatched, the console and the ids of
    the DOM elements.  Method calls and browser events are [action]s run
    by [run_action]; [bstep] is the step relation and [rtc bstep] from
    [init_state] gives reachability. *)

From stdpp Require Import relations.
From S2P Require Import Prelude Js JsonValue Config.

(** ** State *)

(** [window.google.accounts.id]; [sdk_fault] is the exception its
    methods throw, if the loaded SDK is broken. *)
Record gsdk := GSdk { sdk_fault : option exn }.

Inductive theme := outline | filled_blue | filled_black.

(** The calls the service makes into [google.accounts.id]. *)
Inductive gsi_call :=
| GsiInitialize (client_id : jstr)      (* with callback, auto_select false, ux_mode popup *)
| GsiRenderButton (elementId : jstr) (t : theme)
| GsiDisableAutoSelect.

Inductive pstate := Pending | Resolved | Rejected (e : exn).

(** A script element created by [initializeGoogle]: the promise and the
    timer its handlers close over, whether it is still in [document.head],
    and whether its [load] or [error] event has fired. *)
Record script := Script {
  script_src : jstr;
  script_promise : nat;
  script_timer : nat;
  script_attached : bool;
  script_fired : bool
}.

(** A [setTimeout] timer: the script it removes and whether it is still
    scheduled. *)
Record timer := Timer { timer_script : nat; timer_active : bool }.

Record bstate := BState {
  window_google : option gsdk;
  promises : list pstate;
  scripts : list script;
  timers : list timer;
  sdk_calls : list gsi_call;
  token_callback : bool;
  dispatched : list json;
  log : console;
  dom_ids : list jstr
}.

Definition init_state (dom : list jstr) (g : option gsdk) : bstate :=
  BState g [] [] [] [] false [] [] dom.

(** ** Field updates *)

Definition set_promises st ps :=
  BState (window_google st) ps (scripts st) (timers st) (sdk_calls st)
    (token_callback st) (dispatched st) (log st) (dom_ids st).
Definition set_scripts st ss :=
  BState (window_google st) (promises st) ss (timers st) (sdk_calls st)
    (token_callback st) (dispatched st) (log st) (dom_ids st).
Definition set_timers st ts :=
  BState (window_google st) (promises st) (scripts st) ts (sdk_calls st)
    (token_callback st) (dispatched st) (log st) (dom_ids st).
Definition add_sdk_call st c :=
  BState (window_google st) (promises st) (scripts st) (timers st) (sdk_calls st ++ [c])
    (token_callback st) (dispatched st) (log st) (dom_ids st).
Definition set_token_callback st b :=
  BState (window_google st) (promises st) (scripts st) (timers st) (sdk_calls st)
    b (dispatched st) (log st) (dom_ids st).
Definition add_dispatched st v :=
  BState (window_google st) (promises st) (scripts st) (timers st) (sdk_calls st)
    (token_callback st) (dispatched st ++ [v]) (log st) (dom_ids st).
Definition add_log st c :=
  BState (window_google st) (promises st) (scripts st) (timers st) (sdk_calls st)
    (token_callback st) (dispatched st) (log st ++ [c]) (dom_ids st).
Definition set_google st g :=
  BState g (promises st) (scripts st) (timers st) (sdk_calls st)
    (token_callback st) (dispatched st) (log st) (dom_ids st).

(** ** Promises *)

Definition new_promise (st : bstate) : nat * bstate :=
  (length (promises st), set_promises st (promises st ++ [Pending])).

(** [resolve()] / [reject(e)]: only a pending promise changes. *)
Definition settle (p : nat) (o : pstate) (st : bstate) : bstate :=
  match promises st !! p with
  | Some Pending => set_promises st (<[p := o]> (promises st))
  | _ => st
  end.

Definition resolve p := settle p Resolved.
Definition reject p e := settle p (Rejected e).

(** [clearTimeout(id)] *)
Definition clearTimeout (tid : nat) (st : bstate) : bstate :=
  match timers st !! tid with
  | Some t => set_timers st (<[tid := Timer (timer_script t) false]> (timers st))
  | None => st
  end.

(** [script.remove()] *)
Definition remove_script (sid : nat) (st : bstate) : bstate :=
  match scripts st !! sid with
  | Some sc => set_scripts st (<[sid := Script (script_src sc) (script_promise sc)
                                         (script_timer sc) false (script_fired sc)]> (scripts st))
  | None => st
  end.

Definition mark_fired (sid : nat) (st : bstate) : bstate :=
  match scripts st !! sid with
  | Some sc => set_scripts st (<[sid := Script (script_src sc) (script_promise sc)
                                         (script_timer sc) (script_attached sc) true]> (scripts st))
  | None => st
  end.

(** ** The service's methods *)

Section Operations.
  Variable cfg : env.

Definition sdk_src : jstr := "https://accounts.google.com/gsi/client"%js.

(** [setupGoogleClient()]: registers the client id and the credential
    callback with the SDK. *)
Definition setupGoogleClient (st : bstate) : res exn bstate :=
  match window_google st with
  | None => Throw (new_Error "Google SDK não está disponível"%js)
  | Some g =>
      match sdk_fault g with
      | Some e => Throw e
      | None => Ok (add_sdk_call st (GsiInitialize (GOOGLE_CLIENT_ID cfg)))
      end
  end.

(** [try { this.setupGoogleClient(); resolve(); } catch (error) { reject(error); }] *)
Definition setup_and_resolve (p : nat) (st : bstate) : bstate :=
  match setupGoogleClient st with
  | Ok st' => resolve p st'
  | Throw e => reject p e st
  end.

(** [initializeGoogle()]: the promise's id and the state after the
    executor has run. *)
Definition initializeGoogle (st : bstate) : nat * bstate :=
  let '(p, st) := new_promise st in
  let envCheck := validateEnvironment cfg in
  if negb (valid envCheck) then (p, reject p (new_Error (default [] (env_error envCheck))) st)
  else match window_google st with
  | Some _ => (p, setup_and_resolve p st)
  | None =>
      let sid := length (scripts st) in
      let tid := length (timers st) in
      let st := set_timers st (timers st ++ [Timer sid true]) in
      (p, set_scripts st (scripts st ++ [Script sdk_src p tid true false]))
  end.

(** The [onload] handler the script keeps (the second assignment). *)
Definition script_onload (sc : script) (st : bstate) : bstate :=
  let st := clearTimeout (script_timer sc) st in
  match window_google st with
  | None => reject (script_promise sc) (new_Error "Google SDK não carregou corretamente"%js) st
  | Some _ => setup_and_resolve (script_promise sc) st
  end.

Definition script_onerror (sc : script) (st : bstate) : bstate :=
  reject (script_promise sc) (new_Error "Falha ao carregar Google SDK"%js) st.

(** The timer's callback: reject, then remove the script. *)
Definition timeout_callback (sid : nat) (sc : script) (st : bstate) : bstate :=
  remove_script sid (reject (script_promise sc) (new_Error "Timeout ao carregar Google SDK"%js) st).

Definition quoted (s : jstr) : jstr := [34] ++ s ++ [34].

(** [renderLoginButton(elementId, theme = 'filled_blue')] *)
Definition renderLoginButton (elementId : jstr) (t : option theme) (st : bstate) : bstate :=
  match window_google st with
  | None => add_log st (ConsoleError [ArgStr "Google SDK não está carregado"%js])
  | Some g =>
      if decide (elementId ∈ dom_ids st) then
        match sdk_fault g with
        | None => add_sdk_call st (GsiRenderButton elementId (default filled_blue t))
        | Some e => add_log st (ConsoleError [ArgStr "Erro ao renderizar botão Google:"%js; ArgExn e])
        end
      else add_log st (ConsoleError [ArgStr ("Elemento com ID "%js ++ quoted elementId ++ " não encontrado"%js)])
  end.

(** The button's [click_listener]. *)
Definition click_listener (st : bstate) : bstate :=
  add_log st (ConsoleLog [ArgStr "Botão Google clicado"%js]).

(** [handleCredentialResponse(response)]: the callback given to the SDK. *)
Definition handleCredentialResponse (response : json) (st : bstate) : bstate :=
  match get_prop response "credential"%js with
  | Some c => if truthy (Some c) then add_dispatched st (JObj [("credential"%js, c)]) else st
  | None => st
  end.

(** [logout()]: the try block, then the catch. *)
Definition logout_body (st : bstate) : res exn bstate :=
  st1 ← match window_google st with
        | Some g =>
            match sdk_fault g with
            | Some e => Throw e
            | None => Ok (add_log (add_sdk_call st GsiDisableAutoSelect)
                            (ConsoleLog [ArgStr "Logout realizado com sucesso"%js]))
            end
        | None => Ok st
        end;
  Ok (set_token_callback st1 false).

Definition logout (st : bstate) : bstate :=
  match logout_body st with
  | Ok st' => st'
  | Throw e => add_log st (ConsoleError [ArgStr "Erro ao fazer logout:"%js; ArgExn e])
  end.

Definition setTokenCallback (st : bstate) : bstate := set_token_callback st true.

(** [isGoogleLoaded()] in a browser, where [window] is defined. *)
Definition isGoogleLoaded (st : bstate) : bool := bool_decide (window_google st ≠ None).

(** [AuthService.getInstance()], lines 44-49: the static slot
    [AuthService.instance], filled by the first call with the object
    [new AuthService()] builds ([mk]), then returned as is.  The module
    calls it once (line 351) and every client uses that [authService],
    so one [bstate] models the one service. *)
Definition getInstance {A} (mk : A) (slot : option A) : option A * A :=
  match slot with
  | Some i => (slot, i)
  | None => (Some mk, mk)
  end.

(** ** Method calls and browser events *)

Inductive action :=
| CallInitializeGoogle
| CallRenderLoginButton (elementId : jstr) (t : option theme)
| CallLogout
| CallSetTokenCallback
(** the script ran ([window.google] is then [g] unless already set) and
    its [load] event fired *)
| ScriptLoad (sid : nat) (g : option gsdk)
| ScriptError (sid : nat)
| TimerFire (tid : nat)
(** the SDK calls the callback registered by [setupGoogleClient] *)
| SdkCredential (response : json)
(** the user clicks a rendered button *)
| ButtonClick.

Definition is_initialize (c : gsi_call) : bool :=
  match c with GsiInitialize _ => true | _ => false end.
Definition is_render (c : gsi_call) : bool :=
  match c with GsiRenderButton _ _ => true | _ => false end.

(** The state after an action, [None] when the event cannot happen. *)
Definition run_action (a : action) (st : bstate) : option bstate :=
  match a with
  | CallInitializeGoogle => Some (initializeGoogle st).2
  | CallRenderLoginButton el t => Some (renderLoginButton el t st)
  | CallLogout => Some (logout st)
  | CallSetTokenCallback => Some (setTokenCallback st)
  | ScriptLoad sid g =>
      match scripts st !! sid with
      | Some sc =>
          if script_fired sc then None
          else let st1 := mark_fired sid (set_google st (match window_google st with
                                                          | Some g0 => Some g0
                                                          | None => g
                                                          end)) in
               Some (script_onload sc st1)
      | None => None
      end
  | ScriptError sid =>
      match scripts st !! sid with
      | Some sc => if script_fired sc then None else Some (script_onerror sc (mark_fired sid st))
      | None => None
      end
  | TimerFire tid =>
      match timers st !! tid with
      | Some t =>
          if timer_active t then
            match scripts st !! timer_script t with
            | Some sc => Some (timeout_callback (timer_script t) sc (clearTimeout tid st))
            | None => None
            end
          else None
      | None => None
      end
  | SdkCredential r =>
      if existsb is_initialize (sdk_calls st) then Some (handleCredentialResponse r st) else None
  | ButtonClick =>
      if existsb is_render (sdk_calls st) then Some (click_listener st) else None
  end.

Inductive bstep (st : bstate) : bstate → Prop :=
| bstep_run a st' : run_action a st = Some st' → bstep st st'.

Definition reachable (dom : list jstr) (g : option gsdk) (st : bstate) : Prop :=
  rtc bstep (init_state dom g) st.

End Operations.

(** Every call of [getInstance] after the first returns the first
    call's object and leaves the slot unchanged. *)
Lemma getInstance_singleton {A} (mk mk' : A) slot :
  let '(slot1, i1) := getInstance mk slot in getInstance mk' slot1 = (slot1, i1).
Proof. by destruct slot. Qed.

(** ** Promises settle once *)

(** [st'] keeps every promise of [st], and every settled one with its
    outcome. *)
Definition pext (st st' : bstate) : Prop :=
  ∀ p o, promises st !! p = Some o → ∃ o', promises st' !! p = Some o' ∧ (o = Pending ∨ o' = o).

#[export] Instance pext_preorder : PreOrder pext.
Proof.
  split.
  - intros st p o H. eauto.
  - intros s1 s2 s3 H12 H23 p o H.
    destruct (H12 p o H) as (o2 & H2 & Ho2). destruct (H23 p o2 H2) as (o3 & H3 & Ho3).
    exists o3. split; [done|]. destruct Ho2 as [ | ->]; auto.
Qed.

(** A step that leaves [promises] alone. *)
Lemma pext_same st st' : promises st' = promises st → pext st st'.
Proof. intros Hp p o H. rewrite Hp. eauto. Qed.

Lemma pext_same_r st s1 s2 : pext st s1 → promises s2 = promises s1 → pext st s2.
Proof. intros H Hp. etransitivity; [exact H|]. by apply pext_same. Qed.

Lemma settle_pext p o st : pext st (settle p o st).
Proof.
  unfold settle. destruct (promises st !! p) as [[| |e]|] eqn:Ep; try (apply pext_same; done).
  intros q o' Hq. simpl. destruct (decide (q = p)) as [->|Hne].
  - rewrite list_lookup_insert_eq by (by eapply lookup_lt_Some). rewrite Ep in Hq.
    injection Hq as <-. eauto.
  - rewrite list_lookup_insert_ne by congruence. eauto.
Qed.

Lemma settle_lookup_pending p o st :
  promises st !! p = Some Pending → promises (settle p o st) !! p = Some o.
Proof.
  intros Hp. unfold settle. rewrite Hp. simpl.
  apply list_lookup_insert_eq. by eapply lookup_lt_Some.
Qed.

Lemma settle_lookup_ne p q o st : q ≠ p → promises (settle p o st) !! q = promises st !! q.
Proof.
  intros Hne. unfold settle. destruct (promises st !! p) as [[| |]|]; try done.
  simpl. apply list_lookup_insert_ne. congruence.
Qed.

Lemma settle_lookup_settled p o o' st :
  promises st !! p = Some o' → o' ≠ Pending → promises (settle p o st) !! p = Some o'.
Proof. intros Hp Hne. unfold settle. rewrite Hp. by destruct o'. Qed.

Lemma new_promise_pext st : pext st (new_promise st).2.
Proof.
  intros p o H. exists o. split; [|by right]. simpl.
  by apply lookup_app_l_Some.
Qed.


Ltac pext_chain :=
  repeat first
    [ reflexivity
    | apply settle_pext
    | apply pext_same; reflexivity
    | etransitivity; [|apply settle_pext]
    | etransitivity; [|apply pext_same; reflexivity] ].

Lemma clearTimeout_promises tid st : promises (clearTimeout tid st) = promises st.
Proof. unfold clearTimeout. by case_match. Qed.
Lemma remove_script_promises sid st : promises (remove_script sid st) = promises st.
Proof. unfold remove_script. by case_match. Qed.
Lemma mark_fired_promises sid st : promises (mark_fired sid st) = promises st.
Proof. unfold mark_fired. by case_match. Qed.

#[export] Hint Rewrite clearTimeout_promises remove_script_promises mark_fired_promises : helpdesk_rw.

Section Steps.
  Variable cfg : env.

Lemma setupGoogleClient_Ok st st' :
  setupGoogleClient cfg st = Ok st' →
  ∃ g, window_google st = Some g ∧ sdk_fault g = None ∧
       st' = add_sdk_call st (GsiInitialize (GOOGLE_CLIENT_ID cfg)).
Proof.
  unfold setupGoogleClient. destruct (window_google st) as [g|]; [|discriminate].
  destruct (sdk_fault g) eqn:Eg; [discriminate|]. intros [= <-]. eauto.
Qed.

Lemma setup_and_resolve_pext p st : pext st (setup_and_resolve cfg p st).
Proof.
  unfold setup_and_resolve. destruct (setupGoogleClient cfg st) as [st'|e] eqn:E;
    [|apply settle_pext].
  apply setupGoogleClient_Ok in E as (g & _ & _ & ->).
  transitivity (add_sdk_call st (GsiInitialize (GOOGLE_CLIENT_ID cfg)));
    [by apply pext_same|apply settle_pext].
Qed.

Lemma script_onload_pext sc st : pext st (script_onload cfg sc st).
Proof.
  unfold script_onload. transitivity (clearTimeout (script_timer sc) st);
    [apply pext_same, clearTimeout_promises|].
  case_match; [apply setup_and_resolve_pext|apply settle_pext].
Qed.

Lemma initializeGoogle_pext st : pext st (initializeGoogle cfg st).2.
Proof.
  unfold initializeGoogle. simpl.
  etransitivity; [apply (new_promise_pext st)|]. simpl.
  destruct (negb _); [apply settle_pext|].
  destruct (window_google _); [apply setup_and_resolve_pext|by apply pext_same].
Qed.

Lemma logout_promises st : promises (logout st) = promises st.
Proof.
  unfold logout, logout_body. repeat case_match; simplify_eq/=; done.
Qed.

Lemma renderLoginButton_promises el t st : promises (renderLoginButton el t st) = promises st.
Proof. unfold renderLoginButton. by repeat case_match. Qed.

Lemma handleCredentialResponse_promises r st : promises (handleCredentialResponse r st) = promises st.
Proof. unfold handleCredentialResponse. by repeat case_match. Qed.

Lemma run_action_pext a st st' : run_action cfg a st = Some st' → pext st st'.
Proof.
  destruct a as [| | | |sid g|sid|tid|r|]; simpl; intros H.
  - injection H as <-. apply initializeGoogle_pext.
  - injection H as <-. apply pext_same, renderLoginButton_promises.
  - injection H as <-. apply pext_same, logout_promises.
  - injection H as <-. by apply pext_same.
  - destruct (scripts st !! sid) as [sc|]; [|done].
    destruct (script_fired sc); [done|]. injection H as <-.
    etransitivity; [|apply script_onload_pext]. apply pext_same.
    by rewrite mark_fired_promises.
  - destruct (scripts st !! sid) as [sc|]; [|done].
    destruct (script_fired sc); [done|]. injection H as <-.
    etransitivity; [|apply settle_pext]. apply pext_same, mark_fired_promises.
  - destruct (timers st !! tid) as [t|]; [|done]. destruct (timer_active t); [|done].
    destruct (scripts st !! timer_script t) as [sc|]; [|done]. injection H as <-.
    unfold timeout_callback.
    eapply pext_same_r; [|apply remove_script_promises].
    transitivity (clearTimeout tid st); [apply pext_same, clearTimeout_promises|apply settle_pext].
  - destruct (existsb _ _); [|done]. injection H as <-.
    apply pext_same, handleCredentialResponse_promises.
  - destruct (existsb _ _); [|done]. injection H as <-. by apply pext_same.
Qed.

Lemma rtc_bstep_pext st st' : rtc (bstep cfg) st st' → pext st st'.
Proof.
  induction 1 as [|s1 s2 s3 [a s2' Ha] _ IH]; [reflexivity|].
  etransitivity; [|exact IH]. by eapply run_action_pext.
Qed.

End Steps.

(** ** Every pending initialization has an armed timeout *)

(** The parts of the state the handlers' closures tie together: each
    script's promise and timer, each timer's script, and whether each
    timer is still scheduled. *)
Definition skel (st : bstate) : list (nat * nat) :=
  (λ sc, (script_promise sc, script_timer sc)) <$> scripts st.
Definition tskel (st : bstate) : list nat := timer_script <$> timers st.
Definition armed (st : bstate) : list bool := timer_active <$> timers st.

Record boot_inv (st : bstate) : Prop := {
  inv_pending : ∀ p, promises st !! p = Some Pending → ∃ sid tid, skel st !! sid = Some (p, tid);
  inv_armed : ∀ sid p tid, skel st !! sid = Some (p, tid) →
                promises st !! p = Some Pending → armed st !! tid = Some true;
  inv_link : ∀ sid p tid, skel st !! sid = Some (p, tid) → tskel st !! tid = Some sid;
  inv_link' : ∀ tid sid, tskel st !! tid = Some sid → ∃ p, skel st !! sid = Some (p, tid);
  inv_bound : ∀ sid p tid, skel st !! sid = Some (p, tid) → (p < length (promises st))%nat
}.

Lemma settle_frame p o st :
  skel (settle p o st) = skel st ∧ tskel (settle p o st) = tskel st ∧ armed (settle p o st) = armed st.
Proof. unfold settle. destruct (promises st !! p) as [[]|]; done. Qed.

Lemma settle_pending p o st q :
  o ≠ Pending → promises (settle p o st) !! q = Some Pending →
  q ≠ p ∧ promises st !! q = Some Pending.
Proof.
  intros Ho Hq. destruct (decide (q = p)) as [->|Hne].
  - destruct (promises st !! p) as [o'|] eqn:Ep.
    + destruct o' as [| |e].
      * rewrite settle_lookup_pending in Hq by done. by simplify_eq.
      * by rewrite (settle_lookup_settled _ _ Resolved) in Hq.
      * by rewrite (settle_lookup_settled _ _ (Rejected e)) in Hq.
    + unfold settle in Hq. rewrite Ep in Hq. congruence.
  - by rewrite settle_lookup_ne in Hq.
Qed.

Lemma clearTimeout_frame tid st :
  skel (clearTimeout tid st) = skel st ∧ tskel (clearTimeout tid st) = tskel st ∧
  armed (clearTimeout tid st) = <[tid := false]> (armed st).
Proof.
  unfold clearTimeout, skel, tskel, armed.
  destruct (timers st !! tid) as [t|] eqn:Et; simpl.
  - rewrite !list_fmap_insert. simpl. split; [done|split; [|done]].
    apply list_insert_id. by rewrite list_lookup_fmap, Et.
  - split; [done|split; [done|]]. symmetry. apply list_insert_ge.
    rewrite length_fmap. by apply lookup_ge_None.
Qed.

Lemma mark_fired_frame sid st :
  skel (mark_fired sid st) = skel st ∧ tskel (mark_fired sid st) = tskel st ∧
  armed (mark_fired sid st) = armed st.
Proof.
  unfold mark_fired, skel. destruct (scripts st !! sid) as [sc|] eqn:Es; [|done]. simpl.
  rewrite list_fmap_insert. split; [|done]. apply list_insert_id.
  by rewrite list_lookup_fmap, Es.
Qed.

Lemma remove_script_frame sid st :
  skel (remove_script sid st) = skel st ∧ tskel (remove_script sid st) = tskel st ∧
  armed (remove_script sid st) = armed st.
Proof.
  unfold remove_script, skel. destruct (scripts st !! sid) as [sc|] eqn:Es; [|done]. simpl.
  rewrite list_fmap_insert. split; [|done]. apply list_insert_id.
  by rewrite list_lookup_fmap, Es.
Qed.

(** The invariant carries over a step that keeps the scripts and timers,
    creates no pending promise, and unschedules only timers whose
    script's promise is settled. *)
Lemma inv_transfer st st1 :
  boot_inv st → skel st1 = skel st → tskel st1 = tskel st →
  (length (promises st) ≤ length (promises st1))%nat →
  (∀ q, promises st1 !! q = Some Pending → promises st !! q = Some Pending) →
  (∀ tid, armed st1 !! tid ≠ armed st !! tid →
     ∀ sid p, skel st !! sid = Some (p, tid) → promises st1 !! p ≠ Some Pending) →
  boot_inv st1.
Proof.
  intros [Hp Ha Hl Hl' Hb] Hs Ht Hlen Hq Hc. split; rewrite ?Hs, ?Ht; [| |done|done|].
  3: { intros sid p tid Hsid. eapply Nat.lt_le_trans; [|exact Hlen]. by eapply Hb. }
  - intros p Hp1. by apply Hp, Hq.
  - intros sid p tid Hsid Hp1.
    destruct (decide (armed st1 !! tid = armed st !! tid)) as [->|Hne].
    + by eapply Ha, Hq.
    + by exfalso; eapply Hc.
Qed.

(** [st1] keeps the scripts and timers of [st] and has settled [p]
    without creating a pending promise. *)
Definition settles (p : nat) (st st1 : bstate) : Prop :=
  skel st1 = skel st ∧ tskel st1 = tskel st ∧ armed st1 = armed st ∧
  (length (promises st) ≤ length (promises st1))%nat ∧
  ∀ q, promises st1 !! q = Some Pending → q ≠ p ∧ promises st !! q = Some Pending.

Lemma settle_length p o st : length (promises (settle p o st)) = length (promises st).
Proof. unfold settle. destruct (promises st !! p) as [[]|]; simpl; by rewrite ?length_insert. Qed.

Lemma settle_settles p o st : o ≠ Pending → settles p st (settle p o st).
Proof.
  intros Ho. destruct (settle_frame p o st) as (? & ? & ?).
  split; [done|]. split; [done|]. split; [done|]. split; [by rewrite settle_length|].
  intros q. by apply settle_pending.
Qed.

(** A step that does not touch the closures' state. *)
Lemma settles_frame p st st1 st2 :
  settles p st st1 → skel st2 = skel st1 → tskel st2 = tskel st1 → armed st2 = armed st1 →
  promises st2 = promises st1 → settles p st st2.
Proof.
  intros (Hs & Ht & Ha & Hl & Hq) Hs2 Ht2 Ha2 Hp2.
  split; [congruence|]. split; [congruence|]. split; [congruence|].
  rewrite Hp2. by split.
Qed.

Lemma settles_pre p st st0 st1 :
  skel st0 = skel st → tskel st0 = tskel st → armed st0 = armed st →
  (length (promises st) ≤ length (promises st0))%nat →
  (∀ q, q ≠ p → promises st0 !! q = Some Pending → promises st !! q = Some Pending) →
  settles p st0 st1 → settles p st st1.
Proof.
  intros Hs Ht Ha Hl Hq (Hs1 & Ht1 & Ha1 & Hl1 & Hq1).
  split; [congruence|]. split; [congruence|]. split; [congruence|]. split; [lia|]. intros q Hq'.
  destruct (Hq1 q Hq') as [Hne Hq0]. split; [done|]. by apply Hq.
Qed.

Lemma setup_and_resolve_settles cfg p st : settles p st (setup_and_resolve cfg p st).
Proof.
  unfold setup_and_resolve. destruct (setupGoogleClient cfg st) as [st'|e] eqn:E.
  - apply setupGoogleClient_Ok in E as (g & _ & _ & ->).
    apply (settles_pre _ _ (add_sdk_call st (GsiInitialize (GOOGLE_CLIENT_ID cfg))));
      [done..| |by apply settle_settles]. done.
  - by apply settle_settles.
Qed.

Lemma new_promise_pending st q :
  q ≠ length (promises st) → promises (new_promise st).2 !! q = Some Pending →
  promises st !! q = Some Pending.
Proof.
  intros Hne Hq. simpl in Hq. apply lookup_app_Some in Hq as [Hq|(Hge & Hq)]; [done|].
  apply list_lookup_singleton_Some in Hq as [Hq _]. lia.
Qed.


(** Unscheduling the timer of the script whose promise is settled. *)
Lemma clear_own_timer st st1 sid sc :
  boot_inv st → scripts st !! sid = Some sc →
  armed st1 = <[script_timer sc := false]> (armed st) →
  promises st1 !! script_promise sc ≠ Some Pending →
  ∀ tid, armed st1 !! tid ≠ armed st !! tid →
    ∀ sid' p, skel st !! sid' = Some (p, tid) → promises st1 !! p ≠ Some Pending.
Proof.
  intros Hinv Hsc Ha Hp tid Hne sid' p Hsid'.
  destruct (decide (tid = script_timer sc)) as [->|Htid].
  - assert (Hsk : skel st !! sid = Some (script_promise sc, script_timer sc))
      by (unfold skel; by rewrite list_lookup_fmap, Hsc).
    pose proof (inv_link _ Hinv _ _ _ Hsk) as H1. pose proof (inv_link _ Hinv _ _ _ Hsid') as H2.
    rewrite H1 in H2. injection H2 as ->. rewrite Hsk in Hsid'. by injection Hsid' as <-.
  - exfalso. apply Hne. rewrite Ha. by apply list_lookup_insert_ne.
Qed.

Lemma settles_inv p st st1 : boot_inv st → settles p st st1 → boot_inv st1.
Proof.
  intros Hinv (Hs & Ht & Ha & Hl & Hq). apply (inv_transfer st); try done.
  - intros q Hq1. by apply Hq.
  - intros tid Hne. by rewrite Ha in Hne.
Qed.

(** The four parts of the state the invariant reads. *)
Definition core (st : bstate) := (skel st, tskel st, armed st, promises st).

Lemma core_inv st st1 : boot_inv st → core st1 = core st → boot_inv st1.
Proof.
  intros Hinv Hc. injection Hc as Hs Ht Ha Hp. apply (inv_transfer st); try done.
  - by rewrite Hp.
  - intros q. by rewrite Hp.
  - intros tid Hne. by rewrite Ha in Hne.
Qed.

Section StepInv.
  Variable cfg : env.

Lemma renderLoginButton_core el t st : core (renderLoginButton el t st) = core st.
Proof. unfold renderLoginButton. by repeat case_match. Qed.

Lemma logout_core st : core (logout st) = core st.
Proof. unfold logout, logout_body. by repeat case_match; simplify_eq/=. Qed.

Lemma handleCredentialResponse_core r st : core (handleCredentialResponse r st) = core st.
Proof. unfold handleCredentialResponse. by repeat case_match. Qed.

(** A fresh script and timer for a fresh pending promise. *)
Lemma inject_script_inv st :
  boot_inv st →
  let p := length (promises st) in
  let st0 := set_promises st (promises st ++ [Pending]) in
  boot_inv (set_scripts (set_timers st0 (timers st0 ++ [Timer (length (scripts st0)) true]))
              (scripts st0 ++ [Script sdk_src p (length (timers st0)) true false])).
Proof.
  intros [Hp Ha Hl Hl' Hb] p st0. subst p st0.
  unfold skel, tskel, armed in *.
  assert (Hls : length ((λ sc, (script_promise sc, script_timer sc)) <$> scripts st) = length (scripts st))
    by apply length_fmap.
  assert (Hlt : length (timer_script <$> timers st) = length (timers st)) by apply length_fmap.
  assert (Hla : length (timer_active <$> timers st) = length (timers st)) by apply length_fmap.
  split; unfold skel, tskel, armed; simpl; rewrite ?fmap_app.
  - intros q Hq. apply lookup_app_Some in Hq as [Hq|(Hge & Hq)].
    + destruct (Hp q Hq) as (sid & tid & H). exists sid, tid. by apply lookup_app_l_Some.
    + apply list_lookup_singleton_Some in Hq as [Hq _].
      exists (length (scripts st)), (length (timers st)).
      rewrite lookup_app_r by lia. rewrite Hls, Nat.sub_diag. simpl. f_equal. f_equal. lia.
  - intros sid q tid Hsid Hq. apply lookup_app_Some in Hsid as [Hsid|(Hge & Hsid)].
    + apply lookup_app_l_Some, (Ha sid q tid Hsid). pose proof (Hb _ _ _ Hsid).
      by rewrite lookup_app_l in Hq by lia.
    + apply list_lookup_singleton_Some in Hsid as [_ Hsid]. simplify_eq/=.
      rewrite lookup_app_r by lia. by rewrite Hla, Nat.sub_diag.
  - intros sid q tid Hsid. apply lookup_app_Some in Hsid as [Hsid|(Hge & Hsid)].
    + by apply lookup_app_l_Some, (Hl sid q tid).
    + apply list_lookup_singleton_Some in Hsid as [Hsid0 Hsid]. simplify_eq/=.
      rewrite lookup_app_r by lia. rewrite Hlt, Nat.sub_diag. simpl. f_equal. lia.
  - intros tid sid Htid. apply lookup_app_Some in Htid as [Htid|(Hge & Htid)].
    + destruct (Hl' tid sid Htid) as [q H]. exists q. by apply lookup_app_l_Some.
    + apply list_lookup_singleton_Some in Htid as [Htid0 Htid]. simplify_eq/=.
      exists (length (promises st)). rewrite lookup_app_r by lia. rewrite Hls, Nat.sub_diag. simpl. f_equal. f_equal. lia.
  - intros sid q tid Hsid. rewrite length_app. simpl.
    apply lookup_app_Some in Hsid as [Hsid|(Hge & Hsid)].
    + pose proof (Hb _ _ _ Hsid). lia.
    + apply list_lookup_singleton_Some in Hsid as [_ Hsid]. simplify_eq/=. lia.
Qed.

(** A handler of script [sid]: unschedule its timer, settle its promise. *)
Lemma clear_settle_inv st sid sc st1 st2 :
  boot_inv st → scripts st !! sid = Some sc → core st1 = core st →
  settles (script_promise sc) (clearTimeout (script_timer sc) st1) st2 → boot_inv st2.
Proof.
  intros Hinv Hsc Hc (Hs & Ht & Ha & Hl & Hq). injection Hc as Hs1 Ht1 Ha1 Hp1.
  destruct (clearTimeout_frame (script_timer sc) st1) as (Hs2 & Ht2 & Ha2).
  rewrite clearTimeout_promises in Hl, Hq.
  apply (inv_transfer st); [done|congruence|congruence|congruence| |].
  - intros q Hq2. rewrite <- Hp1. by apply Hq.
  - eapply clear_own_timer; [done|done| |].
    + by rewrite Ha, Ha2, Ha1.
    + intros Hp. by destruct (Hq _ Hp).
Qed.

Lemma script_onload_settles sc st :
  settles (script_promise sc) (clearTimeout (script_timer sc) st) (script_onload cfg sc st).
Proof.
  unfold script_onload. destruct (window_google (clearTimeout _ st)).
  - apply setup_and_resolve_settles.
  - by apply settle_settles.
Qed.

Lemma mark_fired_core sid st g : core (mark_fired sid (set_google st g)) = core st.
Proof.
  unfold core. destruct (mark_fired_frame sid (set_google st g)) as (-> & -> & ->).
  by rewrite mark_fired_promises.
Qed.

Lemma run_action_inv a st st' : boot_inv st → run_action cfg a st = Some st' → boot_inv st'.
Proof.
  intros Hinv. destruct a as [| | | |sid g|sid|tid|r|]; simpl; intros H.
  - injection H as <-. unfold initializeGoogle. simpl.
    destruct (negb _).
    + apply (settles_inv (length (promises st)) st); [done|].
      apply (settles_pre _ _ (new_promise st).2);
        [done..|simpl; rewrite length_app; lia|intros q; apply new_promise_pending|by apply settle_settles].
    + destruct (window_google st).
      * apply (settles_inv (length (promises st)) st); [done|].
        apply (settles_pre _ _ (new_promise st).2);
          [done..|simpl; rewrite length_app; lia|intros q; apply new_promise_pending|apply setup_and_resolve_settles].
      * by apply inject_script_inv.
  - injection H as <-. by eapply core_inv, renderLoginButton_core.
  - injection H as <-. by eapply core_inv, logout_core.
  - injection H as <-. by eapply core_inv.
  - destruct (scripts st !! sid) as [sc|] eqn:Hsc; [|done].
    destruct (script_fired sc); [done|]. injection H as <-.
    eapply clear_settle_inv; [done|done|apply mark_fired_core|apply script_onload_settles].
  - destruct (scripts st !! sid) as [sc|] eqn:Hsc; [|done].
    destruct (script_fired sc); [done|]. injection H as <-.
    apply (settles_inv (script_promise sc) st); [done|].
    eapply settles_pre; [..|by apply settle_settles].
    all: destruct (mark_fired_frame sid st) as (? & ? & ?); rewrite ?mark_fired_promises; done.
  - destruct (timers st !! tid) as [t|] eqn:Ht; [|done]. destruct (timer_active t); [|done].
    destruct (scripts st !! timer_script t) as [sc|] eqn:Hsc; [|done]. injection H as <-.
    assert (Htid : script_timer sc = tid).
    { destruct (inv_link' _ Hinv tid (timer_script t)) as [q Hq].
      - unfold tskel. by rewrite list_lookup_fmap, Ht.
      - unfold skel in Hq. rewrite list_lookup_fmap, Hsc in Hq. by injection Hq. }
    subst tid. unfold timeout_callback.
    eapply (clear_settle_inv st (timer_script t) sc st); [done..|].
    destruct (remove_script_frame (timer_script t) (reject (script_promise sc)
                (new_Error "Timeout ao carregar Google SDK"%js) (clearTimeout (script_timer sc) st)))
      as (? & ? & ?).
    eapply settles_frame; cycle 1; [done|done|done|apply remove_script_promises|].
    by apply settle_settles.
  - destruct (existsb _ _); [|done]. injection H as <-.
    by eapply core_inv, handleCredentialResponse_core.
  - destruct (existsb _ _); [|done]. injection H as <-. by eapply core_inv.
Qed.

Lemma init_state_inv dom g : boot_inv (init_state dom g).
Proof. split; intros *; rewrite ?lookup_nil; done. Qed.

Lemma reachable_inv dom g st : reachable cfg dom g st → boot_inv st.
Proof.
  unfold reachable. intros Hr. remember (init_state dom g) as st0 eqn:E.
  assert (H0 : boot_inv st0) by (subst; apply init_state_inv). clear E.
  induction Hr as [|s1 s2 s3 [a s2' Ha] _ IH]; [done|].
  apply IH. by eapply run_action_inv.
Qed.

End StepInv.

(** ** Theorems *)

Definition timeout_error : exn := new_Error "Timeout ao carregar Google SDK"%js.

Lemma settle_scripts p o st : scripts (settle p o st) = scripts st ∧ timers (settle p o st) = timers st.
Proof. unfold settle. by destruct (promises st !! p) as [[]|]. Qed.

Lemma settle_sdk_calls p o st : sdk_calls (settle p o st) = sdk_calls st.
Proof. unfold settle. by destruct (promises st !! p) as [[]|]. Qed.

Lemma settle_google p o st : window_google (settle p o st) = window_google st.
Proof. unfold settle. by destruct (promises st !! p) as [[]|]. Qed.

Section BootTheorems.
  Variable cfg : env.

Lemma setup_and_resolve_scripts p st :
  scripts (setup_and_resolve cfg p st) = scripts st ∧ timers (setup_and_resolve cfg p st) = timers st.
Proof.
  unfold setup_and_resolve. destruct (setupGoogleClient cfg st) eqn:E.
  - apply setupGoogleClient_Ok in E as (g & _ & _ & ->). exact (settle_scripts _ _ (add_sdk_call _ _)).
  - apply settle_scripts.
Qed.

Lemma initializeGoogle_google st : window_google (initializeGoogle cfg st).2 = window_google st.
Proof.
  unfold initializeGoogle, setup_and_resolve, reject, resolve. cbn -[settle].
  destruct (negb _); cbn -[settle]; [by rewrite settle_google|].
  destruct (window_google st) eqn:Eg; cbn -[settle]; [|done].
  destruct (setupGoogleClient cfg _) eqn:E; cbn -[settle]; [|by rewrite settle_google].
  apply setupGoogleClient_Ok in E as (? & _ & _ & ->). by rewrite settle_google.
Qed.

(** A promise returned by [initializeGoogle] is settled at most
    once: along any sequence of method calls and browser events, a
    resolved or rejected promise keeps its outcome (a late [load], an
    [error] after a timeout, a second timeout change nothing). *)
Theorem settled_promise_stable st st' p o :
  rtc (bstep cfg) st st' → promises st !! p = Some o → o ≠ Pending → promises st' !! p = Some o.
Proof.
  intros Hr Hp Ho. destruct (rtc_bstep_pext cfg st st' Hr p o Hp) as (o' & Hp' & [-> | ->]); done.
Qed.

(** C7. No initialization stays pending: in every reachable state a
    pending promise has a scheduled timer whose firing rejects it with
    ['Timeout ao carregar Google SDK']. *)
Theorem pending_initialization_times_out dom g st p :
  reachable cfg dom g st → promises st !! p = Some Pending →
  ∃ tid st', run_action cfg (TimerFire tid) st = Some st' ∧
             promises st' !! p = Some (Rejected timeout_error).
Proof.
  intros Hr Hp. pose proof (reachable_inv cfg dom g st Hr) as Hinv.
  destruct (inv_pending _ Hinv p Hp) as (sid & tid & Hsk).
  pose proof (inv_armed _ Hinv _ _ _ Hsk Hp) as Ha. pose proof (inv_link _ Hinv _ _ _ Hsk) as Hl.
  unfold skel, tskel, armed in *. rewrite list_lookup_fmap in Hsk. rewrite list_lookup_fmap in Ha. rewrite list_lookup_fmap in Hl.
  destruct (scripts st !! sid) as [sc|] eqn:Hsc; [|done]. injection Hsk as <- <-.
  destruct (timers st !! script_timer sc) as [t|] eqn:Ht; [|done].
  injection Ha as Ha. injection Hl as Hl.
  eexists (script_timer sc), _. simpl. rewrite Ht, Ha, Hl, Hsc. split; [reflexivity|].
  unfold timeout_callback. rewrite remove_script_promises.
  apply settle_lookup_pending. by rewrite clearTimeout_promises.
Qed.

Lemma clearTimeout_fields tid st :
  window_google (clearTimeout tid st) = window_google st ∧
  sdk_calls (clearTimeout tid st) = sdk_calls st ∧ scripts (clearTimeout tid st) = scripts st.
Proof. unfold clearTimeout. by case_match. Qed.

Lemma clearTimeout_disables tid st t :
  timers (clearTimeout tid st) !! tid = Some t → timer_active t = false.
Proof.
  unfold clearTimeout. destruct (timers st !! tid) as [t0|] eqn:E; simpl.
  - rewrite list_lookup_insert_eq by (by eapply lookup_lt_Some). by intros [= <-].
  - by rewrite E.
Qed.

Lemma mark_fired_fields sid st :
  window_google (mark_fired sid st) = window_google st ∧ sdk_calls (mark_fired sid st) = sdk_calls st ∧
  promises (mark_fired sid st) = promises st.
Proof. unfold mark_fired. by case_match. Qed.

(** The [load] of a script while [window.google] is unset, the script
    installing a working SDK. *)
Lemma script_load_run st sid sc g :
  scripts st !! sid = Some sc → script_fired sc = false → window_google st = None →
  sdk_fault g = None →
  run_action cfg (ScriptLoad sid (Some g)) st =
    Some (resolve (script_promise sc)
            (add_sdk_call (clearTimeout (script_timer sc) (mark_fired sid (set_google st (Some g))))
               (GsiInitialize (GOOGLE_CLIENT_ID cfg)))).
Proof.
  intros Hsc Hf Hw Hg. simpl. rewrite Hsc, Hf, Hw. do 2 f_equal.
  unfold script_onload, setup_and_resolve, setupGoogleClient.
  destruct (clearTimeout_fields (script_timer sc) (mark_fired sid (set_google st (Some g))))
    as (-> & _ & _).
  destruct (mark_fired_fields sid (set_google st (Some g))) as (-> & _ & _). simpl.
  by rewrite Hg.
Qed.

Lemma script_load_calls st sid sc g :
  sdk_calls (resolve (script_promise sc)
               (add_sdk_call (clearTimeout (script_timer sc) (mark_fired sid (set_google st g)))
                  (GsiInitialize (GOOGLE_CLIENT_ID cfg)))) =
  sdk_calls st ++ [GsiInitialize (GOOGLE_CLIENT_ID cfg)].
Proof.
  unfold resolve. rewrite settle_sdk_calls. simpl.
  destruct (clearTimeout_fields (script_timer sc) (mark_fired sid (set_google st g))) as (_ & -> & _).
  by destruct (mark_fired_fields sid (set_google st g)) as (_ & -> & _).
Qed.

Lemma script_load_promises st sid sc g :
  promises (add_sdk_call (clearTimeout (script_timer sc) (mark_fired sid (set_google st g)))
              (GsiInitialize (GOOGLE_CLIENT_ID cfg))) = promises st.
Proof. simpl. by rewrite clearTimeout_promises, mark_fired_promises. Qed.

(** C8. The timeout does not cancel the load: a script whose promise
    was already rejected (by the timeout, which removes the script but
    cannot stop it) still runs [setupGoogleClient] when its [load] event
    comes, registering the client with the SDK, while the promise stays
    rejected. *)
Theorem late_load_after_timeout_initializes st sid sc e g :
  scripts st !! sid = Some sc → script_fired sc = false →
  promises st !! script_promise sc = Some (Rejected e) →
  window_google st = None → sdk_fault g = None →
  ∃ st', run_action cfg (ScriptLoad sid (Some g)) st = Some st' ∧
         sdk_calls st' = sdk_calls st ++ [GsiInitialize (GOOGLE_CLIENT_ID cfg)] ∧
         promises st' !! script_promise sc = Some (Rejected e).
Proof.
  intros Hsc Hf Hp Hw Hg. rewrite (script_load_run st sid sc g) by done.
  eexists. split; [reflexivity|]. split; [apply script_load_calls|].
  unfold resolve. apply settle_lookup_settled; [|done]. by rewrite script_load_promises.
Qed.

(** C13. A [load] in time resolves the promise, registers the client
    once and unschedules the timeout, which can then no longer fire. *)
Theorem script_load_resolves st sid sc g :
  scripts st !! sid = Some sc → script_fired sc = false →
  promises st !! script_promise sc = Some Pending →
  window_google st = None → sdk_fault g = None →
  ∃ st', run_action cfg (ScriptLoad sid (Some g)) st = Some st' ∧
         promises st' !! script_promise sc = Some Resolved ∧
         sdk_calls st' = sdk_calls st ++ [GsiInitialize (GOOGLE_CLIENT_ID cfg)] ∧
         run_action cfg (TimerFire (script_timer sc)) st' = None.
Proof.
  intros Hsc Hf Hp Hw Hg. rewrite (script_load_run st sid sc g) by done.
  eexists. split; [reflexivity|]. split; [|split; [apply script_load_calls|]].
  - unfold resolve. apply settle_lookup_pending. by rewrite script_load_promises.
  - simpl. unfold resolve. rewrite (proj2 (settle_scripts _ _ _)). simpl.
    destruct (timers (clearTimeout _ _) !! script_timer sc) as [t|] eqn:Et; [|done].
    by rewrite (clearTimeout_disables _ _ _ Et).
Qed.

Definition load_error : exn := new_Error "Falha ao carregar Google SDK"%js.

Lemma mark_fired_lookup sid st sc :
  scripts st !! sid = Some sc →
  scripts (mark_fired sid st) !! sid =
    Some (Script (script_src sc) (script_promise sc) (script_timer sc) (script_attached sc) true) ∧
  timers (mark_fired sid st) = timers st.
Proof.
  intros Hsc. unfold mark_fired. rewrite Hsc. simpl.
  split; [|done]. rewrite list_lookup_insert_eq; [done|]. by eapply lookup_lt_Some.
Qed.

Lemma remove_script_detaches sid st sc :
  scripts st !! sid = Some sc → script_attached <$> scripts (remove_script sid st) !! sid = Some false.
Proof.
  intros Hsc. unfold remove_script. rewrite Hsc. simpl.
  rewrite list_lookup_insert_eq; [done|]. by eapply lookup_lt_Some.
Qed.

(** C9. An [error] event does not clear the timeout: the promise is
    rejected with ['Falha ao carregar Google SDK'] and the script's timer
    stays scheduled; ten seconds later it fires, its [reject] leaves the
    load error in place, and its [script.remove()] takes the failed
    script out of the document. *)
Theorem script_error_keeps_timer st sid sc :
  scripts st !! sid = Some sc → script_fired sc = false →
  promises st !! script_promise sc = Some Pending →
  timers st !! script_timer sc = Some (Timer sid true) →
  ∃ st1 st2, run_action cfg (ScriptError sid) st = Some st1 ∧
    promises st1 !! script_promise sc = Some (Rejected load_error) ∧
    timers st1 !! script_timer sc = Some (Timer sid true) ∧
    run_action cfg (TimerFire (script_timer sc)) st1 = Some st2 ∧
    promises st2 !! script_promise sc = Some (Rejected load_error) ∧
    script_attached <$> scripts st2 !! sid = Some false.
Proof.
  intros Hsc Hf Hp Ht. destruct (mark_fired_lookup sid st sc Hsc) as [Hsc1 Ht1].
  assert (Hp1 : promises (script_onerror sc (mark_fired sid st)) !! script_promise sc = Some (Rejected load_error)).
  { apply settle_lookup_pending. by rewrite mark_fired_promises. }
  destruct (settle_scripts (script_promise sc) (Rejected load_error) (mark_fired sid st)) as [Es Et].
  change (settle _ _ (mark_fired sid st)) with (script_onerror sc (mark_fired sid st)) in Es, Et.
  do 2 eexists. split; [simpl; by rewrite Hsc, Hf|]. split; [exact Hp1|].
  split; [by rewrite Et, Ht1|].
  split; [simpl; rewrite Et, Ht1, Ht; simpl; by rewrite Es, Hsc1|].
  split.
  - unfold timeout_callback. rewrite remove_script_promises. apply settle_lookup_settled; [|done].
    by rewrite clearTimeout_promises.
  - unfold timeout_callback. eapply remove_script_detaches.
    unfold reject. rewrite (proj1 (settle_scripts _ _ _)). destruct (clearTimeout_fields (script_timer sc) (script_onerror sc (mark_fired sid st))) as (_ & _ & ->).
    rewrite Es. exact Hsc1.
Qed.

Lemma initializeGoogle_loaded st g :
  window_google st = Some g →
  scripts (initializeGoogle cfg st).2 = scripts st ∧ timers (initializeGoogle cfg st).2 = timers st.
Proof.
  intros Hw. unfold initializeGoogle. cbn -[settle setup_and_resolve].
  destruct (negb _); [exact (settle_scripts _ _ (set_promises _ _))|]. rewrite Hw.
  exact (setup_and_resolve_scripts _ (set_promises _ _)).
Qed.

Lemma initializeGoogle_inject st :
  window_google st = None → valid (validateEnvironment cfg) = true →
  (initializeGoogle cfg st).1 = length (promises st) ∧
  promises (initializeGoogle cfg st).2 = promises st ++ [Pending] ∧
  scripts (initializeGoogle cfg st).2 =
    scripts st ++ [Script sdk_src (length (promises st)) (length (timers st)) true false] ∧
  timers (initializeGoogle cfg st).2 = timers st ++ [Timer (length (scripts st)) true].
Proof. intros Hw Hv. unfold initializeGoogle. simpl. by rewrite Hv, Hw. Qed.

(** Idempotence when the SDK is present: two [initializeGoogle]
    calls with [window.google] set inject no script and start no timer. *)
Theorem initialize_twice_loaded_no_script st g :
  window_google st = Some g →
  let st2 := (initializeGoogle cfg (initializeGoogle cfg st).2).2 in
  scripts st2 = scripts st ∧ timers st2 = timers st.
Proof.
  intros Hw st2. subst st2.
  destruct (initializeGoogle_loaded st g Hw) as [Hs Ht].
  destruct (initializeGoogle_loaded (initializeGoogle cfg st).2 g) as [Hs2 Ht2];
    [by rewrite initializeGoogle_google|].
  by rewrite Hs2, Ht2, Hs, Ht.
Qed.

(** C11. Calls are not deduplicated: two [initializeGoogle] calls before
    the SDK has loaded inject two scripts, each with its own timer and
    pending promise. *)
Theorem initialize_twice_injects_two_scripts st :
  window_google st = None → valid (validateEnvironment cfg) = true →
  let st1 := (initializeGoogle cfg st).2 in
  let st2 := (initializeGoogle cfg st1).2 in
  length (scripts st2) = (length (scripts st) + 2)%nat ∧
  length (timers st2) = (length (timers st) + 2)%nat ∧
  promises st2 = promises st ++ [Pending; Pending].
Proof.
  intros Hw Hv st1 st2. subst st1 st2.
  destruct (initializeGoogle_inject st Hw Hv) as (_ & Hp1 & Hs1 & Ht1).
  destruct (initializeGoogle_inject (initializeGoogle cfg st).2) as (_ & Hp2 & Hs2 & Ht2);
    [by rewrite initializeGoogle_google|done|].
  rewrite Hp2, Hs2, Ht2, Hp1, Hs1, Ht1, !length_app. simpl.
  split; [lia|]. split; [lia|]. by rewrite <- app_assoc.
Qed.

(** A missing client id rejects the new promise with
    ['VITE_GOOGLE_CLIENT_ID não configurado em .env'] before anything is
    loaded: no script, no timer, no call into the SDK. *)
Theorem initialize_config_error st :
  valid (validateEnvironment cfg) = false →
  let '(p, st') := initializeGoogle cfg st in
  promises st' !! p =
    Some (Rejected (new_Error "VITE_GOOGLE_CLIENT_ID não configurado em .env"%js)) ∧
  scripts st' = scripts st ∧ timers st' = timers st ∧ sdk_calls st' = sdk_calls st.
Proof.
  intros Hv. destruct (validateEnvironment_invalid cfg Hv) as [_ He].
  unfold initializeGoogle. cbn -[settle]. rewrite He. cbn -[settle]. unfold reject.
  destruct (settle_scripts (length (promises st)) (Rejected (new_Error
    "VITE_GOOGLE_CLIENT_ID não configurado em .env"%js)) (set_promises st (promises st ++ [Pending]))) as [Hs Ht].
  split; [|split; [by rewrite Hs|split; [by rewrite Ht|by rewrite settle_sdk_calls]]].
  apply settle_lookup_pending. simpl. rewrite lookup_app_r by lia.
  by rewrite Nat.sub_diag.
Qed.

(** C14. [logout] clears the token callback only when its try block
    completes: when [disableAutoSelect] throws, the catch logs the error
    and the callback stays registered. *)
Theorem logout_token_callback st :
  token_callback (logout st) =
    match window_google st with
    | Some g => match sdk_fault g with Some _ => token_callback st | None => false end
    | None => false
    end.
Proof. unfold logout, logout_body. by repeat case_match; simplify_eq/=. Qed.

(** A missing mount point is reported on the console and nothing
    is rendered. *)
Theorem renderLoginButton_missing_element st g el t :
  window_google st = Some g → el ∉ dom_ids st →
  renderLoginButton el t st =
    add_log st (ConsoleError [ArgStr ("Elemento com ID "%js ++ quoted el ++ " não encontrado"%js)]).
Proof. intros Hw Hel. unfold renderLoginButton. rewrite Hw. by rewrite decide_False. Qed.

End BootTheorems.

(** ** Relayed credentials *)

Lemma settle_dispatched p o st : dispatched (settle p o st) = dispatched st.
Proof. unfold settle. by destruct (promises st !! p) as [[]|]. Qed.
Lemma clearTimeout_dispatched tid st : dispatched (clearTimeout tid st) = dispatched st.
Proof. unfold clearTimeout. by case_match. Qed.
Lemma mark_fired_dispatched sid st : dispatched (mark_fired sid st) = dispatched st.
Proof. unfold mark_fired. by case_match. Qed.
Lemma remove_script_dispatched sid st : dispatched (remove_script sid st) = dispatched st.
Proof. unfold remove_script. by case_match. Qed.
Lemma clearTimeout_calls tid st : sdk_calls (clearTimeout tid st) = sdk_calls st.
Proof. unfold clearTimeout. by case_match. Qed.
Lemma mark_fired_calls sid st : sdk_calls (mark_fired sid st) = sdk_calls st.
Proof. unfold mark_fired. by case_match. Qed.
Lemma remove_script_calls sid st : sdk_calls (remove_script sid st) = sdk_calls st.
Proof. unfold remove_script. by case_match. Qed.

Create Rewrite HintDb boot_rw.
#[export] Hint Rewrite settle_dispatched clearTimeout_dispatched mark_fired_dispatched
  remove_script_dispatched settle_sdk_calls clearTimeout_calls mark_fired_calls
  remove_script_calls : boot_rw.

Ltac boot_simpl :=
  unfold resolve, reject in *; autorewrite with boot_rw in *;
  cbn [fst snd sdk_calls dispatched set_promises set_scripts set_timers set_google add_sdk_call
       add_log set_token_callback add_dispatched] in *.
Ltac relay_done :=
  split; [first [reflexivity | by apply prefix_app_r | done] | left; first [reflexivity | done]].

Section Relay.
  Variable cfg : env.

Lemma setup_and_resolve_relay p st :
  sdk_calls st `prefix_of` sdk_calls (setup_and_resolve cfg p st) ∧
  dispatched (setup_and_resolve cfg p st) = dispatched st.
Proof.
  unfold setup_and_resolve. destruct (setupGoogleClient cfg st) eqn:E; boot_simpl; [|done].
  apply setupGoogleClient_Ok in E as (? & _ & _ & ->). boot_simpl.
  split; [by apply prefix_app_r|done].
Qed.

Lemma initializeGoogle_relay st :
  sdk_calls st `prefix_of` sdk_calls (initializeGoogle cfg st).2 ∧
  dispatched (initializeGoogle cfg st).2 = dispatched st.
Proof.
  unfold initializeGoogle. simpl. destruct (negb _); simpl.
  - unfold reject. by rewrite settle_sdk_calls, settle_dispatched.
  - destruct (window_google st); simpl; [|done]. exact (setup_and_resolve_relay _ (set_promises _ _)).
Qed.

(** Every action but a credential keeps the relayed events; none removes
    a call made into the SDK. *)
Lemma run_action_relay a st st' :
  run_action cfg a st = Some st' →
  sdk_calls st `prefix_of` sdk_calls st' ∧
  (dispatched st' = dispatched st ∨
   ∃ r c, a = SdkCredential r ∧ existsb is_initialize (sdk_calls st) = true ∧
          get_prop r "credential"%js = Some c ∧ truthy (Some c) = true ∧
          dispatched st' = dispatched st ++ [JObj [("credential"%js, c)]]).
Proof.
  destruct a as [| | | |sid g|sid|tid|r|]; simpl; intros H.
  - injection H as <-. destruct (initializeGoogle_relay st). relay_done.
  - injection H as <-. unfold renderLoginButton.
    repeat case_match; simpl; relay_done.
  - injection H as <-. unfold logout, logout_body.
    repeat case_match; simplify_eq/=; relay_done.
  - injection H as <-. relay_done.
  - destruct (scripts st !! sid) as [sc|]; [|done]. destruct (script_fired sc); [done|].
    injection H as <-. unfold script_onload.
    destruct (window_google _); boot_simpl; [|relay_done].
    destruct (setup_and_resolve_relay (script_promise sc)
                (clearTimeout (script_timer sc) (mark_fired sid (set_google st
                  match window_google st with Some g0 => Some g0 | None => g end)))) as [Hc Hd].
    boot_simpl. relay_done.
  - destruct (scripts st !! sid) as [sc|]; [|done]. destruct (script_fired sc); [done|].
    injection H as <-. unfold script_onerror. boot_simpl. relay_done.
  - repeat case_match; simplify_eq. unfold timeout_callback. boot_simpl. relay_done.
  - destruct (existsb _ _) eqn:Ei; [|done]. injection H as <-.
    unfold handleCredentialResponse. split; [|].
    + repeat case_match; done.
    + destruct (get_prop r _) as [c|] eqn:Ec; [|by left].
      destruct (truthy (Some c)) eqn:Et; [|by left]. right. by exists r, c.
  - destruct (existsb _ _); [|done]. injection H as <-. relay_done.
Qed.

(** C15. The credential relay in every reachable state: each
    [googleSignInSuccess] event carries [{ credential }] with a truthy
    credential, and events exist only once [setupGoogleClient] has
    registered the callback with [google.accounts.id.initialize]. *)
Theorem relayed_credentials dom g st :
  reachable cfg dom g st →
  Forall (λ v, ∃ c, v = JObj [("credential"%js, c)] ∧ truthy (Some c) = true) (dispatched st) ∧
  (dispatched st ≠ [] → existsb is_initialize (sdk_calls st) = true).
Proof.
  unfold reachable. intros Hr. remember (init_state dom g) as st0 eqn:E.
  assert (H0 : Forall (λ v, ∃ c, v = JObj [("credential"%js, c)] ∧ truthy (Some c) = true)
                 (dispatched st0) ∧ (dispatched st0 ≠ [] → existsb is_initialize (sdk_calls st0) = true))
    by (subst; split; [constructor|done]).
  clear E. induction Hr as [|s1 s2 s3 [a s2' Ha] _ IH]; [done|]. apply IH.
  destruct H0 as [Hf Hne]. destruct (run_action_relay a s1 _ Ha) as [Hc [Hd|(r & c & -> & Hi & Hg & Ht & Hd)]].
  - rewrite Hd. split; [done|]. intros Hn. apply existsb_exists in Hne as (x & Hx & Hix); [|done].
    apply existsb_exists. exists x. split; [|done]. destruct Hc as [k ->]. apply in_app_iff. by left.
  - rewrite Hd. split.
    + apply Forall_app. split; [done|]. constructor; [by exists c|constructor].
    + intros _. apply existsb_exists in Hi as (x & Hx & Hix). apply existsb_exists.
      exists x. split; [|done]. destruct Hc as [k ->]. apply in_app_iff. by left.
Qed.

End Relay.

(** ** A concrete session *)

Definition boot_env : env :=
  Env (Some "1234.apps.googleusercontent.com"%js) (Some "example-corp.example"%js) "development"%js.
Definition unset_env : env := Env None None "development"%js.
Definition working_sdk : gsdk := GSdk None.
Definition boot_dom : list jstr := ["google-signin-button"%js].

Definition boot_step (a : action) (st : bstate) : bstate := default st (run_action boot_env a st).

(** The page before the SDK is loaded; one [initializeGoogle] call; the
    timeout fires; the script loads late; the SDK relays a credential. *)
Definition boot_s0 : bstate := init_state boot_dom None.
Definition boot_s1 : bstate := boot_step CallInitializeGoogle boot_s0.
Definition boot_s2 : bstate := boot_step (TimerFire 0) boot_s1.
Definition boot_s3 : bstate := boot_step (ScriptLoad 0 (Some working_sdk)) boot_s2.
Definition boot_s4 : bstate :=
  boot_step (SdkCredential (JObj [("credential"%js, JStr "header.payload.signature"%js)])) boot_s3.
Definition boot_loaded : bstate := init_state boot_dom (Some working_sdk).

Ltac boot_run a := apply (bstep_run _ _ a); vm_compute; reflexivity.

Lemma boot_s4_reachable : reachable boot_env boot_dom None boot_s4.
Proof.
  unfold reachable. fold boot_s0.
  eapply rtc_l with boot_s1; [boot_run CallInitializeGoogle|].
  eapply rtc_l with boot_s2; [boot_run (TimerFire 0)|].
  eapply rtc_l with boot_s3; [boot_run (ScriptLoad 0 (Some working_sdk))|].
  eapply rtc_l with boot_s4;
    [boot_run (SdkCredential (JObj [("credential"%js, JStr "header.payload.signature"%js)]))|].
  reflexivity.
Qed.

Lemma settled_promise_stable_witness :
  promises boot_s2 !! 0%nat = Some (Rejected timeout_error) ∧
  promises boot_s3 !! 0%nat = Some (Rejected timeout_error).
Proof.
  split; [vm_compute; reflexivity|].
  apply (settled_promise_stable boot_env boot_s2 boot_s3 0 (Rejected timeout_error));
    [|vm_compute; reflexivity|discriminate].
  apply rtc_once. boot_run (ScriptLoad 0 (Some working_sdk)).
Defined.

Lemma pending_initialization_times_out_witness :
  promises boot_s1 !! 0%nat = Some Pending ∧
  ∃ tid st', run_action boot_env (TimerFire tid) boot_s1 = Some st' ∧
             promises st' !! 0%nat = Some (Rejected timeout_error).
Proof.
  split; [vm_compute; reflexivity|].
  apply (pending_initialization_times_out boot_env boot_dom None); [|vm_compute; reflexivity].
  apply rtc_once. boot_run CallInitializeGoogle.
Defined.

Lemma late_load_after_timeout_initializes_witness :
  promises boot_s2 !! 0%nat = Some (Rejected timeout_error) ∧
  ∃ st', run_action boot_env (ScriptLoad 0 (Some working_sdk)) boot_s2 = Some st' ∧
         sdk_calls st' = sdk_calls boot_s2 ++ [GsiInitialize (GOOGLE_CLIENT_ID boot_env)] ∧
         promises st' !! 0%nat = Some (Rejected timeout_error).
Proof.
  split; [vm_compute; reflexivity|].
  apply (late_load_after_timeout_initializes boot_env boot_s2 0 (Script sdk_src 0 0 false false));
    vm_compute; reflexivity.
Defined.

Lemma script_load_resolves_witness :
  promises boot_s1 !! 0%nat = Some Pending ∧
  ∃ st', run_action boot_env (ScriptLoad 0 (Some working_sdk)) boot_s1 = Some st' ∧
         promises st' !! 0%nat = Some Resolved ∧
         sdk_calls st' = sdk_calls boot_s1 ++ [GsiInitialize (GOOGLE_CLIENT_ID boot_env)] ∧
         run_action boot_env (TimerFire 0) st' = None.
Proof.
  split; [vm_compute; reflexivity|].
  apply (script_load_resolves boot_env boot_s1 0 (Script sdk_src 0 0 true false));
    vm_compute; reflexivity.
Defined.

Lemma script_error_keeps_timer_witness :
  promises boot_s1 !! 0%nat = Some Pending ∧
  ∃ st1 st2, run_action boot_env (ScriptError 0) boot_s1 = Some st1 ∧
    promises st1 !! 0%nat = Some (Rejected load_error) ∧
    timers st1 !! 0%nat = Some (Timer 0 true) ∧
    run_action boot_env (TimerFire 0) st1 = Some st2 ∧
    promises st2 !! 0%nat = Some (Rejected load_error) ∧
    script_attached <$> (scripts st2 !! 0%nat) = Some false.
Proof.
  split; [vm_compute; reflexivity|].
  apply (script_error_keeps_timer boot_env boot_s1 0 (Script sdk_src 0 0 true false));
    vm_compute; reflexivity.
Defined.

Lemma initialize_twice_loaded_no_script_witness :
  window_google boot_loaded = Some working_sdk ∧
  scripts (initializeGoogle boot_env (initializeGoogle boot_env boot_loaded).2).2 = [] ∧
  timers (initializeGoogle boot_env (initializeGoogle boot_env boot_loaded).2).2 = [].
Proof.
  split; [reflexivity|].
  apply (initialize_twice_loaded_no_script boot_env boot_loaded working_sdk). reflexivity.
Defined.

Lemma initialize_twice_injects_two_scripts_witness :
  valid (validateEnvironment boot_env) = true ∧
  length (scripts (initializeGoogle boot_env (initializeGoogle boot_env boot_s0).2).2) = 2%nat.
Proof.
  split; [vm_compute; reflexivity|].
  apply (initialize_twice_injects_two_scripts boot_env boot_s0); [reflexivity|vm_compute; reflexivity].
Defined.

Lemma initialize_config_error_witness :
  valid (validateEnvironment unset_env) = false ∧
  promises (initializeGoogle unset_env boot_s0).2 !! 0%nat =
    Some (Rejected (new_Error "VITE_GOOGLE_CLIENT_ID não configurado em .env"%js)) ∧
  scripts (initializeGoogle unset_env boot_s0).2 = [].
Proof.
  split; [vm_compute; reflexivity|].
  pose proof (initialize_config_error unset_env boot_s0 ltac:(vm_compute; reflexivity)) as H.
  simpl in H. destruct H as (Hp & Hs & _). split; [exact Hp|exact Hs].
Defined.

Lemma relayed_credentials_witness :
  dispatched boot_s4 = [JObj [("credential"%js, JStr "header.payload.signature"%js)]] ∧
  existsb is_initialize (sdk_calls boot_s4) = true.
Proof.
  split; [vm_compute; reflexivity|].
  apply (relayed_credentials boot_env boot_dom None boot_s4 boot_s4_reachable).
  vm_compute. discriminate.
Defined.

Lemma renderLoginButton_missing_element_witness :
  "missing-slot"%js ∉ dom_ids boot_loaded ∧
  renderLoginButton "missing-slot"%js None boot_loaded =
    add_log boot_loaded
      (ConsoleError [ArgStr ("Elemento com ID "%js ++ quoted "missing-slot"%js ++ " não encontrado"%js)]).
Proof.
  assert (Hn : "missing-slot"%js ∉ dom_ids boot_loaded)
    by (apply (bool_decide_unpack _); vm_compute; reflexivity).
  split; [exact Hn|]. by apply (renderLoginButton_missing_element boot_loaded working_sdk).
Defined.
