(* ===== verification/LoginFlow.v ===== *)
(** * The login screen: [useAuth], [LoginPage] and [App]

    [useAuth] (auth-service.ts lines 357-433) wraps the service for React:
    its state is [isLoading], [error] and [isInitialized]; its
    [initializeGoogle] repeats the configuration check, then awaits the
    service's promise; its [validateToken] turns the service's outcome
    into an [AuthResponse].  [LoginPage] (login-page.tsx) starts the
    initialization 500 ms after mounting, renders the Google button once
    initialized, and handles each [googleSignInSuccess] event by
    validating the credential and, on success, calling [onLogin] one
    second later.  [App] (App.tsx) holds the signed-in user.

    [session] is the state of the whole login screen: the service and
    browser state of [Bootstrapper], the hook, the page and the app.
    [sstep] interleaves the page's timers and effects, the awaited
    promise's continuation, the event listener and every service action. *)

From stdpp Require Import relations.
From S2P Require Import Prelude Js JsonValue Platform Base64 JsonParse Config TokenValidator Bootstrapper.

(** ** [useAuth] *)

(** [AuthResponse] (lines 23-28). *)
Record AuthResponse := MkAuthResponse {
  success : bool;
  resp_user : option User;
  resp_error : option jstr;
  resp_message : option jstr
}.

Record hook_state := HookState {
  isLoading : bool;
  error : option jstr;
  isInitialized : bool
}.

(** [useState(true)], [useState(null)], [useState(false)] *)
Definition hook_init : hook_state := HookState true None false.

Definition config_incomplete : jstr := "Configuração incompleta"%js.

(** [useAuth().initializeGoogle()] up to its [await]: the hook's state,
    the service's state, and the promise awaited, if any. *)
Definition hook_initialize_start (cfg : env) (h : hook_state) (st : bstate)
    : hook_state * bstate * option nat :=
  let h := HookState true None (isInitialized h) in
  let envCheck := validateEnvironment cfg in
  if negb (valid envCheck) then
    (HookState false (Some (or_default (env_error envCheck) config_incomplete)) (isInitialized h), st, None)
  else
    let '(p, st') := initializeGoogle cfg st in (h, st', Some p).

(** The rest of [initializeGoogle] once the awaited promise settles. *)
Definition hook_initialize_finish (h : hook_state) (o : pstate) : hook_state :=
  match o with
  | Resolved => HookState false (error h) true
  | Rejected e =>
      HookState false (Some (message_or e ("Erro ao inicializar autenticação"%js))) (isInitialized h)
  | Pending => h
  end.

Definition validation_failed : jstr := "Validação falhou"%js.

(** [useAuth().validateToken(token)] given the outcome of
    [authService.validateToken(token)].  A [User] object is always
    truthy, so the [if (user)] test of line 397 always holds. *)
Definition hook_validateToken (r : res exn User) : AuthResponse :=
  match r with
  | Ok user => MkAuthResponse true (Some user) None None
  | Throw err =>
      MkAuthResponse false None (Some validation_failed)
        (Some (message_or err ("Erro ao validar token"%js)))
  end.

(** ** [LoginPage] *)

Definition auth_success_msg : jstr := "✓ Autenticação bem-sucedida!"%js.
Definition button_id : jstr := "google-signin-button"%js.

Section Page.
  Context `{Base64Api} `{JsonApi}.
  Variable cfg : env.

(** [authService.validateToken(credential)] for the credential of the
    event: a string is validated; any other truthy value makes
    [token.split] throw a [TypeError] inside [decodeJwt], which
    re-throws it. *)
Definition validate_credential (c : json) : console * res exn User :=
  match c with
  | JStr t => validateToken cfg t
  | _ =>
      let msg := "Token inválido: "%js ++ "token.split is not a function"%js in
      (validation_error_log msg, Throw (new_Error msg))
  end.

(** The page's part of the session. *)
Record login_page_state := PageState {
  pg_success : jstr;            (* [success] *)
  pg_login_timers : list User;  (* the [setTimeout(() => onLogin(user), 1000)] pending *)
  pg_console : console
}.

(** [handleGoogleSignIn(event)] for the event's [detail]. *)
Definition handleGoogleSignIn (detail : json) (pg : login_page_state) : login_page_state :=
  match get_prop detail "credential"%js with
  | Some c =>
      if truthy (Some c) then
        let '(logs, r) := validate_credential c in
        let response := hook_validateToken r in
        let con := pg_console pg ++ logs in
        match success response, resp_user response with
        | true, Some u => PageState auth_success_msg (pg_login_timers pg ++ [u]) con
        | _, _ =>
            PageState (pg_success pg) (pg_login_timers pg)
              (con ++ [ConsoleError (ArgStr "Validação falhou:"%js ::
                                     match resp_message response with
                                     | Some m => [ArgStr m]
                                     | None => []
                                     end)])
        end
      else pg
  | None => pg
  end.

End Page.

(** What the login card shows (lines 111-245). *)
Record login_view := LoginView {
  v_success_alert : option jstr;
  v_error_alert : option jstr;
  v_spinner : bool;
  v_button_slot : bool;
  v_fallback : bool;
  v_debug : bool;
  v_setup_help : bool
}.

Definition nonempty (s : option jstr) : option jstr :=
  match s with Some ((_ :: _) as m) => Some m | _ => None end.

Definition view_of (cfg : env) (success : jstr) (h : hook_state) : login_view :=
  LoginView (nonempty (Some success)) (nonempty (error h)) (isLoading h)
    (negb (isLoading h) && isInitialized h)
    (negb (isLoading h) && negb (isInitialized h) && negb (bool_decide (is_Some (nonempty (error h)))))
    (bool_decide (MODE cfg = "development"%js))
    (match nonempty (error h) with Some m => includes m ("não configurado"%js) | None => false end).

(** ** [App] *)

(** [handleLogin] and [handleLogout] of App.tsx: the signed-in user. *)
Definition handleLogin (u : User) (user : option User) : option User := Some u.
Definition handleLogout (user : option User) : option User := None.

(** ** The login screen as a state machine *)

Record session := Session {
  ss_boot : bstate;
  ss_hook : hook_state;
  ss_page : login_page_state;
  ss_init_timer : bool;       (* the 500 ms [setTimeout(init, 500)] is pending *)
  ss_awaiting : option nat;   (* the promise [useAuth().initializeGoogle] awaits *)
  ss_rendered : bool;         (* the button effect has run since [isInitialized] became true *)
  ss_seen : nat;              (* [googleSignInSuccess] events the listener has received *)
  ss_user : option User       (* [App]'s [user]; [LoginPage] is mounted while it is [null] *)
}.

(** [LoginPage] mounting: fresh hook and page state, the init timer
    scheduled, the listener attached (it sees later events only).  The
    [onLogin] timers of an earlier instance are still scheduled and the
    console keeps its entries. *)
Definition mount (st : bstate) (user : option User) (pg : login_page_state) : session :=
  Session st hook_init (PageState [] (pg_login_timers pg) (pg_console pg)) true None false
    (length (dispatched st)) user.

(** The browser events the service reacts to (the page calls the
    service's methods only through the hook). *)
Definition browser_event (a : action) : bool :=
  match a with
  | ScriptLoad _ _ | ScriptError _ | TimerFire _ | SdkCredential _ | ButtonClick => true
  | _ => false
  end.

Definition set_dom (st : bstate) (dom : list jstr) : bstate :=
  BState (window_google st) (promises st) (scripts st) (timers st) (sdk_calls st)
    (token_callback st) (dispatched st) (log st) dom.

Section Session.
  Context `{Base64Api} `{JsonApi}.
  Variable cfg : env.

Inductive sstep : session → session → Prop :=
(** the 500 ms timer: [await initializeGoogle()] starts *)
| sstep_init_timer s h st' aw :
    ss_user s = None → ss_init_timer s = true →
    hook_initialize_start cfg (ss_hook s) (ss_boot s) = (h, st', aw) →
    sstep s (Session st' h (ss_page s) false aw (ss_rendered s) (ss_seen s) (ss_user s))
(** the awaited promise has settled: the rest of [initializeGoogle] *)
| sstep_await s p o :
    ss_user s = None → ss_awaiting s = Some p → promises (ss_boot s) !! p = Some o → o ≠ Pending →
    sstep s (Session (ss_boot s) (hook_initialize_finish (ss_hook s) o) (ss_page s) (ss_init_timer s)
               None (ss_rendered s) (ss_seen s) (ss_user s))
(** the effect of lines 43-51, after the render that shows the button's [div] *)
| sstep_render s :
    ss_user s = None → isInitialized (ss_hook s) = true → ss_rendered s = false →
    v_button_slot (view_of cfg (pg_success (ss_page s)) (ss_hook s)) = true →
    sstep s (Session (renderLoginButton button_id (Some filled_blue)
                        (set_dom (ss_boot s) (button_id :: dom_ids (ss_boot s))))
               (ss_hook s) (ss_page s) (ss_init_timer s) (ss_awaiting s) true (ss_seen s) (ss_user s))
(** the listener receives the next [googleSignInSuccess] event *)
| sstep_event s d :
    ss_user s = None → dispatched (ss_boot s) !! ss_seen s = Some d →
    sstep s (Session (ss_boot s) (ss_hook s) (handleGoogleSignIn cfg d (ss_page s)) (ss_init_timer s)
               (ss_awaiting s) (ss_rendered s) (S (ss_seen s)) (ss_user s))
(** a [setTimeout(() => onLogin(user), 1000)] fires; it is not cleared
    when [LoginPage] unmounts *)
| sstep_login s u rest :
    pg_login_timers (ss_page s) = u :: rest →
    sstep s (Session (ss_boot s) (ss_hook s)
               (PageState (pg_success (ss_page s)) rest (pg_console (ss_page s)))
               (ss_init_timer s) (ss_awaiting s) (ss_rendered s) (ss_seen s) (handleLogin u (ss_user s)))
(** [MainLayout]'s logout: [App] clears the user and remounts [LoginPage] *)
| sstep_logout s u :
    ss_user s = Some u →
    sstep s (mount (ss_boot s) (handleLogout (ss_user s)) (ss_page s))
(** a browser event handled by the service *)
| sstep_boot s a st' :
    browser_event a = true → run_action cfg a (ss_boot s) = Some st' →
    sstep s (Session st' (ss_hook s) (ss_page s) (ss_init_timer s) (ss_awaiting s)
               (ss_rendered s) (ss_seen s) (ss_user s)).

End Session.

(** ** Theorems *)

Definition session_init (dom : list jstr) (g : option gsdk) : session :=
  mount (init_state dom g) None (PageState [] [] []).

(** Steps of one mounted [LoginPage]: no user before or after. *)
Definition mstep `{Base64Api} `{JsonApi} (cfg : env) (s s' : session) : Prop :=
  sstep cfg s s' ∧ ss_user s = None ∧ ss_user s' = None.

Section LoginTheorems.
  Context `{Base64Api} `{JsonApi}.
  Variable cfg : env.

Lemma validateToken_Ok_nonempty t logs u : validateToken cfg t = (logs, Ok u) → t ≠ [].
Proof.
  unfold validateToken. destruct (validate_body cfg t) as [[l u']|e] eqn:E; [|discriminate].
  intros _. by apply validate_body_Ok in E as [? _].
Qed.

Lemma credential_detail_lookup v : get_prop (JObj [("credential"%js, v)]) ("credential"%js) = Some v.
Proof. exact (obj_lookup_app_last _ v []). Qed.

Lemma handle_credential_Ok t logs u pg :
  validateToken cfg t = (logs, Ok u) →
  handleGoogleSignIn cfg (JObj [("credential"%js, JStr t)]) pg =
    PageState auth_success_msg (pg_login_timers pg ++ [u]) (pg_console pg ++ logs).
Proof.
  intros Hv. unfold handleGoogleSignIn. rewrite credential_detail_lookup.
  rewrite (proj2 (truthy_str t)) by (by eapply validateToken_Ok_nonempty).
  simpl. by rewrite Hv.
Qed.

(** C17. End to end: when the listener receives a credential that
    [validateToken] accepts, the page shows the success message and,
    when its one-second timer fires, [App] holds the validated user. *)
Theorem credential_signs_in s t logs u :
  ss_user s = None → pg_login_timers (ss_page s) = [] →
  dispatched (ss_boot s) !! ss_seen s = Some (JObj [("credential"%js, JStr t)]) →
  validateToken cfg t = (logs, Ok u) →
  ∃ s1 s2, sstep cfg s s1 ∧ sstep cfg s1 s2 ∧
    v_success_alert (view_of cfg (pg_success (ss_page s1)) (ss_hook s1)) = Some auth_success_msg ∧
    ss_user s2 = Some u.
Proof.
  intros Hu Ht Hd Hv. eexists _, _. split; [by eapply sstep_event|].
  split; [eapply sstep_login; simpl; rewrite (handle_credential_Ok t logs u) by done;
          simpl; by rewrite Ht|].
  split; [by simpl; rewrite (handle_credential_Ok t logs u) by done|reflexivity].
Qed.

(** A rejected credential changes nothing the user sees: the hook's
    [error] is not set, no success message, no sign-in; the reason only
    reaches the console. *)
Theorem failed_validation_invisible s t logs e :
  ss_user s = None →
  dispatched (ss_boot s) !! ss_seen s = Some (JObj [("credential"%js, JStr t)]) →
  validateToken cfg t = (logs, Throw e) →
  ∃ s1, sstep cfg s s1 ∧
    view_of cfg (pg_success (ss_page s1)) (ss_hook s1) = view_of cfg (pg_success (ss_page s)) (ss_hook s) ∧
    pg_login_timers (ss_page s1) = pg_login_timers (ss_page s) ∧ ss_user s1 = None.
Proof.
  intros Hu Hd Hv. eexists. split; [by eapply sstep_event|]. simpl.
  unfold handleGoogleSignIn. rewrite credential_detail_lookup.
  destruct (truthy (Some (JStr t))); [|done]. simpl. by rewrite Hv.
Qed.

(** C18. A missing client id is caught by the hook itself: the service
    is not called, nothing is awaited, and the page shows the error with
    the setup instructions and no spinner. *)
Theorem config_error_shows_setup s :
  ss_user s = None → ss_init_timer s = true → valid (validateEnvironment cfg) = false →
  ∃ s1, sstep cfg s s1 ∧ ss_boot s1 = ss_boot s ∧ ss_awaiting s1 = None ∧
    let v := view_of cfg (pg_success (ss_page s1)) (ss_hook s1) in
    v_error_alert v = Some ("VITE_GOOGLE_CLIENT_ID não configurado em .env"%js) ∧
    v_setup_help v = true ∧ v_spinner v = false.
Proof.
  intros Hu Hi Hv. destruct (validateEnvironment_invalid cfg Hv) as [_ He].
  eexists. split; [eapply sstep_init_timer; [done|done|]|].
  { unfold hook_initialize_start. rewrite He. reflexivity. }
  split; [done|]. split; [done|]. vm_compute. auto.
Qed.

(** The hook's [AuthResponse] has exactly one variant populated: a
    user exactly on success, an error exactly on failure. *)
Theorem hook_validateToken_one_variant r :
  let a := hook_validateToken r in
  (success a = true ↔ ∃ u, r = Ok u ∧ resp_user a = Some u) ∧
  (is_Some (resp_user a) ↔ resp_error a = None).
Proof.
  destruct r as [u|e]; simpl; split; split.
  - intros _. by exists u.
  - done.
  - done.
  - by eexists.
  - done.
  - by intros (u & ? & _).
  - by intros [].
  - done.
Qed.

(** After a failed initialization the page has nothing left to await. *)
Definition init_failed (s : session) : Prop :=
  ss_init_timer s = false ∧ ss_awaiting s = None ∧ isInitialized (ss_hook s) = false.

Lemma mstep_init_failed s s' : mstep cfg s s' → init_failed s → init_failed s'.
Proof.
  intros ([] & Hu & Hu') (Ht & Ha & Hi); simpl in *; try congruence.
  - repeat split; done.
  - repeat split; done.
  - repeat split; done.
Qed.

(** C19. An initialization that failed (timeout, load error, broken SDK)
    is final for the mounted page: whatever the browser does afterwards,
    including the script loading late and the service configuring the
    SDK, [isInitialized] stays false and the button is never shown. *)
Theorem init_failure_final s s' :
  init_failed s → rtc (mstep cfg) s s' →
  isInitialized (ss_hook s') = false ∧
  v_button_slot (view_of cfg (pg_success (ss_page s')) (ss_hook s')) = false.
Proof.
  intros Hs Hr. induction Hr as [s|s1 s2 s3 Hst _ IH].
  - destruct Hs as (_ & _ & Hi). unfold view_of. simpl. rewrite Hi. by rewrite andb_false_r.
  - apply IH. by eapply mstep_init_failed.
Qed.

(** [st'] extends the SDK calls of [st] without a [disableAutoSelect]. *)
Definition calls_ext (st st' : bstate) : Prop :=
  ∃ extra, sdk_calls st' = sdk_calls st ++ extra ∧ GsiDisableAutoSelect ∉ extra.

Lemma calls_ext_same st st' : sdk_calls st' = sdk_calls st → calls_ext st st'.
Proof. intros Hs. exists []. split; [by rewrite Hs, app_nil_r|apply not_elem_of_nil]. Qed.

Lemma calls_ext_trans s1 s2 s3 : calls_ext s1 s2 → calls_ext s2 s3 → calls_ext s1 s3.
Proof.
  intros (e1 & H1 & N1) (e2 & H2 & N2). exists (e1 ++ e2).
  rewrite H2, H1, app_assoc. split; [done|]. rewrite elem_of_app. tauto.
Qed.

Lemma calls_ext_add st c : c ≠ GsiDisableAutoSelect → calls_ext st (add_sdk_call st c).
Proof.
  intros Hc. exists [c]. split; [done|]. rewrite list_elem_of_singleton. congruence.
Qed.

Lemma setup_and_resolve_ext p st : calls_ext st (setup_and_resolve cfg p st).
Proof.
  unfold setup_and_resolve. destruct (setupGoogleClient cfg st) eqn:E.
  - apply setupGoogleClient_Ok in E as (? & _ & _ & ->).
    eapply calls_ext_trans; [apply (calls_ext_add _ (GsiInitialize (GOOGLE_CLIENT_ID cfg))); discriminate|].
    apply calls_ext_same. apply settle_sdk_calls.
  - apply calls_ext_same. apply settle_sdk_calls.
Qed.

Lemma initializeGoogle_ext st : calls_ext st (initializeGoogle cfg st).2.
Proof.
  unfold initializeGoogle. simpl. destruct (negb _); simpl.
  - apply calls_ext_same. unfold reject. by rewrite settle_sdk_calls.
  - destruct (window_google st); simpl; [|by apply calls_ext_same].
    eapply calls_ext_trans; [|apply setup_and_resolve_ext]. by apply calls_ext_same.
Qed.

Lemma renderLoginButton_ext el t st : calls_ext st (renderLoginButton el t st).
Proof.
  unfold renderLoginButton.
  repeat case_match; try (apply calls_ext_same; reflexivity). by apply calls_ext_add.
Qed.

Lemma browser_event_ext a st st' :
  browser_event a = true → run_action cfg a st = Some st' → calls_ext st st'.
Proof.
  destruct a as [| | | |sid g|sid|tid|r|]; simpl; intros Hb Hr; try discriminate Hb.
  - destruct (scripts st !! sid) as [sc|]; [|done]. destruct (script_fired sc); [done|].
    injection Hr as <-. unfold script_onload.
    set (st1 := clearTimeout (script_timer sc) _).
    assert (calls_ext st st1).
    { apply calls_ext_same. subst st1. by rewrite clearTimeout_calls, mark_fired_calls. }
    destruct (window_google st1).
    + eapply calls_ext_trans; [eassumption|apply setup_and_resolve_ext].
    + eapply calls_ext_trans; [eassumption|]. apply calls_ext_same. apply settle_sdk_calls.
  - destruct (scripts st !! sid) as [sc|]; [|done]. destruct (script_fired sc); [done|].
    injection Hr as <-. apply calls_ext_same. unfold script_onerror, reject.
    by rewrite settle_sdk_calls, mark_fired_calls.
  - repeat case_match; simplify_eq. apply calls_ext_same. unfold timeout_callback, reject.
    by rewrite remove_script_calls, settle_sdk_calls, clearTimeout_calls.
  - destruct (existsb _ _); [|done]. injection Hr as <-. apply calls_ext_same.
    unfold handleCredentialResponse. by repeat case_match.
  - destruct (existsb _ _); [|done]. injection Hr as <-. by apply calls_ext_same.
Qed.

Lemma sstep_calls_ext s s' : sstep cfg s s' → calls_ext (ss_boot s) (ss_boot s').
Proof.
  intros []; simpl; try (apply calls_ext_same; reflexivity).
  - match goal with
      Hs : hook_initialize_start _ _ ?b = _ |- _ => revert Hs; pose proof (initializeGoogle_ext b) as Hx
    end.
    unfold hook_initialize_start. destruct (negb _).
    + intros [= <- <- <-]. by apply calls_ext_same.
    + destruct (initializeGoogle _ _). intros [= <- <- <-]. exact Hx.
  - eapply calls_ext_trans; [|apply renderLoginButton_ext]. by apply calls_ext_same.
  - by eapply browser_event_ext.
Qed.

(** C20. The interface never signs out of the SDK: [App]'s logout only
    clears its user and no step of the login screen calls
    [authService.logout], so [disableAutoSelect] is never called. *)
Theorem disableAutoSelect_never_called s s' :
  rtc (sstep cfg) s s' → GsiDisableAutoSelect ∉ sdk_calls (ss_boot s) →
  GsiDisableAutoSelect ∉ sdk_calls (ss_boot s').
Proof.
  intros Hr. induction Hr as [s|s1 s2 s3 Hst _ IH]; [done|].
  intros Hn. apply IH. destruct (sstep_calls_ext s1 s2 Hst) as (extra & -> & Hx).
  rewrite elem_of_app. tauto.
Qed.

End LoginTheorems.

(** ** Concrete sessions *)

(** The page mounted and initialized, with one credential dispatched. *)
Definition signin_session (t : jstr) : session :=
  Session (add_dispatched (init_state [button_id] (Some working_sdk)) (JObj [("credential"%js, JStr t)]))
    (HookState false None true) (PageState [] [] []) false None true 0 None.

Definition ana_user : User := MkUser ("ana@example-corp.example"%js) (JStr ("Ana Lima"%js)) None.
Definition bob_error : jstr :=
  "Email deve terminar com @example-corp.example (recebido: bob@other.example)"%js.

Lemma credential_signs_in_witness :
  validateToken demo_env ana_token = ([], Ok ana_user) ∧
  ∃ s1 s2, sstep demo_env (signin_session ana_token) s1 ∧ sstep demo_env s1 s2 ∧
    v_success_alert (view_of demo_env (pg_success (ss_page s1)) (ss_hook s1)) = Some auth_success_msg ∧
    ss_user s2 = Some ana_user.
Proof.
  assert (Hv : validateToken demo_env ana_token = ([], Ok ana_user)) by (vm_compute; reflexivity).
  split; [exact Hv|]. apply (credential_signs_in demo_env _ ana_token [] ana_user); [done|done| |exact Hv].
  reflexivity.
Defined.

Lemma failed_validation_invisible_witness :
  validateToken demo_env bob_token = (validation_error_log bob_error, Throw (new_Error bob_error)) ∧
  ∃ s1, sstep demo_env (signin_session bob_token) s1 ∧
    view_of demo_env (pg_success (ss_page s1)) (ss_hook s1) =
      view_of demo_env (pg_success (ss_page (signin_session bob_token))) (ss_hook (signin_session bob_token)) ∧
    pg_login_timers (ss_page s1) = pg_login_timers (ss_page (signin_session bob_token)) ∧
    ss_user s1 = None.
Proof.
  assert (Hv : validateToken demo_env bob_token = (validation_error_log bob_error, Throw (new_Error bob_error)))
    by (vm_compute; reflexivity).
  split; [exact Hv|]. apply (failed_validation_invisible demo_env (signin_session bob_token) bob_token (validation_error_log bob_error) (new_Error bob_error)); [done| |exact Hv].
  reflexivity.
Defined.

Lemma config_error_shows_setup_witness :
  valid (validateEnvironment unset_env) = false ∧
  ∃ s1, sstep unset_env (session_init boot_dom None) s1 ∧ ss_boot s1 = boot_s0 ∧ ss_awaiting s1 = None ∧
    let v := view_of unset_env (pg_success (ss_page s1)) (ss_hook s1) in
    v_error_alert v = Some ("VITE_GOOGLE_CLIENT_ID não configurado em .env"%js) ∧
    v_setup_help v = true ∧ v_spinner v = false.
Proof.
  split; [vm_compute; reflexivity|].
  apply (config_error_shows_setup unset_env); [done|done|vm_compute; reflexivity].
Defined.

(** The page after the timeout: the hook shows the timeout error. *)
Definition timed_out_session (st : bstate) : session :=
  Session st (HookState false (Some ("Timeout ao carregar Google SDK"%js)) false)
    (PageState [] [] []) false None false 0 None.

Lemma init_failure_final_witness :
  init_failed (timed_out_session boot_s2) ∧
  rtc (mstep boot_env) (timed_out_session boot_s2) (timed_out_session boot_s3) ∧
  existsb is_initialize (sdk_calls boot_s3) = true ∧
  isInitialized (ss_hook (timed_out_session boot_s3)) = false ∧
  v_button_slot (view_of boot_env [] (ss_hook (timed_out_session boot_s3))) = false.
Proof.
  assert (Hi : init_failed (timed_out_session boot_s2)) by (repeat split).
  assert (Hr : rtc (mstep boot_env) (timed_out_session boot_s2) (timed_out_session boot_s3)).
  { apply rtc_once. split; [|split; reflexivity].
    apply (sstep_boot boot_env (timed_out_session boot_s2) (ScriptLoad 0 (Some working_sdk)));
      [reflexivity|vm_compute; reflexivity]. }
  split; [exact Hi|]. split; [exact Hr|]. split; [vm_compute; reflexivity|].
  exact (init_failure_final boot_env _ _ Hi Hr).
Defined.

Definition login_start := hook_initialize_start boot_env hook_init boot_s0.
Definition login_s1 : session :=
  Session login_start.1.2 login_start.1.1 (PageState [] [] []) false login_start.2 false 0 None.

Lemma disableAutoSelect_never_called_witness :
  GsiDisableAutoSelect ∉ sdk_calls (ss_boot (session_init boot_dom None)) ∧
  rtc (sstep boot_env) (session_init boot_dom None) login_s1 ∧
  GsiDisableAutoSelect ∉ sdk_calls (ss_boot login_s1).
Proof.
  assert (Hn : GsiDisableAutoSelect ∉ sdk_calls (ss_boot (session_init boot_dom None)))
    by apply not_elem_of_nil.
  assert (Hr : rtc (sstep boot_env) (session_init boot_dom None) login_s1).
  { apply rtc_once. apply (sstep_init_timer boot_env (session_init boot_dom None) login_start.1.1 login_start.1.2 login_start.2);
      [reflexivity|reflexivity|]. unfold login_start. vm_compute. reflexivity. }
  split; [exact Hn|]. split; [exact Hr|]. exact (disableAutoSelect_never_called boot_env _ _ Hr Hn).
Defined.
