(* ===== verification/Tickets.v ===== *)
(** * The tickets page: [TicketsPage], [TicketDetails], [TicketForm]

    [TicketsPage] (tickets-page.tsx) keeps the tickets in component
    state, seeded with three fixtures, and the selected ticket; it
    creates tickets from [TicketForm] (ticket-form.tsx), updates and
    deletes them from [TicketDetails] (ticket-details.tsx).  A [Date] is
    its time value in milliseconds; [Date.now()] and [new Date()] are
    the [now] argument of the operation that reads the clock.

    [TicketDetails] is rendered without a [key] whenever a ticket is
    selected, so React keeps its state ([isEditing], [editedTicket],
    initialised from the first ticket shown) while the selection changes;
    [page_state] holds it next to the page's state, and [page_step] is
    the page's step relation. *)

From stdpp Require Import relations.
From S2P Require Import Prelude Js JsonValue JsonParse JsonPrint TokenValidator.

(** ** Data *)

Inductive priority := low | medium | high | urgent.
Inductive status := open | in_progress | resolved | closed.

#[export] Instance priority_eq_dec : EqDecision priority.
Proof. solve_decision. Defined.
#[export] Instance status_eq_dec : EqDecision status.
Proof. solve_decision. Defined.

(** [interface Ticket] of App.tsx. *)
Record Ticket := MkTicket {
  id : jstr;
  title : jstr;
  description : jstr;
  category : jstr;
  tk_priority : priority;
  tk_status : status;
  createdAt : Z;
  updatedAt : Z;
  requesterName : json;   (* typed [string], but [user.name] can be any JSON value *)
  requesterEmail : jstr;
  assignedTo : option jstr
}.

(** [Omit<Ticket, 'id' | 'createdAt' | 'updatedAt' | 'status'>], the
    form's data. *)
Record ticket_data := TicketData {
  td_title : jstr;
  td_description : jstr;
  td_category : jstr;
  td_priority : priority;
  td_requesterName : json;
  td_requesterEmail : jstr
}.

(** ** [TicketsPage] *)

(** [new Date('2025-11-19')] and the like: midnight UTC. *)
Definition nov17 : Z := 1763337600000.
Definition nov18 : Z := 1763424000000.
Definition nov19 : Z := 1763510400000.

Definition ticket1 : Ticket :=
  MkTicket "1"%js "Problema com impressora do 3º andar"%js "A impressora não está conectando à rede"%js
    "Hardware"%js medium open nov19 nov19 (JStr "Maria Silva"%js) "maria.silva@grupolgh.com.br"%js None.
Definition ticket2 : Ticket :=
  MkTicket "2"%js "Acesso ao sistema financeiro"%js
    "Preciso de permissão para acessar o módulo de relatórios"%js "Acesso"%js high in_progress
    nov18 nov19 (JStr "João Santos"%js) "joao.santos@grupolgh.com.br"%js (Some "Suporte TI"%js).
Definition ticket3 : Ticket :=
  MkTicket "3"%js "Email não está enviando anexos"%js
    "Quando tento enviar arquivos maiores que 5MB, o email não envia"%js "Email"%js low resolved
    nov17 nov18 (JStr "Ana Costa"%js) "ana.costa@grupolgh.com.br"%js (Some "Suporte TI"%js).

Definition fixture_tickets : list Ticket := [ticket1; ticket2; ticket3].

(** [handleCreateTicket(ticketData)] *)
Definition handleCreateTicket (now : Z) (d : ticket_data) (tickets : list Ticket) : list Ticket :=
  MkTicket (Z_toString now) (td_title d) (td_description d) (td_category d) (td_priority d) open
    now now (td_requesterName d) (td_requesterEmail d) None :: tickets.

Definition with_updatedAt (t : Ticket) (now : Z) : Ticket :=
  MkTicket (id t) (title t) (description t) (category t) (tk_priority t) (tk_status t)
    (createdAt t) now (requesterName t) (requesterEmail t) (assignedTo t).

(** The list part of [handleUpdateTicket(updatedTicket)]. *)
Definition update_tickets (now : Z) (u : Ticket) (tickets : list Ticket) : list Ticket :=
  map (λ t, if decide (id t = id u) then with_updatedAt u now else t) tickets.

(** The list part of [handleDeleteTicket(ticketId)]. *)
Definition delete_tickets (tid : jstr) (tickets : list Ticket) : list Ticket :=
  List.filter (λ t, negb (bool_decide (id t = tid))) tickets.

Record stats := Stats { total : nat; st_open : nat; st_inProgress : nat; st_resolved : nat }.

Definition count_status (s : status) (tickets : list Ticket) : nat :=
  length (List.filter (λ t, bool_decide (tk_status t = s)) tickets).

Definition stats_of (tickets : list Ticket) : stats :=
  Stats (length tickets) (count_status open tickets) (count_status in_progress tickets)
    (count_status resolved tickets).

(** ** [TicketList] *)

Definition status_str (s : status) : jstr :=
  match s with
  | open => "open"%js | in_progress => "in_progress"%js
  | resolved => "resolved"%js | closed => "closed"%js
  end.

Definition priority_str (p : priority) : jstr :=
  match p with
  | low => "low"%js | medium => "medium"%js | high => "high"%js | urgent => "urgent"%js
  end.

Record filter_state := FilterState { searchTerm : jstr; statusFilter : jstr; priorityFilter : jstr }.

Definition filters_init : filter_state := FilterState [] "all"%js "all"%js.

Definition to_lower_error : exn :=
  JsErr "TypeError"%js "ticket.requesterName.toLowerCase is not a function"%js.

Section List.
  (** [String.prototype.toLowerCase]: Unicode case mapping, a library
      the code only calls. *)
  Variable toLowerCase : jstr → jstr.

(** [matchesSearch]: the [||] stops at the first match, so the
    requester's name is only lowered when title and description do not
    match. *)
Definition matchesSearch (term : jstr) (t : Ticket) : res exn bool :=
  let q := toLowerCase term in
  if includes (toLowerCase (title t)) q then Ok true
  else if includes (toLowerCase (description t)) q then Ok true
  else match requesterName t with
       | JStr n => Ok (includes (toLowerCase n) q)
       | _ => Throw to_lower_error
       end.

Definition ticket_matches (f : filter_state) (t : Ticket) : res exn bool :=
  ms ← matchesSearch (searchTerm f) t;
  let matchesStatus := bool_decide (statusFilter f = "all"%js) || bool_decide (status_str (tk_status t) = statusFilter f) in
  let matchesPriority := bool_decide (priorityFilter f = "all"%js) || bool_decide (priority_str (tk_priority t) = priorityFilter f) in
  Ok (ms && matchesStatus && matchesPriority).

(** [tickets.filter(...)]: the first exception escapes. *)
Fixpoint filteredTickets (f : filter_state) (tickets : list Ticket) : res exn (list Ticket) :=
  match tickets with
  | [] => Ok []
  | t :: r =>
      match ticket_matches f t with
      | Throw e => Throw e
      | Ok keep =>
          match filteredTickets f r with
          | Throw e => Throw e
          | Ok rest => Ok (if keep then t :: rest else rest)
          end
      end
  end.

End List.

(** ** [TicketForm] *)

Record form_state := FormState { formData : ticket_data; submitted : bool }.

(** The form's initial (and reset) data for the signed-in user. *)
Definition form_data_init (u : User) : ticket_data :=
  TicketData [] [] [] medium (user_name u) (user_email u).

Definition form_init (u : User) : form_state := FormState (form_data_init u) false.

(** [isFormValid] *)
Definition isFormValid (d : ticket_data) : bool :=
  bool_decide (td_title d ≠ []) && bool_decide (td_description d ≠ []) &&
  bool_decide (td_category d ≠ []) && truthy (Some (td_requesterName d)) &&
  bool_decide (td_requesterEmail d ≠ []).

Inductive form_field :=
| FTitle (s : jstr) | FDescription (s : jstr) | FCategory (s : jstr)
| FPriority (p : priority) | FRequesterName (s : jstr) | FRequesterEmail (s : jstr).

(** [setFormData({ ...formData, field: value })] *)
Definition set_field (d : ticket_data) (f : form_field) : ticket_data :=
  match f with
  | FTitle s => TicketData s (td_description d) (td_category d) (td_priority d) (td_requesterName d) (td_requesterEmail d)
  | FDescription s => TicketData (td_title d) s (td_category d) (td_priority d) (td_requesterName d) (td_requesterEmail d)
  | FCategory s => TicketData (td_title d) (td_description d) s (td_priority d) (td_requesterName d) (td_requesterEmail d)
  | FPriority p => TicketData (td_title d) (td_description d) (td_category d) p (td_requesterName d) (td_requesterEmail d)
  | FRequesterName s => TicketData (td_title d) (td_description d) (td_category d) (td_priority d) (JStr s) (td_requesterEmail d)
  | FRequesterEmail s => TicketData (td_title d) (td_description d) (td_category d) (td_priority d) (td_requesterName d) s
  end.

(** ** [TicketDetails] *)

Record details_state := DetailsState { isEditing : bool; editedTicket : Ticket }.

Definition set_status (t : Ticket) (s : status) : Ticket :=
  MkTicket (id t) (title t) (description t) (category t) (tk_priority t) s
    (createdAt t) (updatedAt t) (requesterName t) (requesterEmail t) (assignedTo t).
Definition set_priority (t : Ticket) (p : priority) : Ticket :=
  MkTicket (id t) (title t) (description t) (category t) p (tk_status t)
    (createdAt t) (updatedAt t) (requesterName t) (requesterEmail t) (assignedTo t).
Definition set_assigned (t : Ticket) (a : jstr) : Ticket :=
  MkTicket (id t) (title t) (description t) (category t) (tk_priority t) (tk_status t)
    (createdAt t) (updatedAt t) (requesterName t) (requesterEmail t) (Some a).

(** ** The page and its mounted children *)

Inductive tab := TabList | TabNew.

Record page_state := PageState {
  pg_tickets : list Ticket;
  pg_selected : option Ticket;
  pg_tab : tab;
  pg_details : option details_state;  (* [TicketDetails], mounted on the list tab with a selection *)
  pg_filters : option filter_state;   (* [TicketList], mounted on the list tab *)
  pg_form : option form_state;        (* [TicketForm], mounted on the new-ticket tab *)
  pg_submit_timers : nat              (* pending [setTimeout(() => setSubmitted(false), 3000)] *)
}.

(** React's reconciliation after a render: a child keeps its state while
    it stays mounted (the inactive tab's content is unmounted). *)
Definition reconcile (u : User) (ps : page_state) : page_state :=
  PageState (pg_tickets ps) (pg_selected ps) (pg_tab ps)
    (match pg_tab ps, pg_selected ps with
     | TabList, Some t => Some (default (DetailsState false t) (pg_details ps))
     | _, _ => None
     end)
    (match pg_tab ps with TabList => Some (default filters_init (pg_filters ps)) | TabNew => None end)
    (match pg_tab ps with TabNew => Some (default (form_init u) (pg_form ps)) | TabList => None end)
    (pg_submit_timers ps).

(** The page as first rendered: the fixtures, the list tab. *)
Definition page_init (u : User) : page_state :=
  reconcile u (PageState fixture_tickets None TabList None None None 0).

Definition set_tickets ps ts :=
  PageState ts (pg_selected ps) (pg_tab ps) (pg_details ps) (pg_filters ps) (pg_form ps) (pg_submit_timers ps).
Definition set_selected ps sel :=
  PageState (pg_tickets ps) sel (pg_tab ps) (pg_details ps) (pg_filters ps) (pg_form ps) (pg_submit_timers ps).
Definition set_details ps d :=
  PageState (pg_tickets ps) (pg_selected ps) (pg_tab ps) d (pg_filters ps) (pg_form ps) (pg_submit_timers ps).
Definition set_filters ps f :=
  PageState (pg_tickets ps) (pg_selected ps) (pg_tab ps) (pg_details ps) (Some f) (pg_form ps) (pg_submit_timers ps).
Definition set_form ps f :=
  PageState (pg_tickets ps) (pg_selected ps) (pg_tab ps) (pg_details ps) (pg_filters ps) (Some f) (pg_submit_timers ps).
Definition set_tab ps t :=
  PageState (pg_tickets ps) (pg_selected ps) t (pg_details ps) (pg_filters ps) (pg_form ps) (pg_submit_timers ps).
Definition set_submit_timers ps n :=
  PageState (pg_tickets ps) (pg_selected ps) (pg_tab ps) (pg_details ps) (pg_filters ps) (pg_form ps) n.

(** [handleUpdateTicket(updatedTicket)]: the list gets a fresh
    [updatedAt], the selection the ticket as passed. *)
Definition handleUpdateTicket (now : Z) (u : Ticket) (ps : page_state) : page_state :=
  set_selected (set_tickets ps (update_tickets now u (pg_tickets ps))) (Some u).

(** [handleDeleteTicket(ticketId)] *)
Definition handleDeleteTicket (tid : jstr) (ps : page_state) : page_state :=
  let ps := set_tickets ps (delete_tickets tid (pg_tickets ps)) in
  match pg_selected ps with
  | Some t => if decide (id t = tid) then set_selected ps None else ps
  | None => ps
  end.

Inductive page_action :=
| SwitchTab (t : tab)
| SelectTicket (i : nat)   (* a click on the [i]-th card shown *)
| SetSearch (s : jstr) | SetStatusFilter (s : jstr) | SetPriorityFilter (s : jstr)
| EditTicket | SetEditStatus (s : status) | SetEditPriority (p : priority) | SetEditAssigned (a : jstr)
| SaveTicket (now : Z) | CancelEdit | DeleteTicket | CloseDetails
| SetFormField (f : form_field) | SubmitForm (now : Z) | SubmittedTimer.

Section PageSteps.
  Variable toLowerCase : jstr → jstr.
  Variable user : User.

(** The page after an action, [None] when the control is not on screen
    (or is disabled). *)
Definition page_run (a : page_action) (ps : page_state) : option page_state :=
  reconcile user <$>
  match a, pg_details ps, pg_filters ps, pg_form ps with
  | SwitchTab t, _, _, _ => Some (set_tab ps t)
  | SelectTicket i, _, Some f, _ =>
      match filteredTickets toLowerCase f (pg_tickets ps) with
      | Ok shown => (λ t, set_selected ps (Some t)) <$> shown !! i
      | Throw _ => None
      end
  | SetSearch s, _, Some f, _ => Some (set_filters ps (FilterState s (statusFilter f) (priorityFilter f)))
  | SetStatusFilter s, _, Some f, _ => Some (set_filters ps (FilterState (searchTerm f) s (priorityFilter f)))
  | SetPriorityFilter s, _, Some f, _ => Some (set_filters ps (FilterState (searchTerm f) (statusFilter f) s))
  | EditTicket, Some d, _, _ =>
      if isEditing d then None else Some (set_details ps (Some (DetailsState true (editedTicket d))))
  | SetEditStatus s, Some d, _, _ =>
      if isEditing d then Some (set_details ps (Some (DetailsState true (set_status (editedTicket d) s)))) else None
  | SetEditPriority p, Some d, _, _ =>
      if isEditing d then Some (set_details ps (Some (DetailsState true (set_priority (editedTicket d) p)))) else None
  | SetEditAssigned x, Some d, _, _ =>
      if isEditing d then Some (set_details ps (Some (DetailsState true (set_assigned (editedTicket d) x)))) else None
  (** [handleSave]: [onUpdateTicket(editedTicket); setIsEditing(false)] *)
  | SaveTicket now, Some d, _, _ =>
      if isEditing d then
        Some (set_details (handleUpdateTicket now (editedTicket d) ps) (Some (DetailsState false (editedTicket d))))
      else None
  (** [handleCancel]: back to the ticket shown *)
  | CancelEdit, Some d, _, _ =>
      match pg_selected ps with
      | Some t => if isEditing d then Some (set_details ps (Some (DetailsState false t))) else None
      | None => None
      end
  | DeleteTicket, Some _, _, _ =>
      match pg_selected ps with Some t => Some (handleDeleteTicket (id t) ps) | None => None end
  | CloseDetails, Some _, _, _ => Some (set_selected ps None)
  | SetFormField fld, _, _, Some fm => Some (set_form ps (FormState (set_field (formData fm) fld) (submitted fm)))
  (** [handleSubmit], reachable only through the enabled submit button *)
  | SubmitForm now, _, _, Some fm =>
      if isFormValid (formData fm) then
        Some (set_submit_timers
                (set_form (set_tickets ps (handleCreateTicket now (formData fm) (pg_tickets ps)))
                   (FormState (form_data_init user) true))
                (S (pg_submit_timers ps)))
      else None
  | SubmittedTimer, _, _, _ =>
      match pg_submit_timers ps with
      | O => None
      | S n =>
          let ps := set_submit_timers ps n in
          Some (match pg_form ps with
                | Some fm => set_form ps (FormState (formData fm) false)
                | None => ps
                end)
      end
  | _, _, _, _ => None
  end.

Inductive page_step (ps : page_state) : page_state → Prop :=
| page_step_run a ps' : page_run a ps = Some ps' → page_step ps ps'.

End PageSteps.

(** ** [TicketCard] *)

Definition priority_label (p : priority) : jstr :=
  match p with
  | low => "Baixa"%js | medium => "Média"%js | high => "Alta"%js | urgent => "Urgente"%js
  end.

Definition status_label (s : status) : jstr :=
  match s with
  | open => "Aberto"%js | in_progress => "Em Andamento"%js
  | resolved => "Resolvido"%js | closed => "Fechado"%js
  end.

Definition plural (n : Z) : jstr := if 1 <? n then "s"%js else [].

(** [getTimeAgo(date)] at time [now]; [Math.floor] is [Z.div]. *)
Definition getTimeAgo (now date : Z) : jstr :=
  let diffInMs := now - date in
  let diffInMinutes := diffInMs / 60000 in
  let diffInHours := diffInMinutes / 60 in
  let diffInDays := diffInHours / 24 in
  if 0 <? diffInDays then "há "%js ++ Z_toString diffInDays ++ " dia"%js ++ plural diffInDays
  else if 0 <? diffInHours then "há "%js ++ Z_toString diffInHours ++ " hora"%js ++ plural diffInHours
  else if 0 <? diffInMinutes then "há "%js ++ Z_toString diffInMinutes ++ " minuto"%js ++ plural diffInMinutes
  else "agora mesmo"%js.

(** What a card shows (lines 25-68): title, description, priority label,
    status label, requester, age, category, and the selection border. *)
Record card_view := CardView {
  cv_title : jstr; cv_description : jstr; cv_priority : jstr; cv_status : jstr;
  cv_requester : json; cv_timeAgo : jstr; cv_category : jstr; cv_selected : bool
}.

Definition TicketCard (now : Z) (t : Ticket) (isSelected : bool) : card_view :=
  CardView (title t) (description t) (priority_label (tk_priority t)) (status_label (tk_status t))
    (requesterName t) (getTimeAgo now (createdAt t)) (category t) isSelected.

(** ** Ticket ids: decimal strings of the creation time *)

(** Round trip: a ticket id [Date.now().toString()] reads back as
    the creation time. *)
Lemma Z_toString_roundtrip n : 0 ≤ n → digits_value (Z_toString n) = n.
Proof.
  intros Hn. unfold Z_toString. rewrite digits_of_value by (split; [done|by apply pow10_gt]).
  simpl. change (digits_value []) with 0. lia.
Qed.

(** ** Creating, updating, deleting *)

(** C22. Ids are creation times in milliseconds: two tickets created in
    the same millisecond share their id, and deleting either deletes
    both. *)
Theorem same_instant_tickets_share_id now d1 d2 ts :
  let ts2 := handleCreateTicket now d2 (handleCreateTicket now d1 ts) in
  (match ts2 with t2 :: t1 :: _ => id t2 = id t1 | _ => False end) ∧
  delete_tickets (Z_toString now) ts2 = delete_tickets (Z_toString now) ts.
Proof.
  simpl. split; [done|]. unfold delete_tickets. simpl.
  by rewrite bool_decide_eq_true_2 by done.
Qed.

(** A run of actions. *)
Fixpoint page_runs (lower : jstr → jstr) (u : User) (l : list page_action) (ps : page_state)
    : option page_state :=
  match l with
  | [] => Some ps
  | a :: r => ps' ← page_run lower u a ps; page_runs lower u r ps'
  end.

(** C23. [TicketDetails] keeps the ticket it was first given: after
    selecting [a] and then [b], editing and saving writes [a] (with a new
    [updatedAt]) over the list's [a] and selects [a] again, although the
    ticket clicked last was [b]. *)
Theorem save_writes_first_selected lower u ps f shown i j a b now :
  pg_tab ps = TabList → pg_details ps = None → pg_filters ps = Some f →
  filteredTickets lower f (pg_tickets ps) = Ok shown → shown !! i = Some a → shown !! j = Some b →
  ∃ ps', page_runs lower u [SelectTicket i; SelectTicket j; EditTicket; SaveTicket now] ps = Some ps' ∧
    pg_selected ps' = Some a ∧ pg_tickets ps' = update_tickets now a (pg_tickets ps).
Proof.
  destruct ps as [ts sel tb det flt frm n]; simpl. intros -> -> -> Hs Hi Hj.
  eexists. split.
  { unfold page_runs, page_run. cbn -[filteredTickets]. rewrite Hs. cbn -[filteredTickets].
    rewrite Hi. cbn -[filteredTickets]. rewrite Hs. cbn -[filteredTickets]. rewrite Hj.
    reflexivity. }
  split; reflexivity.
Qed.

(** C21. Ticket ids are creation times written in decimal, and they
    tell creation times apart: tickets created at instants [now1] and
    [now2] (milliseconds since the epoch) get the same id exactly when
    they are created in the same millisecond. *)
Theorem ticket_id_determines_instant now1 now2 d1 d2 ts1 ts2 :
  0 ≤ now1 → 0 ≤ now2 →
  id <$> head (handleCreateTicket now1 d1 ts1) = id <$> head (handleCreateTicket now2 d2 ts2) ↔ now1 = now2.
Proof.
  intros H1 H2. simpl. split; [|by intros ->]. intros [= E].
  by rewrite <- (Z_toString_roundtrip now1), <- (Z_toString_roundtrip now2), E.
Qed.

Lemma update_tickets_elem now u ts x :
  x ∈ update_tickets now u ts ↔ ∃ t, t ∈ ts ∧ x = if decide (id t = id u) then with_updatedAt u now else t.
Proof.
  unfold update_tickets. rewrite list_elem_of_In, in_map_iff.
  setoid_rewrite list_elem_of_In. naive_solver.
Qed.

(** C24. [handleUpdateTicket] stamps the list's copy and selects the
    copy without the stamp: after editing and saving the ticket [t] the
    details panel shows, the list holds [t] with [updatedAt] the time of
    the save, while the selected ticket is [t] as it was, with its old
    [updatedAt], a ticket the list no longer holds. *)
Theorem save_selects_stale_ticket lower u ps t now :
  pg_tab ps = TabList → pg_selected ps = Some t → pg_details ps = Some (DetailsState false t) →
  t ∈ pg_tickets ps → updatedAt t ≠ now →
  ∃ ps', page_runs lower u [EditTicket; SaveTicket now] ps = Some ps' ∧
    pg_selected ps' = Some t ∧
    (∃ t', t' ∈ pg_tickets ps' ∧ id t' = id t ∧ updatedAt t' = now) ∧
    t ∉ pg_tickets ps'.
Proof.
  destruct ps as [ts sel tb det flt frm n]; simpl. intros -> -> -> Ht Hu.
  eexists. split; [reflexivity|]. cbn [pg_selected pg_tickets]. split; [done|]. split.
  - exists (with_updatedAt t now). split; [|done].
    apply update_tickets_elem. exists t. split; [done|]. by rewrite decide_True.
  - intros (t0 & _ & E)%update_tickets_elem. case_decide.
    + apply (f_equal updatedAt) in E. simpl in E. congruence.
    + subst. done.
Qed.

(** C25. Deleting the ticket the details panel shows removes every
    ticket with its id, keeps the others, and closes the panel. *)
Theorem delete_selected_ticket lower u ps d t :
  pg_details ps = Some d → pg_selected ps = Some t →
  ∃ ps', page_run lower u DeleteTicket ps = Some ps' ∧
    pg_selected ps' = None ∧ pg_details ps' = None ∧
    ∀ x, x ∈ pg_tickets ps' ↔ x ∈ pg_tickets ps ∧ id x ≠ id t.
Proof.
  destruct ps as [ts sel tb det flt frm n]; simpl. intros -> ->.
  eexists. split; [reflexivity|]. unfold handleDeleteTicket. simpl. rewrite decide_True by done.
  simpl. split; [done|]. split; [by destruct tb|].
  intros x. unfold delete_tickets. rewrite list_elem_of_In, filter_In, <- list_elem_of_In.
  by rewrite negb_true_iff, bool_decide_eq_false.
Qed.

(** ** The list's search *)

(** A requester name that is not a string (the signed-in user's
    [name] claim, copied by the form) makes the list's search throw
    [TypeError] as soon as the search term matches neither the title nor
    the description of that ticket.  In the application as assembled the
    page is never reached with such a user: [MainLayout]'s header throws
    first, at [user.name.split] (see Layout). *)
Lemma non_string_requester_crashes_search lower f t ts :
  (∀ s, requesterName t ≠ JStr s) →
  includes (lower (title t)) (lower (searchTerm f)) = false →
  includes (lower (description t)) (lower (searchTerm f)) = false →
  filteredTickets lower f (t :: ts) = Throw to_lower_error.
Proof.
  intros Hn Ht Hd. simpl. unfold ticket_matches, matchesSearch. rewrite Ht, Hd.
  destruct (requesterName t); try reflexivity. by destruct (Hn s).
Qed.

(** ** Ages and counts *)

(** A ticket created less than a minute ago, or dated in the
    future, is shown as created ["agora mesmo"]. *)
Theorem getTimeAgo_recent now date : now - date < 60000 → getTimeAgo now date = "agora mesmo"%js.
Proof.
  intros Hd. unfold getTimeAgo.
  assert (Hm : (now - date) / 60000 < 1) by (apply Z.div_lt_upper_bound; lia).
  assert (Hh : (now - date) / 60000 / 60 ≤ 0) by (apply Z.div_le_upper_bound; lia).
  assert (Hy : (now - date) / 60000 / 60 / 24 ≤ 0) by (apply Z.div_le_upper_bound; lia).
  destruct (Z.ltb_spec 0 ((now - date) / 60000 / 60 / 24)); [lia|].
  destruct (Z.ltb_spec 0 ((now - date) / 60000 / 60)); [lia|].
  destruct (Z.ltb_spec 0 ((now - date) / 60000)); [lia|]. reflexivity.
Qed.

Lemma count_status_split ts :
  (count_status open ts + count_status in_progress ts + count_status resolved ts +
   count_status closed ts)%nat = length ts.
Proof.
  unfold count_status. induction ts as [|t ts IH]; [done|]. simpl.
  destruct (tk_status t); rewrite ?bool_decide_eq_true_2 by done;
    rewrite ?bool_decide_eq_false_2 by done; simpl; lia.
Qed.

(** The page's counters: the total is the number of open, in
    progress and resolved tickets plus the closed ones, which have no
    counter. *)
Theorem stats_total ts :
  let s := stats_of ts in
  total s = (st_open s + st_inProgress s + st_resolved s + count_status closed ts)%nat.
Proof. simpl. symmetry. apply count_status_split. Qed.

(** ** Every ticket has its required fields *)

(** The fields the form requires ([isFormValid]). *)
Definition ticket_ok (t : Ticket) : Prop :=
  title t ≠ [] ∧ description t ≠ [] ∧ category t ≠ [] ∧
  truthy (Some (requesterName t)) = true ∧ requesterEmail t ≠ [].

Record page_inv (ps : page_state) : Prop := {
  inv_tickets : Forall ticket_ok (pg_tickets ps);
  inv_selected : ∀ t, pg_selected ps = Some t → ticket_ok t;
  inv_details : ∀ d, pg_details ps = Some d → ticket_ok (editedTicket d)
}.

Lemma create_ok now d ts :
  isFormValid d = true → Forall ticket_ok ts → Forall ticket_ok (handleCreateTicket now d ts).
Proof.
  unfold isFormValid. rewrite !andb_true_iff, !bool_decide_eq_true.
  intros ((((? & ?) & ?) & ?) & ?) Hts. constructor; [|done]. by repeat split.
Qed.

Lemma with_updatedAt_ok t now : ticket_ok t → ticket_ok (with_updatedAt t now).
Proof. done. Qed.
Lemma set_status_ok t s : ticket_ok t → ticket_ok (set_status t s).
Proof. done. Qed.
Lemma set_priority_ok t p : ticket_ok t → ticket_ok (set_priority t p).
Proof. done. Qed.
Lemma set_assigned_ok t x : ticket_ok t → ticket_ok (set_assigned t x).
Proof. done. Qed.

Lemma update_ok now u ts : ticket_ok u → Forall ticket_ok ts → Forall ticket_ok (update_tickets now u ts).
Proof.
  intros Hu Hts. apply Forall_map. eapply Forall_impl; [exact Hts|].
  intros t Ht. case_decide; [by apply with_updatedAt_ok|done].
Qed.

Lemma delete_ok tid ts : Forall ticket_ok ts → Forall ticket_ok (delete_tickets tid ts).
Proof.
  intros Hts. apply List.Forall_forall. intros t (Ht & _)%filter_In.
  by apply (proj1 (List.Forall_forall _ _) Hts).
Qed.

Lemma filteredTickets_sub lower f ts shown :
  filteredTickets lower f ts = Ok shown → ∀ t, t ∈ shown → t ∈ ts.
Proof.
  revert shown. induction ts as [|t ts IH]; simpl; intros shown Hs x Hx.
  - injection Hs as <-. by apply not_elem_of_nil in Hx.
  - destruct (ticket_matches lower f t) as [keep|]; [|discriminate].
    destruct (filteredTickets lower f ts) as [rest|]; [|discriminate]. injection Hs as <-.
    destruct keep; [apply elem_of_cons in Hx as [->|Hx]; [by left|]|]; right; by eapply IH.
Qed.

(** The search only throws on a requester name that is not a string. *)
Lemma filteredTickets_string_names lower f ts :
  Forall (λ t, ∃ n, requesterName t = JStr n) ts → is_ok (filteredTickets lower f ts) = true.
Proof.
  induction 1 as [|t ts [n Hn] _ IH]; [done|]. simpl.
  unfold ticket_matches, matchesSearch. rewrite Hn.
  destruct (filteredTickets lower f ts); [|done]. by repeat case_match.
Qed.

#[export] Hint Resolve create_ok with_updatedAt_ok set_status_ok set_priority_ok set_assigned_ok
  update_ok delete_ok : helpdesk.

Lemma reconcile_inv u ps : page_inv ps → page_inv (reconcile u ps).
Proof.
  intros [Ht Hs Hd]. split; simpl; [done|done|].
  intros d. destruct (pg_tab ps), (pg_selected ps) as [t|] eqn:E; try discriminate.
  destruct (pg_details ps) as [d0|]; simpl; intros [= <-]; [by apply Hd|by apply Hs].
Qed.

Lemma shown_ok lower f ts shown i t :
  filteredTickets lower f ts = Ok shown → shown !! i = Some t → Forall ticket_ok ts → ticket_ok t.
Proof.
  intros Hs Hi Hts. apply list_elem_of_lookup_2 in Hi. apply (filteredTickets_sub _ _ _ _ Hs) in Hi.
  by apply (proj1 (Forall_forall _ _) Hts).
Qed.

Lemma handleDeleteTicket_inv tid ps : page_inv ps → page_inv (handleDeleteTicket tid ps).
Proof.
  intros [Ht Hs Hd]. unfold handleDeleteTicket. simpl.
  destruct (pg_selected ps) as [t|] eqn:E; [case_decide|]; split; simpl; rewrite ?E; auto with helpdesk;
    by intros ? [=].
Qed.

Lemma page_run_inv lower u a ps ps' : page_inv ps → page_run lower u a ps = Some ps' → page_inv ps'.
Proof.
  intros Hinv H. unfold page_run in H. apply fmap_Some in H as (ps0 & H & ->).
  apply reconcile_inv. destruct ps as [ts sel tb det flt frm n]. destruct Hinv as [Ht Hs Hd]; simpl in *.
  destruct a; destruct det as [dd|], flt as [ff|], frm as [fm|]; simpl in H; try discriminate H;
    repeat (case_match; try discriminate H);
    try (apply fmap_Some in H as (?t & ?Hi & ->)); simplify_eq;
    try (specialize (Hd _ eq_refl));
    try (apply handleDeleteTicket_inv; split; simpl; [done|done|intros ? [= <-]; done]); split; simpl;
    try (intros ?? ; simplify_eq/=); eauto using shown_ok with helpdesk.
Qed.

Lemma fixtures_ok : Forall ticket_ok fixture_tickets.
Proof. repeat constructor; discriminate. Qed.

(** C28. Every ticket the page holds has the fields the form requires
    (title, description, category, requester name and e-mail): the
    fixtures do, the form only submits a valid [formData], and editing
    changes only status, priority and assignee. *)
Theorem tickets_required_fields lower u ps :
  rtc (page_step lower u) (page_init u) ps → Forall ticket_ok (pg_tickets ps).
Proof.
  intros Hr. enough (Hinv : page_inv ps) by apply Hinv.
  remember (page_init u) as ps0 eqn:E.
  assert (H0 : page_inv ps0).
  { subst. apply reconcile_inv. split; simpl; [apply fixtures_ok|done|done]. }
  clear E. induction Hr as [|s1 s2 s3 [a s2' Ha] _ IH]; [done|].
  apply IH. by eapply page_run_inv.
Qed.

Lemma page_runs_rtc lower u l ps ps' :
  page_runs lower u l ps = Some ps' → rtc (page_step lower u) ps ps'.
Proof.
  revert ps. induction l as [|a l IH]; simpl; intros ps H; [by injection H as <-|].
  destruct (page_run lower u a ps) as [ps1|] eqn:E; [|discriminate].
  eapply rtc_l; [by econstructor|]. by apply IH.
Qed.

(** ** Concrete pages *)

(** An ASCII-only [toLowerCase] for the examples. *)
Definition ascii_lower (s : jstr) : jstr :=
  map (λ c, if (65 <=? c) && (c <=? 90) then c + 32 else c) s.

Definition tickets_user : User := MkUser "ana@example-corp.example"%js (JStr "Ana Lima"%js) None.
Definition numeric_user : User := MkUser "num@example-corp.example"%js (JNum (JNumLit false 42 0)) None.
Definition demo_now : Z := 1763600000000.

Definition new_ticket_actions : list page_action :=
  [SwitchTab TabNew; SetFormField (FTitle "Impressora sem toner"%js);
   SetFormField (FDescription "A impressora do 2º andar está sem toner"%js);
   SetFormField (FCategory "Hardware"%js); SubmitForm demo_now; SwitchTab TabList].

Definition page_after_new (u : User) : page_state :=
  default (page_init u) (page_runs ascii_lower u new_ticket_actions (page_init u)).

Lemma Z_toString_roundtrip_witness :
  0 ≤ demo_now ∧ Z_toString demo_now = "1763600000000"%js ∧ digits_value (Z_toString demo_now) = demo_now.
Proof.
  split; [unfold demo_now; lia|]. split; [vm_compute; reflexivity|].
  apply Z_toString_roundtrip. unfold demo_now. lia.
Defined.

Lemma save_writes_first_selected_witness :
  filteredTickets ascii_lower filters_init fixture_tickets = Ok fixture_tickets ∧
  ∃ ps', page_runs ascii_lower tickets_user [SelectTicket 0; SelectTicket 1; EditTicket; SaveTicket demo_now]
           (page_init tickets_user) = Some ps' ∧
    pg_selected ps' = Some ticket1 ∧ pg_tickets ps' = update_tickets demo_now ticket1 fixture_tickets.
Proof.
  assert (Hs : filteredTickets ascii_lower filters_init fixture_tickets = Ok fixture_tickets)
    by (vm_compute; reflexivity).
  split; [exact Hs|].
  apply (save_writes_first_selected ascii_lower tickets_user (page_init tickets_user) filters_init
           fixture_tickets 0 1 ticket1 ticket2 demo_now); reflexivity || exact Hs.
Defined.

(** The ticket a user whose [name] claim is the number [42] creates. *)
Definition numeric_ticket : Ticket :=
  MkTicket (Z_toString demo_now) "Impressora sem toner"%js "A impressora do 2º andar está sem toner"%js
    "Hardware"%js medium open demo_now demo_now (user_name numeric_user) (user_email numeric_user) None.

Lemma non_string_requester_crashes_search_witness :
  isFormValid (TicketData "Impressora sem toner"%js "A impressora do 2º andar está sem toner"%js
                 "Hardware"%js medium (user_name numeric_user) (user_email numeric_user)) = true ∧
  filteredTickets ascii_lower (FilterState "toner azul"%js "all"%js "all"%js) (numeric_ticket :: fixture_tickets)
    = Throw to_lower_error.
Proof.
  split; [vm_compute; reflexivity|].
  apply non_string_requester_crashes_search.
  - intros s Hs. discriminate Hs.
  - vm_compute. reflexivity.
  - vm_compute. reflexivity.
Defined.

Lemma getTimeAgo_recent_witness :
  demo_now - (demo_now + 3600000) < 60000 ∧ getTimeAgo demo_now (demo_now + 3600000) = "agora mesmo"%js.
Proof.
  split; [unfold demo_now; lia|]. apply getTimeAgo_recent. unfold demo_now. lia.
Defined.

Lemma tickets_required_fields_witness :
  rtc (page_step ascii_lower tickets_user) (page_init tickets_user) (page_after_new tickets_user) ∧
  length (pg_tickets (page_after_new tickets_user)) = 4%nat ∧
  Forall ticket_ok (pg_tickets (page_after_new tickets_user)).
Proof.
  assert (Hr : rtc (page_step ascii_lower tickets_user) (page_init tickets_user) (page_after_new tickets_user)).
  { apply (page_runs_rtc _ _ new_ticket_actions). vm_compute. reflexivity. }
  split; [exact Hr|]. split; [vm_compute; reflexivity|].
  exact (tickets_required_fields _ _ _ Hr).
Defined.

Lemma ticket_id_determines_instant_witness :
  id <$> head (handleCreateTicket demo_now (form_data_init tickets_user) fixture_tickets) ≠
  id <$> head (handleCreateTicket (demo_now + 1) (form_data_init tickets_user) fixture_tickets).
Proof.
  intros E. apply (ticket_id_determines_instant demo_now (demo_now + 1)) in E; unfold demo_now in *; lia.
Defined.

(** The list tab with the first fixture selected. *)
Definition page_ticket1_selected : page_state :=
  default (page_init tickets_user) (page_runs ascii_lower tickets_user [SelectTicket 0] (page_init tickets_user)).

Lemma page_ticket1_selected_tickets : pg_tickets page_ticket1_selected = fixture_tickets.
Proof. vm_compute. reflexivity. Qed.

Lemma save_selects_stale_ticket_witness :
  ∃ ps', page_runs ascii_lower tickets_user [EditTicket; SaveTicket demo_now] page_ticket1_selected = Some ps' ∧
    pg_selected ps' = Some ticket1 ∧
    (∃ t', t' ∈ pg_tickets ps' ∧ id t' = id ticket1 ∧ updatedAt t' = demo_now) ∧
    ticket1 ∉ pg_tickets ps'.
Proof.
  apply save_selects_stale_ticket; [vm_compute; reflexivity..| |].
  - rewrite page_ticket1_selected_tickets. constructor.
  - unfold demo_now. simpl. unfold nov19. lia.
Defined.

Lemma delete_selected_ticket_witness :
  ∃ ps', page_run ascii_lower tickets_user DeleteTicket page_ticket1_selected = Some ps' ∧
    pg_selected ps' = None ∧ pg_details ps' = None ∧
    ∀ x, x ∈ pg_tickets ps' ↔ x ∈ pg_tickets page_ticket1_selected ∧ id x ≠ id ticket1.
Proof. apply (delete_selected_ticket _ _ _ (DetailsState false ticket1)); vm_compute; reflexivity. Defined.
