(* ===== verification/LegacyLogin.v ===== *)
(** * The legacy login page ([login-page-old.tsx])

    The page predating Google Sign-In: the user types an e-mail, and one
    second after submitting, the timer's callback checks the domain
    suffix, tests the e-mail against [/^[^\s@]+@[^\s@]+\.[^\s@]+$/],
    derives a display name from the local part and calls [onLogin].

    The regular expression is modelled twice: [emailRegex_lang] is the
    language it denotes, [emailRegex_test] the executable check, and
    [emailRegex_test_spec] proves them equal.  [encodeURIComponent]
    follows ECMAScript's [Encode]; its output has only unreserved units
    and escapes ([encodeURIComponent_safe]).  The page is the step
    relation [legacy_step]; its reachable states satisfy [timer_inv], and
    with the browser's check of [type="email"] ([html_email_valid], from
    the HTML standard) a loading page always ends loading
    ([legacy_submit_settles]).  [String.prototype.toUpperCase] (Unicode
    case mapping) is a parameter. *)

From stdpp Require Import relations.
From S2P Require Import Prelude Js JsonValue TokenValidator.

(** ** The regular expression *)

(** [\s]: the ECMAScript white space and line terminators. *)
Definition js_space (u : Z) : bool :=
  bool_decide (u = 9 ∨ u = 10 ∨ u = 11 ∨ u = 12 ∨ u = 13 ∨ u = 32 ∨ u = 0xA0 ∨ u = 0x1680 ∨
               (0x2000 ≤ u ≤ 0x200A) ∨ u = 0x2028 ∨ u = 0x2029 ∨ u = 0x202F ∨ u = 0x205F ∨
               u = 0x3000 ∨ u = 0xFEFF).

(** [[^\s@]] *)
Definition regex_char (u : Z) : bool := negb (js_space u) && negb (u =? ch_at).

(** The language of [^[^\s@]+@[^\s@]+\.[^\s@]+$]. *)
Definition emailRegex_lang (s : jstr) : Prop :=
  ∃ a b c, s = a ++ [ch_at] ++ b ++ [ch_dot] ++ c ∧ a ≠ [] ∧ b ≠ [] ∧ c ≠ [] ∧
           Forall (λ u, regex_char u = true) (a ++ b ++ [ch_dot] ++ c).

(** A ['.'] with at least one unit on each side. *)
Fixpoint dot_inside (d : jstr) : bool :=
  match d with
  | x :: (y :: z :: _) as r => bool_decide (y = ch_dot) || dot_inside r
  | _ => false
  end.

(** [emailRegex.test(email)]: one ['@'] splits the e-mail into a local
    part and a domain, neither empty, with no white space or ['@'], the
    domain having an inner ['.']. *)
Definition emailRegex_test (s : jstr) : bool :=
  match split_on ch_at s with
  | [a; d] => bool_decide (a ≠ []) && forallb regex_char a && forallb regex_char d && dot_inside d
  | _ => false
  end.

(** ** The browser's check of [<input type="email">]

    A form with an invalid [required] e-mail input is not submitted.
    The HTML standard's "valid e-mail address": a local part of
    [[a-zA-Z0-9.!#$%&'*+/=?^_`{|}~-]+], ['@'], and dot-separated labels
    of 1 to 63 letters, digits and ['-'], not starting or ending with
    ['-']. *)
Definition is_alnum (u : Z) : bool :=
  ((48 <=? u) && (u <=? 57)) || ((65 <=? u) && (u <=? 90)) || ((97 <=? u) && (u <=? 122)).

Definition email_atext (u : Z) : bool :=
  is_alnum u || bool_decide (u ∈ [46; 33; 35; 36; 37; 38; 39; 42; 43; 47; 61; 63; 94; 95; 96; 123; 124; 125; 126; 45]).

Definition email_label (l : jstr) : bool :=
  bool_decide (1 ≤ length l ≤ 63)%nat && forallb (λ u, is_alnum u || (u =? 45)) l &&
  match head l, last l with Some x, Some y => is_alnum x && is_alnum y | _, _ => false end.

Definition html_email_valid (e : jstr) : bool :=
  match split_on ch_at e with
  | [l; d] => bool_decide (l ≠ []) && forallb email_atext l && forallb email_label (split_on ch_dot d)
  | _ => false
  end.

(** ** The page *)

Definition grupolgh : jstr := "@grupolgh.com.br"%js.
Definition domain_error : jstr := "Apenas emails do domínio @grupolgh.com.br são permitidos."%js.
Definition format_error : jstr := "Por favor, insira um email válido."%js.

Section Page.
  (** [String.prototype.toUpperCase] *)
  Variable toUpperCase : jstr → jstr.

(** [part.charAt(0).toUpperCase() + part.slice(1)] *)
Definition capitalize (part : jstr) : jstr :=
  match part with
  | [] => toUpperCase []
  | c :: r => toUpperCase [c] ++ r
  end.

(** [email.split('@')[0].split('.').map(capitalize).join(' ')] *)
Definition derive_name (email : jstr) : jstr :=
  join_on ch_space (map capitalize (split_on ch_dot (split_first ch_at email))).

(** [encodeURIComponent(s)] (ECMAScript's [Encode] with the unreserved
    set [A-Za-z0-9-_.!~*'()]): every other code point is written as the
    [%XX] escapes of its UTF-8 bytes; a surrogate pair is one code point,
    and an unpaired surrogate throws [URIError]. *)
Definition uri_unreserved (u : Z) : bool :=
  ((65 <=? u) && (u <=? 90)) || ((97 <=? u) && (u <=? 122)) || ((48 <=? u) && (u <=? 57)) ||
  bool_decide (u = 45 ∨ u = 95 ∨ u = 46 ∨ u = 33 ∨ u = 126 ∨ u = 42 ∨ u = 39 ∨ u = 40 ∨ u = 41).

(** The UTF-8 bytes of a code point, as integers. *)
Definition utf8_bytes (cp : Z) : list Z :=
  if cp <? 0x80 then [cp]
  else if cp <? 0x800 then [0xC0 + cp / 64; 0x80 + cp mod 64]
  else if cp <? 0x10000 then [0xE0 + cp / 4096; 0x80 + (cp / 64) mod 64; 0x80 + cp mod 64]
  else [0xF0 + cp / 262144; 0x80 + (cp / 4096) mod 64; 0x80 + (cp / 64) mod 64; 0x80 + cp mod 64].

(** An upper-case hexadecimal digit. *)
Definition hex_digit (n : Z) : Z := if n <? 10 then 48 + n else 55 + n.

Definition percent_byte (b : Z) : jstr := [37; hex_digit (b / 16); hex_digit (b mod 16)].

Definition percent_encode (cp : Z) : jstr := concat (map percent_byte (utf8_bytes cp)).

Definition is_high_surrogate (u : Z) : bool := (0xD800 <=? u) && (u <=? 0xDBFF).
Definition is_low_surrogate (u : Z) : bool := (0xDC00 <=? u) && (u <=? 0xDFFF).

Definition uri_error : exn := JsErr "URIError"%js "URI malformed"%js.

Fixpoint encodeURIComponent (s : jstr) : res exn jstr :=
  match s with
  | [] => Ok []
  | u :: r =>
      if uri_unreserved u then (λ t, u :: t) <$> encodeURIComponent r
      else if is_low_surrogate u then Throw uri_error
      else if is_high_surrogate u then
        match r with
        | v :: r' =>
            if is_low_surrogate v then
              (λ t, percent_encode (0x10000 + (u - 0xD800) * 0x400 + (v - 0xDC00)) ++ t) <$> encodeURIComponent r'
            else Throw uri_error
        | [] => Throw uri_error
        end
      else (λ t, percent_encode u ++ t) <$> encodeURIComponent r
  end.

Inductive callback_outcome :=
| CbError (msg : jstr)                       (* [setError(msg); setIsLoading(false)] *)
| CbLogin (email name picture : jstr)        (* [onLogin({ email, name, picture }); setIsLoading(false)] *)
| CbUncaught (e : exn).                      (* thrown out of the callback: nothing more runs *)

(** The timer's callback, for the e-mail of the submit. *)
Definition login_callback (email : jstr) : callback_outcome :=
  if negb (ends_with email grupolgh) then CbError domain_error
  else if negb (emailRegex_test email) then CbError format_error
  else
    let name := derive_name email in
    match encodeURIComponent name with
    | Ok enc => CbLogin email name ("https://ui-avatars.com/api/?name="%js ++ enc ++ "&background=2563eb&color=fff"%js)
    | Throw e => CbUncaught e
    end.

Record legacy_state := LegacyState {
  lg_email : jstr;
  lg_error : jstr;
  lg_isLoading : bool;
  lg_timer : option jstr;                 (* the pending callback and the e-mail it closes over *)
  lg_user : option (jstr * jstr * jstr)   (* what [onLogin] received *)
}.

Definition legacy_init : legacy_state := LegacyState [] [] false None None.

Inductive legacy_action := TypeEmail (s : jstr) | Submit | TimerFires.

Section Steps.
  (** The browser's constraint validation of [<input type="email" required>]. *)
  Variable input_valid : jstr → bool.

Definition legacy_run (a : legacy_action) (st : legacy_state) : option legacy_state :=
  match a with
  (** the input is disabled while loading *)
  | TypeEmail s => if lg_isLoading st then None else Some (LegacyState s (lg_error st) false (lg_timer st) (lg_user st))
  (** [handleGoogleLogin]: the button is disabled while loading *)
  | Submit =>
      if lg_isLoading st || negb (input_valid (lg_email st)) then None
      else Some (LegacyState (lg_email st) [] true (Some (lg_email st)) (lg_user st))
  | TimerFires =>
      match lg_timer st with
      | None => None
      | Some e =>
          Some (match login_callback e with
                | CbError msg => LegacyState (lg_email st) msg false None (lg_user st)
                | CbLogin em n pic => LegacyState (lg_email st) (lg_error st) false None (Some (em, n, pic))
                | CbUncaught _ => LegacyState (lg_email st) (lg_error st) (lg_isLoading st) None (lg_user st)
                end)
      end
  end.

Inductive legacy_step (st : legacy_state) : legacy_state → Prop :=
| legacy_step_run a st' : legacy_run a st = Some st' → legacy_step st st'.

Definition legacy_reachable : legacy_state → Prop := rtc legacy_step legacy_init.

End Steps.

End Page.

(** ** What the page shows *)

(** The form of lines 56-143: the alert shown when [error] is not
    empty, the input's value and [disabled={isLoading}], and the submit
    button's label and [disabled={isLoading}]. *)
Record legacy_view := LegacyView {
  lv_alert : option jstr;
  lv_input : jstr;
  lv_input_disabled : bool;
  lv_button : jstr;
  lv_button_disabled : bool
}.

Definition legacy_render (st : legacy_state) : legacy_view :=
  LegacyView (if decide (lg_error st = []) then None else Some (lg_error st))
    (lg_email st) (lg_isLoading st)
    (if lg_isLoading st then "Autenticando..."%js else "Entrar com Google"%js)
    (lg_isLoading st).

(** ** The regular expression and its test agree *)

Lemma forallb_regex l : forallb regex_char l = true ↔ Forall (λ u, regex_char u = true) l.
Proof. rewrite forallb_forall, List.Forall_forall. done. Qed.

Lemma regex_chars_no_at l : Forall (λ u, regex_char u = true) l → ch_at ∉ l.
Proof.
  intros Hl Hin. rewrite List.Forall_forall in Hl. apply list_elem_of_In, Hl in Hin.
  unfold regex_char in Hin. rewrite Z.eqb_refl, andb_false_r in Hin. discriminate Hin.
Qed.

Lemma dot_inside_cons x r : dot_inside r = true → dot_inside (x :: r) = true.
Proof.
  destruct r as [|y [|z t]]; try done. intros Hr.
  change (bool_decide (y = ch_dot) || dot_inside (y :: z :: t) = true). by rewrite Hr, orb_true_r.
Qed.

Lemma dot_inside_spec d : dot_inside d = true ↔ ∃ b c, d = b ++ ch_dot :: c ∧ b ≠ [] ∧ c ≠ [].
Proof.
  split.
  - induction d as [|x r IH]; [done|]. destruct r as [|y [|z t]]; [done|done|].
    simpl. rewrite orb_true_iff, bool_decide_eq_true. intros [->|H].
    + by exists [x], (z :: t).
    + destruct (IH H) as (b & c & Hr & Hb & Hc). exists (x :: b), c. by rewrite Hr.
  - intros (b & c & -> & Hb & Hc). induction b as [|x b IH]; [done|].
    destruct b as [|y b]; destruct c as [|z t]; try done.
    apply dot_inside_cons, IH. done.
Qed.

(** The executable test of [emailRegex] accepts exactly the
    language of [/^[^\s@]+@[^\s@]+\.[^\s@]+$/]. *)
Theorem emailRegex_test_spec s : emailRegex_test s = true ↔ emailRegex_lang s.
Proof.
  unfold emailRegex_test, emailRegex_lang. split.
  - destruct (split_on ch_at s) as [|a [|d [|]]] eqn:E; try done.
    apply split_on_two in E as (-> & _ & _).
    rewrite !andb_true_iff, bool_decide_eq_true, !forallb_regex, dot_inside_spec.
    intros (((Ha & Hfa) & Hfd) & (b & c & -> & Hb & Hc)). exists a, b, c.
    split; [done|]. repeat split; try done. by apply Forall_app.
  - intros (a & b & c & -> & Ha & Hb & Hc & Hf). apply Forall_app in Hf as [Hfa Hfd].
    rewrite (proj2 (split_on_two _ _ a (b ++ ch_dot :: c))).
    + rewrite !andb_true_iff, bool_decide_eq_true, !forallb_regex, dot_inside_spec.
      split; [done|]. by exists b, c.
    + split; [done|]. split; by apply regex_chars_no_at.
Qed.

(** ** Helpers on the e-mail and the encoder *)

(** The last ['@'] of a string fixes the split around it. *)
Lemma app_sep_unique_r (c : Z) (a b x y : jstr) :
  a ++ c :: x = b ++ c :: y → c ∉ x → c ∉ y → a = b ∧ x = y.
Proof.
  intros E Hx Hy. apply (f_equal reverse) in E.
  rewrite !reverse_app, !reverse_cons, <- !app_assoc in E. simpl in E.
  apply (f_equal (split_on c)) in E.
  rewrite !split_on_app_sep in E by (by rewrite elem_of_reverse).
  injection E as Exy Eab. apply (inj reverse) in Exy.
  apply (f_equal (join_on c)) in Eab. rewrite !join_split in Eab.
  by apply (inj reverse) in Eab.
Qed.

Definition grupolgh_host : jstr := "grupolgh.com.br"%js.

Lemma grupolgh_unfold : grupolgh = ch_at :: grupolgh_host.
Proof. reflexivity. Qed.

Lemma grupolgh_host_no_at : ch_at ∉ grupolgh_host.
Proof. vm_compute. intros H. repeat (apply elem_of_cons in H as [H|H]; [discriminate|]). by apply not_elem_of_nil in H. Qed.

(** On an address of the accepted domain, [emailRegex] only asks for a
    non-empty local part without white space or ['@']: the domain part
    of the expression is always met. *)
Lemma emailRegex_test_grupolgh l :
  emailRegex_test (l ++ grupolgh) = true ↔ l ≠ [] ∧ Forall (λ u, regex_char u = true) l.
Proof.
  unfold emailRegex_test. rewrite grupolgh_unfold. split.
  - destruct (split_on ch_at _) as [|a [|d [|]]] eqn:E; try done.
    apply split_on_two in E as (E & Ha & Hd).
    apply app_sep_unique_r in E as [<- <-]; [|apply grupolgh_host_no_at|done].
    rewrite !andb_true_iff, bool_decide_eq_true, forallb_regex. naive_solver.
  - intros [Hl Hf]. rewrite (proj2 (split_on_two _ _ l grupolgh_host)).
    + rewrite bool_decide_true, (proj2 (forallb_regex l)) by done. reflexivity.
    + split; [done|]. split; [by apply regex_chars_no_at | apply grupolgh_host_no_at].
Qed.

(** ** The encoder's output *)

(** A UTF-16 code unit, and an ASCII one. *)
Definition code_unit (u : Z) : Prop := 0 ≤ u ≤ 0xFFFF.
Definition ascii (u : Z) : Prop := 0 ≤ u < 128.

#[export] Instance code_unit_dec u : Decision (code_unit u).
Proof. unfold code_unit. apply _. Defined.

(** The state of the page: while a timer is pending the page is loading,
    shows the e-mail the timer closes over, and that e-mail passed the
    browser's check. *)
Definition timer_inv (input_valid : jstr → bool) (st : legacy_state) : Prop :=
  ∀ e, lg_timer st = Some e → lg_isLoading st = true ∧ e = lg_email st ∧ input_valid e = true.

(** A loading page has a pending timer. *)
Definition loading_inv (st : legacy_state) : Prop := lg_isLoading st = true → is_Some (lg_timer st).

(** What [encodeURIComponent] may output: unreserved units and ['%']. *)
Definition uri_safe (u : Z) : bool := uri_unreserved u || (u =? 37).

Lemma utf8_bytes_range cp : 0 ≤ cp < 0x110000 → Forall (λ b, 0 ≤ b < 256) (utf8_bytes cp).
Proof.
  intros Hcp. unfold utf8_bytes.
  repeat match goal with |- context [if ?c then _ else _] => destruct c eqn:? end;
    rewrite ?Z.ltb_lt, ?Z.ltb_ge in *;
    repeat constructor; Z.div_mod_to_equations; lia.
Qed.

Lemma hex_digit_unreserved n : 0 ≤ n < 16 → uri_unreserved (hex_digit n) = true.
Proof.
  intros Hn. unfold hex_digit, uri_unreserved.
  destruct (Z.ltb_spec n 10).
  - rewrite (proj2 (Z.leb_le 48 _)), (proj2 (Z.leb_le _ 57)) by lia. by rewrite !orb_true_r.
  - rewrite (proj2 (Z.leb_le 65 _)), (proj2 (Z.leb_le _ 90)) by lia. done.
Qed.

Lemma percent_byte_safe b : 0 ≤ b < 256 → Forall (λ u, uri_safe u = true) (percent_byte b).
Proof.
  intros Hb. unfold percent_byte, uri_safe.
  repeat constructor; rewrite hex_digit_unreserved; try done; Z.div_mod_to_equations; lia.
Qed.

Lemma percent_encode_safe cp :
  0 ≤ cp < 0x110000 → Forall (λ u, uri_safe u = true) (percent_encode cp).
Proof.
  intros Hcp. unfold percent_encode. pose proof (utf8_bytes_range cp Hcp) as Hb.
  induction Hb as [|b bs Hb _ IH]; [constructor|].
  cbn [map concat]. apply Forall_app_2; [by apply percent_byte_safe | done].
Qed.

Lemma surrogate_pair_range u v :
  is_high_surrogate u = true → is_low_surrogate v = true →
  0 ≤ 0x10000 + (u - 0xD800) * 0x400 + (v - 0xDC00) < 0x110000.
Proof.
  unfold is_high_surrogate, is_low_surrogate. rewrite !andb_true_iff, !Z.leb_le. lia.
Qed.

(** On a string of code units, [encodeURIComponent] outputs nothing
    but unreserved units and ['%'] (the [%XX] escapes have upper-case
    hexadecimal digits): the avatar URL's query never receives a raw
    ['&'], ['#'] or space. *)
Theorem encodeURIComponent_safe s t :
  Forall code_unit s → encodeURIComponent s = Ok t → Forall (λ u, uri_safe u = true) t.
Proof.
  revert t. induction s as [s IH] using (well_founded_ind (Wf_nat.well_founded_ltof _ (@length Z))).
  unfold Wf_nat.ltof in IH. intros t Hs.
  destruct s as [|u r]; [intros [= <-]; constructor|]. cbn [encodeURIComponent].
  apply Forall_cons in Hs as [Hu Hr]. unfold code_unit in Hu.
  destruct (uri_unreserved u) eqn:Hun.
  - rewrite fmap_Ok. intros (t' & Ht' & ->). constructor.
    + unfold uri_safe. by rewrite Hun.
    + by apply (IH r); [simpl; lia|..].
  - destruct (is_low_surrogate u) eqn:Hlo; [done|]. destruct (is_high_surrogate u) eqn:Hhi.
    + destruct r as [|v r']; [done|]. destruct (is_low_surrogate v) eqn:Hv; [|done].
      rewrite fmap_Ok. intros (t' & Ht' & ->). apply Forall_app_2.
      * by apply percent_encode_safe, surrogate_pair_range.
      * apply Forall_cons in Hr as [_ Hr']. by apply (IH r'); [simpl; lia|..].
    + rewrite fmap_Ok. intros (t' & Ht' & ->). apply Forall_app_2.
      * apply percent_encode_safe. lia.
      * by apply (IH r); [simpl; lia|..].
Qed.

(** ** ASCII text stays ASCII through the name derivation *)

Lemma split_on_Forall (P : Z → Prop) c s : Forall P s → Forall (Forall P) (split_on c s).
Proof.
  induction 1 as [|x r Hx Hr IH]; simpl; [repeat constructor|].
  case_decide; [by constructor|].
  destruct (split_on c r) as [|p ps]; [by repeat constructor|].
  apply Forall_cons in IH as [Hp Hps]. by repeat constructor.
Qed.

Lemma join_on_Forall (P : Z → Prop) c ps : P c → Forall (Forall P) ps → Forall P (join_on c ps).
Proof.
  intros Hc. induction 1 as [|p ps Hp Hps IH]; [constructor|].
  destruct ps as [|q qs]; [done|]. apply Forall_app_2; [done|by constructor].
Qed.

Lemma ascii_not_surrogate u : ascii u → is_low_surrogate u = false ∧ is_high_surrogate u = false.
Proof.
  unfold ascii, is_low_surrogate, is_high_surrogate. intros Hu.
  rewrite (proj2 (Z.leb_gt 0xDC00 u)), (proj2 (Z.leb_gt 0xD800 u)) by lia. done.
Qed.

(** [encodeURIComponent] never throws on ASCII text. *)
Lemma encodeURIComponent_ascii s : Forall ascii s → ∃ t, encodeURIComponent s = Ok t.
Proof.
  induction 1 as [|u r Hu Hr [t Ht]]; [by eexists|]. cbn [encodeURIComponent].
  destruct (ascii_not_surrogate u Hu) as [-> ->]. rewrite Ht.
  destruct (uri_unreserved u); by eexists.
Qed.

Lemma email_atext_ascii u : email_atext u = true → ascii u.
Proof.
  unfold email_atext, is_alnum, ascii. rewrite !orb_true_iff, !andb_true_iff, !Z.leb_le, bool_decide_eq_true.
  intros [H|H]; [lia|]. repeat (apply elem_of_cons in H as [->|H]; [lia|]). by apply not_elem_of_nil in H.
Qed.

(** The local part of an e-mail the browser accepts is ASCII. *)
Lemma html_email_valid_local e : html_email_valid e = true → Forall ascii (split_first ch_at e).
Proof.
  unfold html_email_valid, split_first.
  destruct (split_on ch_at e) as [|l [|d [|]]]; try done. simpl.
  rewrite !andb_true_iff, forallb_forall. intros [[_ Hl] _].
  apply List.Forall_forall. intros u Hu. by apply email_atext_ascii, Hl.
Qed.

Section Ascii.
  Variable toUpperCase : jstr → jstr.
  (** Unicode's upper-casing maps ASCII text to ASCII text. *)
  Hypothesis toUpperCase_ascii : ∀ s, Forall ascii s → Forall ascii (toUpperCase s).

Lemma capitalize_ascii p : Forall ascii p → Forall ascii (capitalize toUpperCase p).
Proof.
  destruct p as [|c r]; simpl; [by intros; apply toUpperCase_ascii|].
  intros Hp. apply Forall_cons in Hp as [Hc Hr].
  apply Forall_app_2; [apply toUpperCase_ascii; by constructor | done].
Qed.

Lemma derive_name_ascii e : Forall ascii (split_first ch_at e) → Forall ascii (derive_name toUpperCase e).
Proof.
  intros He. unfold derive_name. apply join_on_Forall; [unfold ascii, ch_space; lia|].
  apply Forall_map. eapply Forall_impl; [by apply split_on_Forall|]. apply capitalize_ascii.
Qed.

(** The timer's callback of an e-mail the browser accepted does not throw. *)
Lemma login_callback_valid e x : html_email_valid e = true → login_callback toUpperCase e ≠ CbUncaught x.
Proof.
  intros He. unfold login_callback.
  destruct (negb (ends_with e grupolgh)); [done|]. destruct (negb (emailRegex_test e)); [done|].
  destruct (encodeURIComponent_ascii (derive_name toUpperCase e)) as [t ->]; [|done].
  by apply derive_name_ascii, html_email_valid_local.
Qed.

End Ascii.

(** ** The page's invariants *)

(** The controls the page disables are exactly the ones [legacy_run]
    refuses: typing is refused when the input is disabled, and a submit
    when the button is disabled or the browser rejects the address. *)
Lemma legacy_render_controls toUpperCase input_valid st s :
  (legacy_run toUpperCase input_valid (TypeEmail s) st = None ↔ lv_input_disabled (legacy_render st) = true) ∧
  (legacy_run toUpperCase input_valid Submit st = None ↔
     lv_button_disabled (legacy_render st) = true ∨ input_valid (lg_email st) = false).
Proof. unfold legacy_run, legacy_render; simpl. destruct (lg_isLoading st), (input_valid _); naive_solver. Qed.

Section Invariants.
  Variable toUpperCase : jstr → jstr.
  Variable input_valid : jstr → bool.

Lemma timer_inv_init : timer_inv input_valid legacy_init.
Proof. done. Qed.

Lemma legacy_run_timer_inv a st st' :
  timer_inv input_valid st → legacy_run toUpperCase input_valid a st = Some st' → timer_inv input_valid st'.
Proof.
  intros Hinv. destruct a as [s| |]; simpl.
  - destruct (lg_isLoading st) eqn:Hl; [done|]. intros [= <-] e He.
    destruct (Hinv e He) as [Hl' _]. congruence.
  - destruct (lg_isLoading st || negb (input_valid (lg_email st))) eqn:Hg; [done|].
    apply orb_false_iff in Hg as [_ Hv]. apply negb_false_iff in Hv.
    intros [= <-] e [= <-]. done.
  - destruct (lg_timer st); [|done]. intros [= <-] e.
    by destruct (login_callback toUpperCase _).
Qed.

Lemma legacy_step_timer_inv st st' :
  legacy_step toUpperCase input_valid st st' → timer_inv input_valid st → timer_inv input_valid st'.
Proof. intros [a ? Ha] Hinv. by eapply legacy_run_timer_inv. Qed.

End Invariants.

Section Liveness.
  Variable toUpperCase : jstr → jstr.
  Hypothesis toUpperCase_ascii : ∀ s, Forall ascii s → Forall ascii (toUpperCase s).

Lemma legacy_run_loading_inv a st st' :
  timer_inv html_email_valid st → loading_inv st →
  legacy_run toUpperCase html_email_valid a st = Some st' → loading_inv st'.
Proof.
  intros Ht Hl. destruct a as [s| |]; simpl.
  - destruct (lg_isLoading st); [done|]. by intros [= <-].
  - destruct (_ || _); [done|]. intros [= <-] _. by eexists.
  - destruct (lg_timer st) as [e|] eqn:He; [|done]. intros [= <-].
    destruct (Ht e He) as (_ & _ & Hv).
    destruct (login_callback toUpperCase e) eqn:Hc; [done|done|].
    by destruct (login_callback_valid toUpperCase toUpperCase_ascii e e0 Hv).
Qed.

Lemma legacy_reachable_invs st :
  legacy_reachable toUpperCase html_email_valid st → timer_inv html_email_valid st ∧ loading_inv st.
Proof.
  intros Hr. apply (rtc_preserved _ (λ s, timer_inv html_email_valid s ∧ loading_inv s)) with (2 := Hr); [|done].
  intros x y [Hx Hx'] [a ? Ha]. split; [by eapply legacy_run_timer_inv|].
  by eapply legacy_run_loading_inv.
Qed.

End Liveness.

(** ** Properties of the legacy page *)

Section LegacyTheorems.
  Variable toUpperCase : jstr → jstr.

(** C29. The timer's callback signs the user in exactly when the e-mail
    is a non-empty local part without white space or ['@'] followed by
    ["@grupolgh.com.br"], and the derived name encodes: [onLogin] then
    receives the e-mail, the name derived from the local part, and the
    avatar URL carrying the encoded name. *)
Theorem login_callback_signs_in e em n p :
  login_callback toUpperCase e = CbLogin em n p ↔
  ∃ l enc, e = l ++ grupolgh ∧ l ≠ [] ∧ Forall (λ u, regex_char u = true) l ∧
    em = e ∧ n = derive_name toUpperCase e ∧ encodeURIComponent n = Ok enc ∧
    p = "https://ui-avatars.com/api/?name="%js ++ enc ++ "&background=2563eb&color=fff"%js.
Proof.
  unfold login_callback. split.
  - destruct (ends_with e grupolgh) eqn:Hs; [|done]. apply ends_with_spec in Hs as [l ->]. simpl.
    destruct (emailRegex_test (l ++ grupolgh)) eqn:Ht; [|done].
    apply emailRegex_test_grupolgh in Ht as [Hl Hf]. simpl.
    destruct (encodeURIComponent _) as [enc|] eqn:He; [|done]. intros [= <- <- <-]. eauto 10.
  - intros (l & enc & -> & Hl & Hf & -> & -> & He & ->).
    rewrite (proj2 (ends_with_spec _ _)) by eauto.
    rewrite (proj2 (emailRegex_test_grupolgh l)) by done. simpl. by rewrite He.
Qed.

(** C30. In every reachable state of the page, a pending timer comes
    with the page loading (input and button disabled), with the e-mail
    the input shows, and that e-mail passed the browser's check: a
    second submission never starts while a timer is pending. *)
Theorem legacy_timer_invariant input_valid st :
  legacy_reachable toUpperCase input_valid st → timer_inv input_valid st.
Proof.
  intros Hr. apply (rtc_preserved _ (timer_inv input_valid)) with (2 := Hr); [|done].
  intros x y Hx Hxy. by eapply legacy_step_timer_inv.
Qed.

  Hypothesis toUpperCase_ascii : ∀ s, Forall ascii s → Forall ascii (toUpperCase s).

(** C31. With the browser's e-mail check, a loading page always has its
    timer pending, and the timer's callback ends the loading: the page
    never stays disabled. *)
Theorem legacy_submit_settles st :
  legacy_reachable toUpperCase html_email_valid st → lg_isLoading st = true →
  ∃ st', legacy_run toUpperCase html_email_valid TimerFires st = Some st' ∧
         lg_isLoading st' = false ∧ lg_timer st' = None.
Proof.
  intros Hr Hl. destruct (legacy_reachable_invs toUpperCase toUpperCase_ascii st Hr) as [Ht Hld].
  destruct (Hld Hl) as [e He]. destruct (Ht e He) as (_ & _ & Hv). simpl. rewrite He.
  destruct (login_callback toUpperCase e) eqn:Hc; [by eexists|by eexists|].
  by destruct (login_callback_valid toUpperCase toUpperCase_ascii e e0 Hv).
Qed.

End LegacyTheorems.

(** ** A session of the legacy page *)

(** [toUpperCase] on the ASCII letters, every other unit unchanged. *)
Definition ascii_upper (s : jstr) : jstr :=
  map (λ u, if (97 <=? u) && (u <=? 122) then u - 32 else u) s.

Lemma ascii_upper_ascii s : Forall ascii s → Forall ascii (ascii_upper s).
Proof.
  intros Hs. apply Forall_map. eapply Forall_impl; [exact Hs|]. unfold ascii. intros u Hu.
  destruct ((97 <=? u) && (u <=? 122)) eqn:E; [|done]. apply andb_true_iff in E as [E1 E2].
  apply Z.leb_le in E1. lia.
Qed.

Definition ana_email : jstr := "ana.costa@grupolgh.com.br"%js.
Definition legacy_s1 : legacy_state := LegacyState ana_email [] false None None.
Definition legacy_s2 : legacy_state := LegacyState ana_email [] true (Some ana_email) None.

Lemma legacy_s2_reachable : legacy_reachable ascii_upper html_email_valid legacy_s2.
Proof.
  apply rtc_l with legacy_s1; [apply (legacy_step_run _ _ _ (TypeEmail ana_email)); vm_compute; reflexivity|].
  apply rtc_l with legacy_s2; [apply (legacy_step_run _ _ _ Submit); vm_compute; reflexivity|].
  apply rtc_refl.
Qed.

(** The callback signs Ana in with the name ["Ana Costa"]. *)
Example legacy_ana_signs_in :
  login_callback ascii_upper ana_email =
  CbLogin ana_email "Ana Costa"%js "https://ui-avatars.com/api/?name=Ana%20Costa&background=2563eb&color=fff"%js.
Proof. vm_compute. reflexivity. Qed.

Lemma encodeURIComponent_safe_witness :
  Forall code_unit "João & Cia"%js ∧ encodeURIComponent "João & Cia"%js = Ok "Jo%C3%A3o%20%26%20Cia"%js ∧
  Forall (λ u, uri_safe u = true) "Jo%C3%A3o%20%26%20Cia"%js.
Proof.
  assert (Hs : Forall code_unit "João & Cia"%js) by (apply (bool_decide_unpack _); vm_compute; reflexivity).
  assert (He : encodeURIComponent "João & Cia"%js = Ok "Jo%C3%A3o%20%26%20Cia"%js) by (vm_compute; reflexivity).
  split; [exact Hs|]. split; [exact He|]. exact (encodeURIComponent_safe _ _ Hs He).
Defined.

Lemma legacy_timer_invariant_witness :
  legacy_reachable ascii_upper html_email_valid legacy_s2 ∧ timer_inv html_email_valid legacy_s2.
Proof.
  split; [exact legacy_s2_reachable|].
  exact (legacy_timer_invariant ascii_upper html_email_valid legacy_s2 legacy_s2_reachable).
Defined.

Lemma legacy_submit_settles_witness :
  lg_isLoading legacy_s2 = true ∧
  ∃ st', legacy_run ascii_upper html_email_valid TimerFires legacy_s2 = Some st' ∧
         lg_isLoading st' = false ∧ lg_timer st' = None.
Proof.
  split; [reflexivity|].
  exact (legacy_submit_settles ascii_upper ascii_upper_ascii legacy_s2 legacy_s2_reachable eq_refl).
Defined.
