(* ===== verification/IssuerToken.v ===== *)
(** * Tokens as Google writes them, and what [decodeJwt] makes of them

    An ID token's payload segment is the base64url encoding of the UTF-8
    bytes of the claims' JSON text.  [decodeJwt] (auth-service.ts lines
    275-298) decodes the segment with [atob], whose result has one code
    unit per byte, and hands that text to [JSON.parse] without decoding
    the UTF-8: every string of the claims comes back as its bytes read
    one unit each.

    [encode_utf8] is the issuer's encoding of a string of BMP code units
    (each unit by [utf8_bytes] of [LegacyLogin]); [json_bytes] is a value
    with every string and key replaced by its UTF-8 bytes.  The printer
    commutes with the encoding ([encode_utf8_print]), so by the JSON
    round trip of [JsonPrint] and the Base64 round trip of [Base64],
    [decodeJwt] of [issuer_token] is [json_bytes] of the claims
    ([decodeJwt_issuer_token]). *)

From S2P Require Import Prelude Js JsonValue Platform Base64 JsonParse JsonPrint Config TokenValidator LegacyLogin.

(** ** The issuer's encoding *)

(** [new TextEncoder().encode(s)] on a string of BMP code units. *)
Definition encode_utf8 (s : jstr) : jstr := concat (map utf8_bytes s).

(** A value with every string and key replaced by its UTF-8 bytes. *)
Fixpoint json_bytes (v : json) : json :=
  match v with
  | JStr s => JStr (encode_utf8 s)
  | JArr l => JArr (map json_bytes l)
  | JObj m => JObj (map (λ kv, (encode_utf8 kv.1, json_bytes kv.2)) m)
  | _ => v
  end.

(** The token of claims [v]: header, base64url of the UTF-8 of the JSON
    text, signature. *)
Definition issuer_token (header : jstr) (v : json) (signature : jstr) : jstr :=
  make_token header (encode_utf8 (json_print v)) signature.

(** ** The encoding and the printer *)

Lemma encode_utf8_app a b : encode_utf8 (a ++ b) = encode_utf8 a ++ encode_utf8 b.
Proof. unfold encode_utf8. by rewrite map_app, concat_app. Qed.

Lemma encode_utf8_concat {A} (f : A → jstr) l :
  encode_utf8 (concat (map f l)) = concat (map (λ x, encode_utf8 (f x)) l).
Proof. induction l as [|x l IH]; simpl; [done|]. by rewrite encode_utf8_app, IH. Qed.

Lemma encode_utf8_ascii s : Forall ascii_unit s → encode_utf8 s = s.
Proof.
  unfold encode_utf8. induction 1 as [|u s Hu _ IH]; [done|]. unfold ascii_unit in Hu.
  simpl. rewrite IH. unfold utf8_bytes. by rewrite (proj2 (Z.ltb_lt u 128)) by lia.
Qed.

Lemma encode_utf8_cons_ascii u s : ascii_unit u → encode_utf8 (u :: s) = u :: encode_utf8 s.
Proof. unfold ascii_unit. intros Hu. unfold encode_utf8, utf8_bytes. simpl. by destruct (Z.ltb_spec u 128); [|lia]. Qed.

Ltac ascii_cons :=
  repeat rewrite encode_utf8_cons_ascii by (unfold ascii_unit; lia).

(** The bytes of a unit beyond ASCII are all at least [0x80]. *)
Lemma utf8_bytes_high u : 0x80 ≤ u < 0x10000 → Forall (λ b, 0x80 ≤ b < 256) (utf8_bytes u).
Proof.
  intros Hu. unfold utf8_bytes.
  destruct (Z.ltb_spec u 0x80); [lia|]. destruct (Z.ltb_spec u 0x800); [|destruct (Z.ltb_spec u 0x10000); [|lia]];
    repeat constructor; Z.div_mod_to_equations; lia.
Qed.

Lemma esc_unit_raw u : 32 ≤ u → u ≠ 34 → u ≠ 92 → esc_unit u = [u].
Proof.
  intros H1 H2 H3. unfold esc_unit.
  repeat match goal with |- context [?a =? ?b] => destruct (Z.eqb_spec a b); [lia|] end.
  by rewrite (proj2 (Z.ltb_ge u 32)) by lia.
Qed.

Lemma esc_unit_ascii u : ascii_unit u → Forall ascii_unit (esc_unit u).
Proof.
  unfold ascii_unit. intros Hu. unfold esc_unit, hex_char.
  repeat case_match; repeat constructor; ltb_facts; unfold ascii_unit; Z.div_mod_to_equations; lia.
Qed.

Lemma esc_high l : Forall (λ b, 0x80 ≤ b < 256) l → concat (map esc_unit l) = l.
Proof. induction 1 as [|b l Hb _ IH]; [done|]. simpl. rewrite esc_unit_raw by lia. by rewrite IH. Qed.

Lemma encode_utf8_esc_unit u : 0 ≤ u < 0x10000 →
  encode_utf8 (esc_unit u) = concat (map esc_unit (utf8_bytes u)).
Proof.
  intros Hu. destruct (Z.ltb_spec u 0x80).
  - rewrite encode_utf8_ascii by (apply esc_unit_ascii; unfold ascii_unit; lia).
    unfold utf8_bytes. destruct (Z.ltb_spec u 128); [|lia]. simpl. by rewrite app_nil_r.
  - rewrite esc_unit_raw by lia. unfold encode_utf8. simpl. rewrite app_nil_r.
    symmetry. apply esc_high, utf8_bytes_high. lia.
Qed.

(** Escaping a string and encoding it commute. *)
Lemma encode_utf8_esc s : Forall (λ u, 0 ≤ u < 0x10000) s →
  encode_utf8 (concat (map esc_unit s)) = concat (map esc_unit (encode_utf8 s)).
Proof.
  induction 1 as [|u s Hu _ IH]; [done|]. cbn [map concat].
  rewrite encode_utf8_app, IH, encode_utf8_esc_unit by done.
  unfold encode_utf8. cbn [map concat]. by rewrite map_app, concat_app.
Qed.

Lemma Z_toString_ascii n : 0 ≤ n → Forall ascii_unit (Z_toString n).
Proof.
  intros Hn. eapply Forall_impl; [exact (Z_toString_digits n Hn)|]. intros u Hu.
  unfold is_digit in Hu. apply andb_true_iff in Hu as [H1 H2]. apply Z.leb_le in H1, H2.
  unfold ascii_unit. lia.
Qed.

Lemma print_num_ascii n : 0 ≤ num_mant n → Forall ascii_unit (print_num n).
Proof.
  intros Hm. unfold print_num. apply Forall_app_2; [destruct (num_neg n); repeat constructor; unfold ascii_unit; lia|].
  apply Forall_app_2; [by apply Z_toString_ascii|].
  constructor; [unfold ascii_unit; lia|]. constructor; [unfold ascii_unit; case_match; lia|].
  apply Z_toString_ascii. lia.
Qed.

Lemma encode_utf8_quote s : Forall (λ u, 0 ≤ u < 0x10000) s →
  encode_utf8 (quote s) = quote (encode_utf8 s).
Proof.
  intros Hs. unfold quote. ascii_cons. rewrite encode_utf8_app, encode_utf8_esc by done.
  by ascii_cons.
Qed.

(** Printing the bytes of a value is encoding its printed text. *)
Lemma encode_utf8_print v : json_wf v → encode_utf8 (json_print v) = json_print (json_bytes v).
Proof.
  induction v as [| b | num | s | l IHl | m IHm] using json_ind'; intros Hwf.
  - done.
  - by destruct b.
  - by apply encode_utf8_ascii, print_num_ascii.
  - by apply encode_utf8_quote.
  - cbn [json_wf] in Hwf. apply (Forall_id_map json_wf) in Hwf.
    destruct l as [|x l]; [done|]. apply Forall_cons in Hwf as [Hx Hwf]. apply Forall_cons in IHl as [IHx IHl].
    assert (E : map (λ y, encode_utf8 (44 :: json_print y)) l = map (λ y, 44 :: json_print y) (map json_bytes l)).
    { rewrite map_map. apply map_ext_Forall. rewrite Forall_forall in IHl, Hwf.
      apply Forall_forall. intros y Hy. ascii_cons. by rewrite IHl by auto. }
    cbn [json_print json_bytes map]. ascii_cons. rewrite !encode_utf8_app, IHx, encode_utf8_concat, E by done.
    by ascii_cons.
  - cbn [json_wf] in Hwf. destruct Hwf as [Hk Hwf]. apply (Forall_id_map (λ kv, json_wf kv.2)) in Hwf.
    destruct m as [|kv m]; [done|]. apply Forall_cons in Hwf as [Hx Hwf]. apply Forall_cons in IHm as [IHx IHm].
    apply Forall_cons in Hk as [Hk0 Hk].
    assert (E : map (λ kv, encode_utf8 (44 :: quote kv.1 ++ 58 :: json_print kv.2)) m =
                map (λ kv, 44 :: quote kv.1 ++ 58 :: json_print kv.2)
                  (map (λ kv, (encode_utf8 kv.1, json_bytes kv.2)) m)).
    { rewrite map_map. apply map_ext_Forall. rewrite Forall_forall in IHm, Hwf, Hk.
      apply Forall_forall. intros [k y] Hky. cbn [fst snd].
      ascii_cons. rewrite encode_utf8_app, encode_utf8_quote by (apply (Hk _ Hky)). ascii_cons.
      pose proof (IHm _ Hky (Hwf _ Hky)) as Hy. cbn [snd] in Hy. by rewrite Hy. }
    cbn [json_print json_bytes map fst snd]. ascii_cons.
    rewrite !encode_utf8_app, encode_utf8_quote by done. ascii_cons.
    rewrite IHx, encode_utf8_concat, E by done. by ascii_cons.
Qed.

(** ** Ranges *)

Definition unit16 (u : Z) : Prop := 0 ≤ u < 0x10000.

Lemma encode_utf8_latin1 s : Forall unit16 s → Forall latin1 (encode_utf8 s).
Proof.
  induction 1 as [|u s Hu _ IH]; [constructor|]. unfold encode_utf8. simpl. apply Forall_app_2; [|done].
  apply utf8_bytes_range. unfold unit16 in Hu. lia.
Qed.

Lemma esc_unit_unit16 u : unit16 u → Forall unit16 (esc_unit u).
Proof.
  unfold unit16. intros Hu. unfold esc_unit, hex_char.
  repeat case_match; repeat constructor; ltb_facts; unfold unit16; Z.div_mod_to_equations; lia.
Qed.

Lemma Forall_concat_map {A B} (P : B → Prop) (f : A → list B) l :
  Forall (λ x, Forall P (f x)) l → Forall P (concat (map f l)).
Proof. induction 1; simpl; [constructor|]. by apply Forall_app_2. Qed.

Lemma quote_unit16 s : Forall unit16 s → Forall unit16 (quote s).
Proof.
  intros Hs. unfold quote. constructor; [unfold unit16; lia|]. apply Forall_app_2; [|repeat constructor; unfold unit16; lia].
  apply Forall_concat_map. eapply Forall_impl; [exact Hs|]. apply esc_unit_unit16.
Qed.

Lemma ascii_unit16 s : Forall ascii_unit s → Forall unit16 s.
Proof. intros Hs. eapply Forall_impl; [exact Hs|]. unfold ascii_unit, unit16. lia. Qed.

(** The printed text of a value has code units only. *)
Lemma print_unit16 v : json_wf v → Forall unit16 (json_print v).
Proof.
  induction v as [| b | num | s | l IHl | m IHm] using json_ind'; intros Hwf.
  - repeat constructor; unfold unit16; lia.
  - destruct b; repeat constructor; unfold unit16; lia.
  - by apply ascii_unit16, print_num_ascii.
  - by apply quote_unit16.
  - cbn [json_wf] in Hwf. apply (Forall_id_map json_wf) in Hwf.
    destruct l as [|x l]; [repeat constructor; unfold unit16; lia|].
    apply Forall_cons in Hwf as [Hx Hwf]. apply Forall_cons in IHl as [IHx IHl].
    cbn [json_print]. constructor; [unfold unit16; lia|]. apply Forall_app_2; [by apply IHx|].
    apply Forall_app_2; [|repeat constructor; unfold unit16; lia]. apply Forall_concat_map.
    rewrite Forall_forall in IHl, Hwf |- *. intros y Hy. constructor; [unfold unit16; lia|]. auto.
  - cbn [json_wf] in Hwf. destruct Hwf as [Hk Hwf]. apply (Forall_id_map (λ kv, json_wf kv.2)) in Hwf.
    destruct m as [|kv m]; [repeat constructor; unfold unit16; lia|].
    cbn [json_print]. constructor; [unfold unit16; lia|].
    rewrite Forall_forall in IHm, Hwf, Hk.
    assert (Hmem : ∀ kv', kv' ∈ kv :: m → Forall unit16 (quote kv'.1 ++ 58 :: json_print kv'.2)).
    { intros kv' Hkv'. apply Forall_app_2; [apply quote_unit16; auto|].
      constructor; [unfold unit16; lia|]. auto. }
    apply Forall_app_2; [apply Hmem; left|]. apply Forall_app_2; [|repeat constructor; unfold unit16; lia].
    apply Forall_concat_map. apply Forall_forall. intros kv' Hkv'. constructor; [unfold unit16; lia|].
    apply Hmem. by right.
Qed.

(** The bytes of a value are a value the printer writes. *)
Lemma json_bytes_wf v : json_wf v → json_wf (json_bytes v).
Proof.
  induction v as [| b | num | s | l IHl | m IHm] using json_ind'; intros Hwf; cbn [json_bytes json_wf] in *; try done.
  - eapply Forall_impl; [by apply encode_utf8_latin1|]. unfold latin1. lia.
  - apply (Forall_id_map json_wf) in Hwf. apply (Forall_id_map json_wf). rewrite Forall_forall in IHl, Hwf.
    apply Forall_forall. intros y (x & -> & Hx)%list_elem_of_fmap. auto.
  - destruct Hwf as [Hk Hwf]. apply (Forall_id_map (λ kv, json_wf kv.2)) in Hwf.
    rewrite Forall_forall in IHm, Hwf, Hk. split.
    + apply Forall_forall. intros kv' (kv & -> & Hkv)%list_elem_of_fmap. cbn.
      eapply Forall_impl; [by apply encode_utf8_latin1, Hk|]. unfold latin1. lia.
    + apply (Forall_id_map (λ kv, json_wf kv.2)), Forall_forall.
      intros kv' (kv & -> & Hkv)%list_elem_of_fmap. cbn. auto.
Qed.

(** ** What [decodeJwt] makes of an issuer's token *)

(** [decodeJwt] returns the claims with every string replaced by its
    UTF-8 bytes, one code unit per byte. *)
Lemma decodeJwt_issuer_token h v sig :
  ch_dot ∉ h → ch_dot ∉ sig → json_wf v → decodeJwt (issuer_token h v sig) = Ok (json_bytes v).
Proof.
  intros Hh Hs Hwf. unfold issuer_token. apply decodeJwt_make_token; [done|done| |].
  - apply encode_utf8_latin1. by apply print_unit16.
  - rewrite encode_utf8_print by done. apply json_parse_print. by apply json_bytes_wf.
Qed.

Lemma obj_lookup_bytes k m :
  Forall (λ kv, Forall ascii_unit kv.1) m →
  obj_lookup k (map (λ kv, (encode_utf8 kv.1, json_bytes kv.2)) m) = json_bytes <$> obj_lookup k m.
Proof.
  induction 1 as [|[k' v] m Hk _ IH]; [done|]. cbn [map obj_lookup fst snd] in *.
  rewrite IH, encode_utf8_ascii by done. by destruct (obj_lookup k m); [|simpl; case_decide].
Qed.

Lemma encode_utf8_nil s : encode_utf8 s = [] ↔ s = [].
Proof.
  split; [|by intros ->]. destruct s as [|u s]; [done|]. unfold encode_utf8, utf8_bytes. simpl.
  by repeat case_match.
Qed.

Lemma truthy_bytes o : truthy (json_bytes <$> o) = truthy o.
Proof.
  destruct o as [[| | |s| |]|]; try done. cbn. apply bool_decide_ext.
  by rewrite encode_utf8_nil.
Qed.

Lemma length_encode_utf8 s : Forall unit16 s → (length s ≤ length (encode_utf8 s))%nat.
Proof.
  induction 1 as [|u s Hu _ IH]; [done|]. unfold encode_utf8 in *. cbn [map concat length].
  rewrite length_app. enough (1 ≤ length (utf8_bytes u))%nat by lia.
  unfold utf8_bytes. repeat case_match; simpl; lia.
Qed.

(** A string is its own UTF-8 exactly when it is ASCII. *)
Lemma encode_utf8_id s : Forall unit16 s → encode_utf8 s = s ↔ Forall ascii_unit s.
Proof.
  intros Hs. split; [|apply encode_utf8_ascii]. induction Hs as [|u s Hu Hs IH]; [done|].
  unfold unit16 in Hu. pose proof (length_encode_utf8 s Hs) as Hl.
  unfold encode_utf8 in *. simpl. unfold utf8_bytes at 1. destruct (Z.ltb_spec u 0x80).
  - intros [= E]. constructor; [unfold ascii_unit; lia|]. by apply IH.
  - intros E. apply (f_equal length) in E. revert E. rewrite length_app.
    repeat case_match; simpl; lia.
Qed.

Lemma obj_lookup_wf k m v :
  Forall id (map (λ kv, json_wf kv.2) m) → obj_lookup k m = Some v → json_wf v.
Proof.
  intros Hm. apply (Forall_id_map (λ kv, json_wf kv.2)) in Hm.
  induction Hm as [|[k' w] m Hw _ IH]; [done|]. cbn [obj_lookup].
  destruct (obj_lookup k m); [intros [= <-]; auto|]. case_decide; [by intros [= <-]|done].
Qed.

(** ** The user of an issuer's token *)

Section IssuerUser.
  Variable cfg : env.

(** C12. [decodeJwt] does not decode UTF-8: for a token as Google
    writes it (the claims' JSON text in UTF-8, base64url-encoded), with
    an allowed, verified ASCII e-mail and a non-empty [name], the user
    [validateToken] returns has as name the UTF-8 bytes of [name], one
    code unit each; it is the name itself exactly when the name is
    ASCII, so "João" arrives as "JoÃ£o". *)
Theorem validateToken_utf8_name h sig m email n :
  ch_dot ∉ h → ch_dot ∉ sig → json_wf (JObj m) → Forall (λ kv, Forall ascii_unit kv.1) m →
  obj_lookup "email"%js m = Some (JStr email) → Forall ascii_unit email →
  ends_with email (ALLOWED_DOMAIN cfg) = true →
  truthy (obj_lookup "email_verified"%js m) = true →
  obj_lookup "name"%js m = Some (JStr n) → n ≠ [] →
  ∃ u, (validateToken cfg (issuer_token h (JObj m) sig)).2 = Ok u ∧
       user_name u = JStr (encode_utf8 n) ∧ (user_name u = JStr n ↔ Forall ascii_unit n).
Proof.
  intros Hh Hs Hwf Hk He Hea Hd Hv Hn Hn0.
  set (p := json_bytes (JObj m)).
  assert (Hget : ∀ k, get_prop p k = json_bytes <$> obj_lookup k m) by (intros k; apply obj_lookup_bytes, Hk).
  exists (make_user p email). split; [|split].
  - apply validateToken_accepts.
    + unfold issuer_token, make_token. by destruct h.
    + by apply decodeJwt_issuer_token.
    + rewrite Hget, He. cbn. by rewrite encode_utf8_ascii.
    + done.
    + by rewrite Hget, truthy_bytes.
  - unfold make_user. cbn [user_name]. rewrite Hget, Hn. cbn.
    by rewrite bool_decide_true by (by rewrite encode_utf8_nil).
  - unfold make_user. cbn [user_name]. rewrite Hget, Hn. cbn.
    rewrite bool_decide_true by (by rewrite encode_utf8_nil).
    assert (Hwn : json_wf (JStr n)) by (eapply obj_lookup_wf; [apply Hwf|exact Hn]).
    rewrite <- encode_utf8_id by done. split; [by intros [= ->]|by intros ->].
Qed.

End IssuerUser.

(** João's token: his name arrives as its UTF-8 bytes. *)
Definition joao_claims : list (jstr * json) :=
  [("email"%js, JStr "joao@example-corp.example"%js); ("email_verified"%js, JBool true);
   ("name"%js, JStr "João"%js)].

Lemma validateToken_utf8_name_witness :
  ∃ u, (validateToken demo_env (issuer_token demo_header (JObj joao_claims) demo_signature)).2 = Ok u ∧
       user_name u = JStr "JoÃ£o"%js ∧ (user_name u = JStr "João"%js ↔ Forall ascii_unit "João"%js).
Proof.
  change (JStr "JoÃ£o"%js) with (JStr (encode_utf8 "João"%js)).
  apply (validateToken_utf8_name demo_env demo_header demo_signature joao_claims
           "joao@example-corp.example"%js "João"%js).
  - apply (bool_decide_unpack (ch_dot ∉ demo_header)). vm_compute. reflexivity.
  - apply (bool_decide_unpack (ch_dot ∉ demo_signature)). vm_compute. reflexivity.
  - split; unfold joao_claims; cbn [map fst snd]; repeat (constructor; cbn [id json_wf]); lia.
  - unfold joao_claims. repeat constructor; unfold ascii_unit; lia.
  - reflexivity.
  - apply (bool_decide_unpack (Forall ascii_unit _)). vm_compute. reflexivity.
  - vm_compute. reflexivity.
  - reflexivity.
  - reflexivity.
  - discriminate.
Defined.
