(* ===== verification/TicketView.v ===== *)
(** * What the tickets page shows

    The rendering of [TicketsPage] (tickets-page.tsx lines 87-156), of
    [TicketList] (ticket-list.tsx lines 29-96) and of [TicketDetails]
    (ticket-details.tsx lines 69-264), as records of the texts and
    controls on screen, computed from the page state of [Tickets].

    [TicketDetails] prints [createdAt] and [updatedAt] with
    [toLocaleDateString('pt-BR')]: the civil date, in the browser's time
    zone, as [dd/mm/yyyy].  The time zone is the parameter [offset], its
    distance from UTC in minutes (São Paulo: [-180], without daylight
    saving since 2019); the civil date of a day number is computed with
    the proleptic Gregorian calendar of ECMAScript's [Date]. *)

From S2P Require Import Prelude Js JsonValue JsonParse JsonPrint TokenValidator Tickets.

(** ** [toLocaleDateString('pt-BR')] *)

Definition ms_per_day : Z := 86400000.

(** The local day number (days since 1970-01-01) of a time value. *)
Definition local_day (offset ms : Z) : Z := (ms + offset * 60000) / ms_per_day.

(** Year, month and day of a day number ([civil_from_days] of
    H. Hinnant's date algorithms; [/] is the floor division). *)
Definition civil_from_days (z0 : Z) : Z * Z * Z :=
  let z := z0 + 719468 in
  let era := z / 146097 in
  let doe := z - era * 146097 in
  let yoe := (doe - doe / 1460 + doe / 36524 - doe / 146096) / 365 in
  let y := yoe + era * 400 in
  let doy := doe - (365 * yoe + yoe / 4 - yoe / 100) in
  let mp := (5 * doy + 2) / 153 in
  let d := doy - (153 * mp + 2) / 5 + 1 in
  let m := if mp <? 10 then mp + 3 else mp - 9 in
  (if m <=? 2 then y + 1 else y, m, d).

(** The inverse of [civil_from_days] ([days_from_civil] of the same
    algorithms), used to show that distinct days print distinct dates. *)
Definition days_from_civil (ymd : Z * Z * Z) : Z :=
  let '(y0, m, d) := ymd in
  let y := if m <=? 2 then y0 - 1 else y0 in
  let era := y / 400 in
  let yoe := y - era * 400 in
  let mp := if 2 <? m then m - 3 else m + 9 in
  let doy := (153 * mp + 2) / 5 + d - 1 in
  let doe := yoe * 365 + yoe / 4 - yoe / 100 + doy in
  era * 146097 + doe - 719468.

(** Two digits. *)
Definition pad2 (n : Z) : jstr := if n <? 10 then 48 :: Z_toString n else Z_toString n.

Definition date_string (ymd : Z * Z * Z) : jstr :=
  let '(y, m, d) := ymd in pad2 d ++ [ch_slash] ++ pad2 m ++ [ch_slash] ++ Z_toString y.

Definition toLocaleDateString_ptBR (offset ms : Z) : jstr :=
  date_string (civil_from_days (local_day offset ms)).

(** ** [TicketList] *)

Inductive list_body :=
| NoTickets                        (* "Nenhum chamado encontrado" *)
| Cards (cards : list card_view).

Record list_view := ListView {
  lv_searchTerm : jstr; lv_statusFilter : jstr; lv_priorityFilter : jstr; lv_body : list_body
}.

Section Views.
  Variable toLowerCase : jstr → jstr.
  (** The browser's distance from UTC, in minutes. *)
  Variable offset : Z.

(** [TicketList]'s render: the filters, and the cards of
    [filteredTickets], each selected when its id is [selectedTicketId];
    an exception of the filter escapes the render. *)
Definition TicketList_view (now : Z) (f : filter_state) (tickets : list Ticket)
    (selectedTicketId : option jstr) : res exn list_view :=
  shown ← filteredTickets toLowerCase f tickets;
  Ok (ListView (searchTerm f) (statusFilter f) (priorityFilter f)
        (match shown with
         | [] => NoTickets
         | _ => Cards (map (λ t, TicketCard now t (bool_decide (selectedTicketId = Some (id t)))) shown)
         end)).

(** ** [TicketDetails] *)

(** The middle block: badges in view mode, the editors (of
    [editedTicket]) in edit mode. *)
Inductive details_body :=
| DViewing (status_badge priority_badge category_badge : jstr) (assigned : option jstr)
| DEditing (status_value : status) (priority_value : priority) (assigned_value : jstr).

Record details_view := DetailsView {
  dv_title : jstr; dv_description : jstr; dv_body : details_body;
  dv_requesterName : json; dv_requesterEmail : jstr;
  dv_createdAt : jstr; dv_updatedAt : jstr;
  dv_editing : bool            (* "Salvar"/"Cancelar" instead of "Editar Chamado" *)
}.

(** [{ticket.assignedTo && ...}]: shown when a non-empty string. *)
Definition assigned_shown (a : option jstr) : option jstr :=
  match a with Some (_ :: _) => a | _ => None end.

Definition TicketDetails_view (ticket : Ticket) (d : details_state) : details_view :=
  DetailsView (title ticket) (description ticket)
    (if isEditing d then
       DEditing (tk_status (editedTicket d)) (tk_priority (editedTicket d))
         (default [] (assignedTo (editedTicket d)))
     else
       DViewing (status_label (tk_status ticket)) (priority_label (tk_priority ticket))
         (category ticket) (assigned_shown (assignedTo ticket)))
    (requesterName ticket) (requesterEmail ticket)
    (toLocaleDateString_ptBR offset (createdAt ticket))
    (toLocaleDateString_ptBR offset (updatedAt ticket))
    (isEditing d).

(** ** [TicketForm] *)

Record form_view := FormView {
  fv_success : bool;           (* "Chamado criado com sucesso!" *)
  fv_fields : ticket_data;     (* the inputs' values *)
  fv_submit_enabled : bool     (* [disabled={!isFormValid}] *)
}.

Definition TicketForm_view (fm : form_state) : form_view :=
  FormView (submitted fm) (formData fm) (isFormValid (formData fm)).

(** ** [TicketsPage] *)

Inductive side_panel :=
| NoSelection                      (* "Selecione um chamado para ver os detalhes" *)
| Details (v : details_view).

Inductive tab_view :=
| ListTab (list : list_view) (panel : side_panel)
| NewTab (form : form_view).

Record tickets_page_view := TicketsPageView { pv_stats : stats; pv_tab : tab_view }.

(** The page's render: the four counters, and the active tab with its
    mounted children. *)
Definition TicketsPage_view (u : User) (now : Z) (ps : page_state) : res exn tickets_page_view :=
  let st := stats_of (pg_tickets ps) in
  match pg_tab ps with
  | TabList =>
      lv ← TicketList_view now (default filters_init (pg_filters ps)) (pg_tickets ps) (id <$> pg_selected ps);
      Ok (TicketsPageView st
            (ListTab lv (match pg_selected ps, pg_details ps with
                         | Some t, Some d => Details (TicketDetails_view t d)
                         | _, _ => NoSelection
                         end)))
  | TabNew => Ok (TicketsPageView st (NewTab (TicketForm_view (default (form_init u) (pg_form ps)))))
  end.

End Views.

(** ** The calendar *)

Lemma local_day_west d off : -1440 < off < 0 → local_day off (d * ms_per_day) = d - 1.
Proof. intros Hoff. unfold local_day, ms_per_day. Z.div_mod_to_equations. lia. Qed.

Lemma local_day_east d off : 0 ≤ off < 1440 → local_day off (d * ms_per_day) = d.
Proof. intros Hoff. unfold local_day, ms_per_day. Z.div_mod_to_equations. lia. Qed.

Lemma doy_range doe :
  0 ≤ doe < 146097 →
  let yoe := (doe - doe / 1460 + doe / 36524 - doe / 146096) / 365 in
  0 ≤ doe - (365 * yoe + yoe / 4 - yoe / 100) ≤ 365.
Proof. intros H yoe. subst yoe. Z.div_mod_to_equations. lia. Qed.

Lemma month_day_range doy :
  0 ≤ doy ≤ 365 →
  let mp := (5 * doy + 2) / 153 in
  0 ≤ mp ≤ 11 ∧ 1 ≤ doy - (153 * mp + 2) / 5 + 1 ≤ 31.
Proof. intros H mp. subst mp. Z.div_mod_to_equations. lia. Qed.

Lemma yoe_range doe :
  0 ≤ doe < 146097 → 0 ≤ (doe - doe / 1460 + doe / 36524 - doe / 146096) / 365 ≤ 399.
Proof. intros H. Z.div_mod_to_equations. lia. Qed.

Lemma civil_from_days_roundtrip z : days_from_civil (civil_from_days z) = z.
Proof.
  unfold civil_from_days. cbn zeta.
  set (era := (z + 719468) / 146097).
  set (doe := z + 719468 - era * 146097).
  assert (Hdoe : 0 ≤ doe < 146097) by (subst doe era; Z.div_mod_to_equations; lia).
  pose proof (yoe_range doe Hdoe) as Hy. pose proof (doy_range doe Hdoe) as Hd. cbn zeta in Hd.
  set (yoe := (doe - doe / 1460 + doe / 36524 - doe / 146096) / 365) in *.
  set (doy := doe - (365 * yoe + yoe / 4 - yoe / 100)) in *.
  pose proof (month_day_range doy Hd) as Hm. cbn zeta in Hm.
  set (mp := (5 * doy + 2) / 153) in *.
  unfold days_from_civil.
  assert (Ediv : (yoe + era * 400) / 400 = era) by (Z.div_mod_to_equations; lia).
  destruct (Z.ltb_spec mp 10).
  - rewrite !(proj2 (Z.leb_gt _ _)), (proj2 (Z.ltb_lt 2 _)) by lia. rewrite Ediv.
    replace (yoe + era * 400 - era * 400) with yoe by lia. replace (mp + 3 - 3) with mp by lia.
    unfold doy, doe. lia.
  - rewrite !(proj2 (Z.leb_le (mp - 9) 2)), (proj2 (Z.ltb_ge 2 _)) by lia.
    replace (yoe + era * 400 + 1 - 1) with (yoe + era * 400) by lia. rewrite Ediv.
    replace (yoe + era * 400 - era * 400) with yoe by lia. replace (mp - 9 + 9) with mp by lia.
    unfold doy, doe. lia.
Qed.

Lemma civil_from_days_inj a b : civil_from_days a = civil_from_days b → a = b.
Proof.
  intros E. rewrite <- (civil_from_days_roundtrip a), <- (civil_from_days_roundtrip b). by rewrite E.
Qed.

Lemma civil_from_days_range z : 1 ≤ (civil_from_days z).1.2 ≤ 12 ∧ 1 ≤ (civil_from_days z).2 ≤ 31.
Proof.
  unfold civil_from_days. cbn zeta.
  set (era := (z + 719468) / 146097). set (doe := z + 719468 - era * 146097).
  assert (Hdoe : 0 ≤ doe < 146097) by (subst doe era; Z.div_mod_to_equations; lia).
  pose proof (doy_range doe Hdoe) as Hd. cbn zeta in Hd.
  set (yoe := (doe - doe / 1460 + doe / 36524 - doe / 146096) / 365) in *.
  set (doy := doe - (365 * yoe + yoe / 4 - yoe / 100)) in *.
  pose proof (month_day_range doy Hd) as Hm. cbn zeta in Hm.
  destruct (Z.ltb_spec ((5 * doy + 2) / 153) 10); simpl; lia.
Qed.

(** ** Dates on the details panel *)

Section DetailsDates.
  Variable offset : Z.

(** C27. A ticket created at a UTC midnight (every fixture's [new
    Date('2025-11-19')] is one) shows, in a browser west of UTC, the
    previous day as "Criado em", a date different from the fixture's. *)
Theorem details_created_previous_day t ds d :
  createdAt t = d * ms_per_day → -1440 < offset < 0 →
  dv_createdAt (TicketDetails_view offset t ds) = date_string (civil_from_days (d - 1)) ∧
  civil_from_days (d - 1) ≠ civil_from_days d.
Proof.
  intros Ht Hoff. split.
  - simpl. unfold toLocaleDateString_ptBR. rewrite Ht, local_day_west by done. reflexivity.
  - intros E. apply civil_from_days_inj in E. lia.
Qed.

(** East of UTC (or on it), the same ticket shows its own day. *)
Lemma details_created_same_day t ds d :
  createdAt t = d * ms_per_day → 0 ≤ offset < 1440 →
  dv_createdAt (TicketDetails_view offset t ds) = date_string (civil_from_days d).
Proof.
  intros Ht Hoff. simpl. unfold toLocaleDateString_ptBR. rewrite Ht, local_day_east by done. reflexivity.
Qed.

End DetailsDates.

(** [ticket1], created [new Date('2025-11-19')], seen from São Paulo. *)
Lemma details_created_previous_day_witness :
  createdAt ticket1 = 20411 * ms_per_day ∧ -1440 < -180 < 0 ∧
  civil_from_days 20411 = (2025, 11, 19) ∧
  dv_createdAt (TicketDetails_view (-180) ticket1 (DetailsState false ticket1)) = "18/11/2025"%js ∧
  dv_createdAt (TicketDetails_view (-180) ticket1 (DetailsState false ticket1)) =
    date_string (civil_from_days (20411 - 1)) ∧
  civil_from_days (20411 - 1) ≠ civil_from_days 20411.
Proof.
  assert (Ht : createdAt ticket1 = 20411 * ms_per_day) by reflexivity.
  assert (Ho : -1440 < -180 < 0) by lia.
  split; [exact Ht|]. split; [exact Ho|]. split; [vm_compute; reflexivity|].
  split; [vm_compute; reflexivity|].
  exact (details_created_previous_day (-180) ticket1 (DetailsState false ticket1) 20411 Ht Ho).
Defined.

(** ** Selection in the list *)

Section ListSelection.
  Variable toLowerCase : jstr → jstr.

(** C26. [TicketList] marks a card selected by id
    ([isSelected={selectedTicketId === ticket.id}]): when two tickets the
    list shows share an id, as tickets created in the same millisecond
    do, selecting either one marks both cards selected. *)
Theorem same_id_cards_both_selected now f ts shown t1 t2 i j :
  filteredTickets toLowerCase f ts = Ok shown → shown !! i = Some t1 → shown !! j = Some t2 → id t1 = id t2 →
  ∃ cards, TicketList_view toLowerCase now f ts (Some (id t1)) =
             Ok (ListView (searchTerm f) (statusFilter f) (priorityFilter f) (Cards cards)) ∧
    cv_selected <$> cards !! i = Some true ∧ cv_selected <$> cards !! j = Some true.
Proof.
  intros Hs Hi Hj E. unfold TicketList_view. rewrite Hs. cbn [mbind res_bind].
  destruct shown as [|x r]; [done|]. eexists. split; [reflexivity|].
  rewrite !lookup_map, Hi, Hj. simpl.
  by rewrite !bool_decide_eq_true_2 by congruence.
Qed.

End ListSelection.

(** Two tickets submitted in the same millisecond, above the fixtures. *)
Definition twin_tickets : list Ticket :=
  handleCreateTicket demo_now
    (TicketData "Impressora sem toner"%js "Sem toner no 2º andar"%js "Hardware"%js medium
       (JStr "Ana Lima"%js) "ana@example-corp.example"%js)
    (handleCreateTicket demo_now
       (TicketData "Sem acesso à VPN"%js "A VPN recusa a senha"%js "Acesso"%js high
          (JStr "Ana Lima"%js) "ana@example-corp.example"%js) fixture_tickets).

Lemma same_id_cards_both_selected_witness :
  let t1 := default ticket1 (twin_tickets !! 0%nat) in let t2 := default ticket1 (twin_tickets !! 1%nat) in
  twin_tickets !! 0%nat = Some t1 ∧ twin_tickets !! 1%nat = Some t2 ∧ title t1 ≠ title t2 ∧
  ∃ cards, TicketList_view ascii_lower demo_now filters_init twin_tickets (Some (id t1)) =
             Ok (ListView (searchTerm filters_init) (statusFilter filters_init) (priorityFilter filters_init)
                   (Cards cards)) ∧
    cv_selected <$> cards !! 0%nat = Some true ∧ cv_selected <$> cards !! 1%nat = Some true.
Proof.
  intros t1 t2. split; [vm_compute; reflexivity|]. split; [vm_compute; reflexivity|].
  split; [vm_compute; discriminate|].
  apply (same_id_cards_both_selected ascii_lower demo_now filters_init twin_tickets twin_tickets t1 t2);
    vm_compute; reflexivity.
Defined.
