(* ===== verification/Layout.v ===== *)
(** * The main layout and the pages it shows

    [MainLayout] (main-layout-old.tsx, the only [MainLayout] of the
    repository) keeps [currentPage] and renders one of [TicketsPage],
    [SettingsPage] (settings-page.tsx) and [ReportsPage]
    (reports-page.tsx) under a header showing the user's initials.  A
    page that stops being rendered is unmounted, with its state; the
    page rendered again starts from its initial state.  [App] renders
    the layout for the signed-in user; a render that throws is not
    caught by any error boundary, so React unmounts the application.

    [String.prototype.toUpperCase] and [toLowerCase] (Unicode case
    mapping) are parameters. *)

From S2P Require Import Prelude Js JsonValue Platform Base64 JsonParse JsonPrint Config TokenValidator Tickets.

(** ** Names and initials *)

(** [n[0]] joined by [join('')]: the first code unit, and the empty
    string for an empty part ([undefined] joins as [''].) *)
Definition first_unit (p : jstr) : jstr := take 1 p.

(** [name.split(' ').map(n => n[0]).join('')] *)
Definition name_initials (name : jstr) : jstr := concat (map first_unit (split_on ch_space name)).

(** [user.name.split] on a value that is not a string. *)
Definition split_error (v : json) : exn :=
  match v with
  | JNull => JsErr "TypeError"%js "Cannot read properties of null (reading 'split')"%js
  | _ => JsErr "TypeError"%js "user.name.split is not a function"%js
  end.

(** [user.name.split(' ')]: [user.name] is typed [string], but
    [validateToken] takes it from the token's [name] claim unchecked. *)
Definition user_name_split (v : json) : res exn (list jstr) :=
  match v with JStr s => Ok (split_on ch_space s) | _ => Throw (split_error v) end.

(** [user.name.split(' ')[0]] and [.slice(1).join(' ')], the profile's
    first and last name. *)
Definition first_name (parts : list jstr) : jstr := default [] (head parts).
Definition last_name (parts : list jstr) : jstr := join_on ch_space (drop 1 parts).

(** ** [SettingsPage] *)

Record team_member := TeamMember { tm_id : jstr; tm_name : jstr; tm_email : jstr; tm_role : jstr }.

Definition teamMembers : list team_member :=
  [TeamMember "1"%js "Carlos Oliveira"%js "carlos.oliveira@grupolgh.com.br"%js "Administrador"%js;
   TeamMember "2"%js "Paula Fernandes"%js "paula.fernandes@grupolgh.com.br"%js "Técnico"%js;
   TeamMember "3"%js "Roberto Costa"%js "roberto.costa@grupolgh.com.br"%js "Técnico"%js].

(** The tabs of [<Tabs defaultValue="profile">]; only the active tab's
    content is rendered. *)
Inductive settings_tab := TabProfile | TabNotifications | TabTeam | TabSystem.

Record settings_state := SettingsState {
  emailNotifications : bool;
  pushNotifications : bool;
  autoAssign : bool;
  theme : jstr;
  alerts : list jstr;    (* the messages passed to [alert] *)
  active_tab : settings_tab
}.

Definition settings_init : settings_state := SettingsState true false true "light"%js [] TabProfile.

Inductive settings_action :=
| SelectSettingsTab (t : settings_tab)
| SetEmailNotifications (b : bool) | SetPushNotifications (b : bool) | SetAutoAssign (b : bool)
| SetTheme (t : jstr) | SaveProfile | SaveNotifications.

Definition add_alert (s : settings_state) (msg : jstr) : settings_state :=
  SettingsState (emailNotifications s) (pushNotifications s) (autoAssign s) (theme s) (alerts s ++ [msg])
    (active_tab s).

(** The tab triggers, the switches, the theme select and the two save
    buttons, each only on its tab; saving only shows an alert. *)
Definition settings_run (a : settings_action) (s : settings_state) : option settings_state :=
  match a, active_tab s with
  | SelectSettingsTab t, _ =>
      Some (SettingsState (emailNotifications s) (pushNotifications s) (autoAssign s) (theme s) (alerts s) t)
  | SetEmailNotifications b, TabNotifications =>
      Some (SettingsState b (pushNotifications s) (autoAssign s) (theme s) (alerts s) (active_tab s))
  | SetPushNotifications b, TabNotifications =>
      Some (SettingsState (emailNotifications s) b (autoAssign s) (theme s) (alerts s) (active_tab s))
  | SetAutoAssign b, TabNotifications =>
      Some (SettingsState (emailNotifications s) (pushNotifications s) b (theme s) (alerts s) (active_tab s))
  | SetTheme t, TabSystem =>
      Some (SettingsState (emailNotifications s) (pushNotifications s) (autoAssign s) t (alerts s) (active_tab s))
  | SaveProfile, TabProfile => Some (add_alert s "Perfil atualizado com sucesso!"%js)
  | SaveNotifications, TabNotifications => Some (add_alert s "Preferências de notificação atualizadas!"%js)
  | _, _ => None
  end.

(** ** [ReportsPage]: fixed data *)

Record day_row := DayRow { day : jstr; abertos : Z; resolvidos : Z }.

Definition ticketsByDay : list day_row :=
  [DayRow "Seg"%js 12 8; DayRow "Ter"%js 15 10; DayRow "Qua"%js 8 12;
   DayRow "Qui"%js 18 14; DayRow "Sex"%js 20 16].

Definition ticketsByCategory : list (jstr * Z) :=
  [("Hardware"%js, 30); ("Software"%js, 45); ("Rede"%js, 20); ("Email"%js, 15); ("Acesso"%js, 25)].

Definition COLORS : list jstr := ["#3b82f6"; "#10b981"; "#f59e0b"; "#ef4444"; "#8b5cf6"]%js.

(** [COLORS[index % COLORS.length]] *)
Definition cell_color (i : nat) : option jstr := COLORS !! (i `mod` length COLORS)%nat.

(** [(percent * 100).toFixed(0)] for [percent = value / total], the
    share the pie chart computes: the integer nearest to
    [100 * value / total], the larger one on a tie. *)
Definition pie_percent (total value : Z) : Z := (200 * value + total) / (2 * total).

(** The bar of the category tab: [(category.value / 135) * 100] percent,
    as the fraction [value * 100 / 135]. *)
Definition bar_width (value : Z) : Z * Z := (value * 100, 135).

(** The KPI cards' fixed texts. *)
Definition kpi_open : Z := 73.
Definition kpi_resolution_rate : Z := 87.

Definition sum_Z (l : list Z) : Z := foldr Z.add 0 l.

(** [<Tabs defaultValue="overview">]: the reports page's only state. *)
Inductive reports_tab := RTabOverview | RTabPerformance | RTabCategories.

(** ** [MainLayout] and [App] *)

(** [type Page] *)
Inductive Page := PTickets | PSettings | PReports.

#[export] Instance Page_eq_dec : EqDecision Page.
Proof. solve_decision. Defined.

Record nav_item := NavItem { nav_id : Page; nav_label : jstr }.

Definition navigation : list nav_item :=
  [NavItem PTickets "Chamados"%js; NavItem PReports "Relatórios"%js; NavItem PSettings "Configurações"%js].

(** The page component mounted in [<main>], with its state. *)
Inductive mounted := MTickets (ps : page_state) | MSettings (s : settings_state) | MReports (t : reports_tab).

Definition page_of (m : mounted) : Page :=
  match m with MTickets _ => PTickets | MSettings _ => PSettings | MReports _ => PReports end.

Record layout_state := LayoutState { currentPage : Page; content : mounted }.

Definition tickets_of_layout (l : layout_state) : list Ticket :=
  match content l with MTickets ps => pg_tickets ps | _ => [] end.

Inductive layout_action :=
| Navigate (p : Page)                 (* a button of [navigation], desktop or mobile *)
| MenuSettings                        (* the dropdown's "Configurações" *)
| TicketsAct (a : page_action)
| SettingsAct (a : settings_action)
| ReportsAct (t : reports_tab).       (* a trigger of the reports page's tabs *)

Inductive app_state := SignedOut | SignedIn (u : User) (l : layout_state) | Crashed (e : exn).

Inductive app_action := Login (u : User) | Logout | LayoutAct (a : layout_action).

Section Layout.
  Variable toUpperCase toLowerCase : jstr → jstr.

(** [{currentPage === 'tickets' && <TicketsPage user={user} />}] and the
    like: the page as first mounted. *)
Definition mount_page (u : User) (p : Page) : mounted :=
  match p with
  | PTickets => MTickets (page_init u)
  | PSettings => MSettings settings_init
  | PReports => MReports RTabOverview
  end.

Definition layout_init (u : User) : layout_state := LayoutState PTickets (mount_page u PTickets).

(** [setCurrentPage(p)]: React keeps the state when the page does not
    change; otherwise the old page is unmounted and the new one mounted. *)
Definition setCurrentPage (u : User) (p : Page) (l : layout_state) : layout_state :=
  if decide (p = currentPage l) then l else LayoutState p (mount_page u p).

(** The avatar's fallback:
    [user.name.split(' ').map(n => n[0]).join('').toUpperCase()]. *)
Definition header_initials (u : User) : res exn jstr :=
  (λ parts, toUpperCase (concat (map first_unit parts))) <$> user_name_split (user_name u).

(** What a render evaluates that can throw: the header's initials, the
    profile's name fields on the settings page's profile tab and the ticket list's
    filter on the tickets page. *)
Definition render (u : User) (l : layout_state) : res exn unit :=
  _ ← header_initials u;
  match content l with
  | MTickets ps =>
      match pg_filters ps with
      | Some f => (λ _, ()) <$> filteredTickets toLowerCase f (pg_tickets ps)
      | None => Ok ()
      end
  | MSettings s => match active_tab s with
                   | TabProfile => (λ _, ()) <$> user_name_split (user_name u)
                   | _ => Ok ()
                   end
  | MReports _ => Ok ()
  end.

Definition layout_run (u : User) (a : layout_action) (l : layout_state) : option layout_state :=
  match a, content l with
  | Navigate p, _ => Some (setCurrentPage u p l)
  | MenuSettings, _ => Some (setCurrentPage u PSettings l)
  | TicketsAct a, MTickets ps => (λ ps', LayoutState (currentPage l) (MTickets ps')) <$> page_run toLowerCase u a ps
  | SettingsAct a, MSettings s => (λ s', LayoutState (currentPage l) (MSettings s')) <$> settings_run a s
  | ReportsAct t, MReports _ => Some (LayoutState (currentPage l) (MReports t))
  | _, _ => None
  end.

(** React commits a render that returns; an exception thrown while
    rendering unmounts the whole tree. *)
Definition commit (u : User) (l : layout_state) : app_state :=
  match render u l with Ok _ => SignedIn u l | Throw e => Crashed e end.

(** [App]: [handleLogin], the dropdown's "Sair" ([onLogout] is
    [handleLogout]) and the layout's own actions. *)
Definition app_run (a : app_action) (s : app_state) : option app_state :=
  match a, s with
  | Login u, SignedOut => Some (commit u (layout_init u))
  | Logout, SignedIn _ _ => Some SignedOut
  | LayoutAct a, SignedIn u l => commit u <$> layout_run u a l
  | _, _ => None
  end.

Inductive app_step (s : app_state) : app_state → Prop :=
| app_step_run a s' : app_run a s = Some s' → app_step s s'.

Definition app_reachable : app_state → Prop := rtc app_step SignedOut.

End Layout.

(** ** Lemmas on the layout *)

Lemma page_of_mount u p : page_of (mount_page u p) = p.
Proof. by destruct p. Qed.

Lemma setCurrentPage_page u p l :
  page_of (content l) = currentPage l → page_of (content (setCurrentPage u p l)) = currentPage (setCurrentPage u p l).
Proof. unfold setCurrentPage. case_decide; [done|]. intros _. apply page_of_mount. Qed.

Section LayoutFacts.
  Variable toUpperCase toLowerCase : jstr → jstr.

Lemma layout_run_page u a l l' :
  page_of (content l) = currentPage l → layout_run toLowerCase u a l = Some l' →
  page_of (content l') = currentPage l'.
Proof.
  intros Hl. destruct a as [p| |a|a|t].
  - intros [= <-]. by apply setCurrentPage_page.
  - intros [= <-]. by apply setCurrentPage_page.
  - destruct l as [cp [ps| |]]; simpl in *; try done.
    rewrite fmap_Some. by intros (ps' & _ & ->).
  - destruct l as [cp [|s|]]; simpl in *; try done.
    rewrite fmap_Some. by intros (s' & _ & ->).
  - destruct l as [cp [| |t0]]; simpl in *; try done. by intros [= <-].
Qed.

Lemma commit_SignedIn u l u' l' :
  commit toUpperCase toLowerCase u l = SignedIn u' l' → u' = u ∧ l' = l.
Proof. unfold commit. by destruct (render _ _ u l); intros [= -> ->]. Qed.

(** The well-formedness of an application state: a signed-in layout
    shows the page its [currentPage] names. *)
Definition app_wf (s : app_state) : Prop :=
  ∀ u l, s = SignedIn u l → page_of (content l) = currentPage l.

Lemma app_run_wf a s s' :
  app_wf s → app_run toUpperCase toLowerCase a s = Some s' → app_wf s'.
Proof.
  intros Hs. destruct a as [u| |a], s as [|u0 l0|e]; simpl; try done.
  - intros [= <-] u' l' Hc. apply commit_SignedIn in Hc as [-> ->]. done.
  - by intros [= <-].
  - rewrite fmap_Some. intros (l1 & Hl1 & ->) u' l' Hc. apply commit_SignedIn in Hc as [-> ->].
    eapply layout_run_page; [|exact Hl1]. by apply (Hs u0 l0).
Qed.

(** A render with a name that is not a string throws at the header. *)
Lemma render_non_string u l :
  (∀ s, user_name u ≠ JStr s) → render toUpperCase toLowerCase u l = Throw (split_error (user_name u)).
Proof.
  intros Hn. unfold render, header_initials, user_name_split.
  destruct (user_name u) eqn:E; try done. by destruct (Hn s).
Qed.

End LayoutFacts.

(** ** Properties of the layout *)

Section LayoutTheorems.
  Variable toUpperCase toLowerCase : jstr → jstr.

(** Every reachable state of the application is well formed: a
    signed-in layout always shows the page [currentPage] names, so its
    navigation buttons highlight the page on screen. *)
Theorem app_reachable_wf s :
  app_reachable toUpperCase toLowerCase s → app_wf s.
Proof.
  intros Hr. apply (rtc_preserved _ app_wf) with (2 := Hr); [|done].
  intros x y Hx [a ? Ha]. by eapply app_run_wf.
Qed.

(** C16. Leaving the tickets page unmounts it: coming back shows the
    three fixture tickets again, whatever was created, edited or deleted
    before, and no ticket is selected. *)
Theorem navigation_resets_tickets u l p :
  currentPage l = PTickets → p ≠ PTickets →
  setCurrentPage u PTickets (setCurrentPage u p l) = layout_init u.
Proof.
  intros Hl Hp. unfold setCurrentPage at 2. rewrite Hl. rewrite decide_False by done.
  unfold setCurrentPage. simpl. by rewrite decide_False by done.
Qed.

(** The profile's first and last name fields give the name back:
    the first field, then, when the name has a space, a space and the
    second field. *)
Theorem profile_name_roundtrip s :
  s = first_name (split_on ch_space s) ++
      (if bool_decide (ch_space ∈ s) then ch_space :: last_name (split_on ch_space s) else []).
Proof.
  pose proof (join_split ch_space s) as Hj. pose proof (split_on_parts_nosep ch_space s) as Hp.
  destruct (split_on ch_space s) as [|p [|q qs]] eqn:E; [by destruct (split_on_not_nil ch_space s)| |].
  - simpl in Hj |- *. subst s. apply Forall_cons in Hp as [Hp _].
    rewrite bool_decide_false by done. by rewrite app_nil_r.
  - rewrite bool_decide_true; [|rewrite <- Hj; simpl; apply elem_of_app; right; by left].
    unfold first_name, last_name. simpl. by rewrite <- Hj.
Qed.

  Context `{Base64Api} `{JsonApi}.
  Variable cfg : env.

(** C10. A token [validateToken] accepts whose [name] claim is truthy
    but not a string (a number, [true], an array or an object) signs the
    user in, and the first render of [MainLayout] then throws a
    [TypeError] at [user.name.split]: the application is unmounted. *)
Theorem non_string_name_crashes_app t p email v :
  t ≠ [] → decodeJwt t = Ok p →
  get_prop p "email"%js = Some (JStr email) → ends_with email (ALLOWED_DOMAIN cfg) = true →
  truthy (get_prop p "email_verified"%js) = true →
  get_prop p "name"%js = Some v → truthy (Some v) = true → (∀ s, v ≠ JStr s) →
  ∃ u, (validateToken cfg t).2 = Ok u ∧ user_name u = v ∧
       app_run toUpperCase toLowerCase (Login u) SignedOut = Some (Crashed (split_error v)).
Proof.
  intros Ht Hd He Hs Hv Hn Hnt Hns. exists (make_user p email).
  assert (Hu : user_name (make_user p email) = v).
  { unfold make_user. cbn [user_name]. rewrite Hn. unfold js_or. by rewrite Hnt. }
  split; [|split; [done|]].
  - by apply validateToken_accepts.
  - simpl. unfold commit. rewrite render_non_string; rewrite Hu; [done|done].
Qed.

End LayoutTheorems.

(** ** A session of the application *)

(** [toUpperCase] on the ASCII letters, every other unit unchanged. *)
Definition ascii_upper (s : jstr) : jstr :=
  map (λ c, if (97 <=? c) && (c <=? 122) then c - 32 else c) s.

(** Ana signs in, creates a ticket, then opens the reports. *)
Definition with_new_ticket : layout_state := LayoutState PTickets (MTickets (page_after_new tickets_user)).
Definition on_reports : layout_state := LayoutState PReports (MReports RTabOverview).

Lemma app_reachable_wf_witness :
  app_reachable ascii_upper ascii_lower (SignedIn tickets_user on_reports) ∧
  app_wf (SignedIn tickets_user on_reports).
Proof.
  assert (Hr : app_reachable ascii_upper ascii_lower (SignedIn tickets_user on_reports)).
  { apply rtc_l with (SignedIn tickets_user (layout_init tickets_user)).
    { apply (app_step_run _ _ _ (Login tickets_user)). vm_compute. reflexivity. }
    apply rtc_once. apply (app_step_run _ _ _ (LayoutAct (Navigate PReports))). vm_compute. reflexivity. }
  split; [exact Hr|]. exact (app_reachable_wf ascii_upper ascii_lower _ Hr).
Defined.

Lemma navigation_resets_tickets_witness :
  length (tickets_of_layout with_new_ticket) = 4%nat ∧
  setCurrentPage tickets_user PTickets (setCurrentPage tickets_user PReports with_new_ticket) =
    layout_init tickets_user ∧
  length (tickets_of_layout (layout_init tickets_user)) = 3%nat.
Proof.
  split; [vm_compute; reflexivity|]. split; [|vm_compute; reflexivity].
  apply navigation_resets_tickets; [reflexivity|discriminate].
Defined.

(** A token accepted with the claim ["name": 42]. *)
Definition eve_claims : json :=
  JObj [("email"%js, JStr ("eve@example-corp.example"%js)); ("email_verified"%js, JBool true);
        ("name"%js, JNum (JNumLit false 42 0))].
Definition eve_token : jstr :=
  make_token demo_header
    (json_text "{'email':'eve@example-corp.example','email_verified':true,'name':42}"%js) demo_signature.

Lemma non_string_name_crashes_app_witness :
  decodeJwt eve_token = Ok eve_claims ∧
  ∃ u, (validateToken demo_env eve_token).2 = Ok u ∧ user_name u = JNum (JNumLit false 42 0) ∧
       app_run ascii_upper ascii_lower (Login u) SignedOut =
         Some (Crashed (split_error (JNum (JNumLit false 42 0)))).
Proof.
  assert (Hd : decodeJwt eve_token = Ok eve_claims) by (vm_compute; reflexivity).
  split; [exact Hd|].
  apply (non_string_name_crashes_app ascii_upper ascii_lower demo_env eve_token eve_claims
           "eve@example-corp.example"%js).
  - vm_compute. discriminate.
  - exact Hd.
  - vm_compute. reflexivity.
  - vm_compute. reflexivity.
  - vm_compute. reflexivity.
  - vm_compute. reflexivity.
  - vm_compute. reflexivity.
  - intros s. discriminate.
Defined.

(** ** The reports' fixed data *)

(** The category bars divide by the total of the categories, so they
    fill the whole width together; the pie's rounded labels also sum to
    100. *)
Example category_bars_total :
  sum_Z (map snd ticketsByCategory) = (bar_width 0).2 ∧
  sum_Z (map (λ c, pie_percent (sum_Z (map snd ticketsByCategory)) c.2) ticketsByCategory) = 100.
Proof. vm_compute. split; reflexivity. Qed.

(** The "Chamados Abertos" card is the week's opened tickets; the
    "Taxa de Resolução" card does not match the week's figures (60 of 73
    resolved, 82%). *)
Example kpi_against_week :
  kpi_open = sum_Z (map abertos ticketsByDay) ∧
  pie_percent (sum_Z (map abertos ticketsByDay)) (sum_Z (map resolvidos ticketsByDay)) = 82 ∧
  kpi_resolution_rate ≠ 82.
Proof. vm_compute. split; [reflexivity|]. split; [reflexivity|discriminate]. Qed.

(** Each category gets its own colour. *)
Example category_colours_distinct :
  NoDup (imap (λ i _, cell_color i) ticketsByCategory).
Proof. apply (bool_decide_unpack _). vm_compute. reflexivity. Qed.
