(* ===== verification/PagesView.v ===== *)
(** * What the layout, the settings page and the reports page show

    The renders of [MainLayout] (main-layout-old.tsx lines 35-128),
    [SettingsPage] (settings-page.tsx lines 39-318) and [ReportsPage]
    (reports-page.tsx lines 36-301), as records of the texts and controls
    on screen, computed from the states of [Layout]; a Radix [Tabs]
    renders the content of its active tab only.  The charts are
    drawn by recharts from the data they are given; the view holds that
    data and the labels the page computes. *)

From S2P Require Import Prelude Js JsonValue Platform Base64 JsonParse JsonPrint Config TokenValidator Tickets Layout.

(** ** [MainLayout] *)

(** A navigation button: its label, and [variant="default"] when it is
    the current page ([ghost] otherwise). *)
Record nav_view := NavView { nv_label : jstr; nv_active : bool }.

Record layout_view := LayoutView {
  lyv_nav : list nav_view;        (* the desktop and the mobile navigation *)
  lyv_picture : option json;      (* the avatar's image, [user.picture] *)
  lyv_initials : jstr;            (* the avatar's fallback *)
  lyv_name : json;                (* the dropdown's label: name and e-mail *)
  lyv_email : jstr;
  lyv_page : Page                 (* the page rendered in <main> *)
}.

(** ** [SettingsPage] *)

Record member_view := MemberView { mv_initials : jstr; mv_name : jstr; mv_email : jstr; mv_role : jstr }.

(** The content of the active tab. *)
Inductive settings_view :=
| SProfile (avatar_initials name email firstName lastName : jstr)
| SNotifications (email push autoAssign : bool)
| STeam (members : list member_view)
| SSystem (theme : jstr).

(** [member.name.split(' ').map(n => n[0]).join('')], without
    upper-casing. *)
Definition member_view_of (m : team_member) : member_view :=
  MemberView (name_initials (tm_name m)) (tm_name m) (tm_email m) (tm_role m).

(** ** [ReportsPage] *)

(** The "Chamados por Status" block: label, count and the percentage
    text in tenths of a percent. *)
Definition status_rows : list (jstr * Z * Z) :=
  [("Abertos"%js, 23, 315); ("Em Andamento"%js, 18, 247); ("Resolvidos"%js, 28, 384); ("Fechados"%js, 4, 55)].

(** The four KPI cards: title and value. *)
Definition kpis : list (jstr * jstr) :=
  [("Tempo Médio de Resposta"%js, "2.9 horas"%js); ("Taxa de Resolução"%js, "87%"%js);
   ("Chamados Abertos"%js, "73"%js); ("Satisfação do Cliente"%js, "4.6/5.0"%js)].

(** [responseTime], the response time in tenths of an hour. *)
Definition responseTime : list (jstr * Z) :=
  [("Jul"%js, 42); ("Ago"%js, 38); ("Set"%js, 35); ("Out"%js, 32); ("Nov"%js, 29)].

(** A slice of the pie: its label [`${name} ${(percent * 100).toFixed(0)}%`]
    and its [Cell]'s colour. *)
Record slice_view := SliceView { sl_label : jstr; sl_color : option jstr }.

(** A row of the category tab: name, ["<value> chamados"], the bar's
    width and colour. *)
Record category_row := CategoryRow {
  cr_name : jstr; cr_count : jstr; cr_width : Z * Z; cr_color : option jstr
}.

(** The content of the active tab. *)
Inductive reports_body :=
| ROverview (byDay : list day_row) (slices : list slice_view) (status : list (jstr * Z * Z))
| RPerformance (responseTime : list (jstr * Z))
| RCategories (rows : list category_row).

Record reports_view := ReportsView {
  rv_kpis : list (jstr * jstr);
  rv_body : reports_body
}.

(** The cards above the tabs and the active tab's content. *)
Definition ReportsPage_view (t : reports_tab) : reports_view :=
  let total := sum_Z (map snd ticketsByCategory) in
  ReportsView kpis
    (match t with
     | RTabOverview =>
         ROverview ticketsByDay
           (imap (λ i c, SliceView (c.1 ++ [ch_space] ++ Z_toString (pie_percent total c.2) ++ "%"%js) (cell_color i))
              ticketsByCategory)
           status_rows
     | RTabPerformance => RPerformance responseTime
     | RTabCategories =>
         RCategories (imap (λ i c, CategoryRow c.1 (Z_toString c.2 ++ " chamados"%js) (bar_width c.2) (cell_color i))
                        ticketsByCategory)
     end).

Section Views.
  Variable toUpperCase : jstr → jstr.

(** [MainLayout]'s header and the page it shows; the initials throw on
    a name that is not a string. *)
Definition MainLayout_view (u : User) (l : layout_state) : res exn layout_view :=
  initials ← header_initials toUpperCase u;
  Ok (LayoutView (map (λ it, NavView (nav_label it) (bool_decide (nav_id it = currentPage l))) navigation)
        (user_picture u) initials (user_name u) (user_email u) (page_of (content l))).

(** [SettingsPage]'s active tab. *)
Definition SettingsPage_view (u : User) (s : settings_state) : res exn settings_view :=
  match active_tab s with
  | TabProfile =>
      match user_name u with
      | JStr n =>
          let parts := split_on ch_space n in
          Ok (SProfile (toUpperCase (name_initials n)) n (user_email u) (first_name parts) (last_name parts))
      | v => Throw (split_error v)
      end
  | TabNotifications => Ok (SNotifications (emailNotifications s) (pushNotifications s) (autoAssign s))
  | TabTeam => Ok (STeam (map member_view_of teamMembers))
  | TabSystem => Ok (SSystem (theme s))
  end.

End Views.

(** ** What the pages show *)

Section ViewFacts.
  Variable toUpperCase toLowerCase : jstr → jstr.

(** In a well-formed layout exactly one navigation button is
    highlighted, and it names the page rendered in [<main>]. *)
Lemma MainLayout_view_active u l v :
  page_of (content l) = currentPage l → MainLayout_view toUpperCase u l = Ok v →
  ∃ it, it ∈ navigation ∧ nav_id it = lyv_page v ∧
        filter nv_active (lyv_nav v) = [NavView (nav_label it) true].
Proof.
  unfold MainLayout_view. intros Hwf.
  destruct (header_initials _ u) as [i|e]; simpl; [|done]. intros [= <-]; simpl. rewrite Hwf.
  destruct (currentPage l); [exists (NavItem PTickets "Chamados"%js)
    |exists (NavItem PSettings "Configurações"%js)|exists (NavItem PReports "Relatórios"%js)];
    (split; [set_solver|]); vm_compute; auto.
Qed.

(** With the settings page mounted, [render] returns exactly when the
    header's initials and the settings page's active tab both render:
    the profile tab's name fields are the only expression of the page
    that can throw. *)
Lemma SettingsPage_view_render u l s :
  content l = MSettings s →
  is_ok (render toUpperCase toLowerCase u l) = is_ok (header_initials toUpperCase u) && is_ok (SettingsPage_view toUpperCase u s).
Proof.
  intros Hc. unfold render, header_initials, user_name_split, SettingsPage_view. rewrite Hc.
  destruct (user_name u), (active_tab s); reflexivity.
Qed.

End ViewFacts.

(** The status block's percentages are the counts over their total,
    73, rounded to a tenth; that total is the "Chamados Abertos" card,
    which counts the tickets of every status. *)
Example status_percentages :
  Forall (λ r, r.2 = (2000 * r.1.2 + 73) / (2 * 73)) status_rows ∧
  Z_toString (sum_Z (map (λ r, r.1.2) status_rows)) = (kpis !!! 2%nat).2.
Proof. split; [repeat constructor|reflexivity]. Qed.

(** ** From a token to the first screen *)

Section EndToEnd.
  Context `{Base64Api} `{JsonApi}.
  Variable cfg : env.
  Variable toUpperCase toLowerCase : jstr → jstr.

(** C32. A token [validateToken] accepts, whose [name] claim is a
    non-empty string, signs the user in: [App] commits the first render
    of [MainLayout], which shows the tickets page with the three fixture
    tickets, highlights "Chamados" and shows the name, the e-mail and the
    upper-cased initials of the name in the header. *)
Theorem valid_token_shows_tickets t p email n :
  t ≠ [] → decodeJwt t = Ok p →
  get_prop p "email"%js = Some (JStr email) → ends_with email (ALLOWED_DOMAIN cfg) = true →
  truthy (get_prop p "email_verified"%js) = true →
  get_prop p "name"%js = Some (JStr n) → n ≠ [] →
  ∃ u, (validateToken cfg t).2 = Ok u ∧
       app_run toUpperCase toLowerCase (Login u) SignedOut = Some (SignedIn u (layout_init u)) ∧
       tickets_of_layout (layout_init u) = fixture_tickets ∧
       MainLayout_view toUpperCase u (layout_init u) =
         Ok (LayoutView (map (λ it, NavView (nav_label it) (bool_decide (nav_id it = PTickets))) navigation)
               (user_picture u) (toUpperCase (name_initials n)) (JStr n) email PTickets).
Proof.
  intros Ht Hd He Hs Hv Hn Hn0. exists (make_user p email).
  assert (Hu : user_name (make_user p email) = JStr n).
  { unfold make_user. cbn [user_name]. rewrite Hn. unfold js_or. simpl. by rewrite bool_decide_true. }
  split; [by apply validateToken_accepts|]. split; [|split; [done|]].
  - assert (Hr : is_ok (render toUpperCase toLowerCase (make_user p email) (layout_init (make_user p email))) = true).
    { unfold render, header_initials, user_name_split. rewrite Hu. cbn -[filteredTickets].
      pose proof (filteredTickets_string_names toLowerCase filters_init fixture_tickets) as Hf.
      destruct (filteredTickets _ _ _); [done|]. apply Hf. repeat constructor; eexists; reflexivity. }
    cbn [app_run]. unfold commit. by destruct (render _ _ _ _).
  - unfold MainLayout_view, header_initials, user_name_split. rewrite Hu. reflexivity.
Qed.

End EndToEnd.

(** Ana's token: the tickets page with "AL" in the header. *)
Lemma valid_token_shows_tickets_witness :
  decodeJwt ana_token = Ok ana_claims ∧
  ∃ u, (validateToken demo_env ana_token).2 = Ok u ∧
       app_run ascii_upper ascii_lower (Login u) SignedOut = Some (SignedIn u (layout_init u)) ∧
       tickets_of_layout (layout_init u) = fixture_tickets ∧
       MainLayout_view ascii_upper u (layout_init u) =
         Ok (LayoutView (map (λ it, NavView (nav_label it) (bool_decide (nav_id it = PTickets))) navigation)
               (user_picture u) (ascii_upper (name_initials "Ana Lima"%js)) (JStr "Ana Lima"%js)
               "ana@example-corp.example"%js PTickets).
Proof.
  assert (Hd : decodeJwt ana_token = Ok ana_claims) by (vm_compute; reflexivity).
  split; [exact Hd|].
  apply (valid_token_shows_tickets demo_env ascii_upper ascii_lower ana_token ana_claims
           "ana@example-corp.example"%js "Ana Lima"%js).
  - vm_compute. discriminate.
  - exact Hd.
  - vm_compute. reflexivity.
  - vm_compute. reflexivity.
  - vm_compute. reflexivity.
  - vm_compute. reflexivity.
  - vm_compute. discriminate.
Defined.
